(** * CFPB complaint pipeline: ingestion, caching, filtering, classification

    A shallow embedding of the core of the repository:
    - [analysis/real_data_fetcher_lite.py]   (class [RealDataFetcher]),
    - [analysis/real_data_fetcher_search.py] (class [SearchAPIRealDataFetcher]),
    - [analysis/cfpb_analyzer.py]            (class [CFPBAnalyzer]).

    Conventions.
    - Instants ([datetime]) and durations ([timedelta]) are integers counting
      microseconds, the resolution of Python's [datetime].
    - Python [str] values are Rocq strings of 7-bit characters.
    - A pandas [DataFrame] is an ordered list of named, typed columns; a
      boolean mask is a [list bool]; [df[mask]] keeps the rows whose mask
      entry is [true].
    - Code that can raise returns a [result]; [print] calls that matter are
      kept as a list of messages.
    - Python's [float] and numpy's [float64] are IEEE 754 binary64 numbers:
      the primitive floats of the kernel. *)

From Stdlib Require Import ZArith List String Ascii Bool Lia.
From Stdlib Require Floats Uint63.
From stdpp Require Import base gmap strings list.

Local Open Scope string_scope.
Local Open Scope list_scope.
Local Open Scope Z_scope.

(* ===================================================================== *)
(** * Part I: the program                                                 *)
(* ===================================================================== *)

(** ** Exceptions and the error monad *)

Inductive exn : Type :=
| KeyError (key : string)
| AttributeError (attr : string)
| TypeError
| ValueError
| HTTPError
| ReError.

Inductive result (A : Type) : Type :=
| Ok (a : A)
| Raise (e : exn).
Arguments Ok {A} a.
Arguments Raise {A} e.

Definition rbind {A B} (m : result A) (k : A -> result B) : result B :=
  match m with
  | Ok a => k a
  | Raise e => Raise e
  end.

Notation "'let!' x ':=' m 'in' k" := (rbind m (fun x => k))
  (at level 10, x name, m at level 100, k at level 200).

Definition is_ok {A} (m : result A) : bool :=
  match m with Ok _ => true | Raise _ => false end.

(** ** Python strings *)

Module PyStr.

(** [str.isspace] on the ASCII range: TAB, LF, VT, FF, CR, FS, GS, RS, US
    and SPACE. *)
Definition isspace (c : ascii) : bool :=
  let n := nat_of_ascii c in
  ((9 <=? n)%nat && (n <=? 13)%nat) || ((28 <=? n)%nat && (n <=? 32)%nat).

Fixpoint lstrip (s : string) : string :=
  match s with
  | String c s' => if isspace c then lstrip s' else s
  | EmptyString => EmptyString
  end.

(** [rstrip] drops the maximal suffix of whitespace. *)
Fixpoint rstrip (s : string) : string :=
  match s with
  | EmptyString => EmptyString
  | String c s' =>
      match rstrip s' with
      | EmptyString => if isspace c then EmptyString else String c EmptyString
      | r => String c r
      end
  end.

(** [s.strip()] *)
Definition strip (s : string) : string := rstrip (lstrip s).

Definition lower_char (c : ascii) : ascii :=
  let n := nat_of_ascii c in
  if ((65 <=? n)%nat && (n <=? 90)%nat)%bool then ascii_of_nat (n + 32) else c.

(** [s.lower()] *)
Fixpoint lower (s : string) : string :=
  match s with
  | EmptyString => EmptyString
  | String c s' => String (lower_char c) (lower s')
  end.

(** [s.rstrip(ch)] for a one-character argument. *)
Fixpoint rstrip_char (ch : ascii) (s : string) : string :=
  match s with
  | EmptyString => EmptyString
  | String c s' =>
      match rstrip_char ch s' with
      | EmptyString => if Ascii.eqb c ch then EmptyString else String c EmptyString
      | r => String c r
      end
  end.

(** [x in xs] for a tuple, list or set of strings. *)
Definition mem (x : string) (xs : list string) : bool :=
  existsb (String.eqb x) xs.

Definition digit (c : ascii) : option Z :=
  let n := nat_of_ascii c in
  if ((48 <=? n)%nat && (n <=? 57)%nat)%bool then Some (Z.of_nat (n - 48)) else None.

(** The digits of an integer literal; single underscores may separate
    digits.  [acc] is the value read so far, [after_digit] tells whether the
    previous character was a digit. *)
Fixpoint digits (s : string) (acc : Z) (after_digit : bool) : option Z :=
  match s with
  | EmptyString => if after_digit then Some acc else None
  | String c s' =>
      match digit c with
      | Some d => digits s' (10 * acc + d) true
      | None =>
          if (Ascii.eqb c "_" && after_digit)%bool then
            match s' with
            | String c' _ =>
                match digit c' with
                | Some _ => digits s' acc false
                | None => None
                end
            | EmptyString => None
            end
          else None
      end
  end.

(** The whitespace that [int] skips around a literal: TAB, LF, VT, FF, CR
    and SPACE (C's [isspace]; the separators FS, GS, RS and US that
    [str.strip] removes are not among them). *)
Definition isspace_c (c : ascii) : bool :=
  let n := nat_of_ascii c in
  ((9 <=? n)%nat && (n <=? 13)%nat) || (n =? 32)%nat.

Fixpoint lstrip_c (s : string) : string :=
  match s with
  | String c s' => if isspace_c c then lstrip_c s' else s
  | EmptyString => EmptyString
  end.

Fixpoint rstrip_c (s : string) : string :=
  match s with
  | EmptyString => EmptyString
  | String c s' =>
      match rstrip_c s' with
      | EmptyString => if isspace_c c then EmptyString else String c EmptyString
      | r => String c r
      end
  end.

(** The number of decimal digits in a literal. *)
Fixpoint count_digits (s : string) : nat :=
  match s with
  | EmptyString => O
  | String c s' =>
      match digit c with
      | Some _ => S (count_digits s')
      | None => count_digits s'
      end
  end.

(** [sys.get_int_max_str_digits()], by default. *)
Definition int_max_str_digits : nat := 4300.

(** [int(s)] for a string argument: surrounding whitespace, an optional sign,
    decimal digits, no more than [int_max_str_digits] of them.  [None] stands
    for [ValueError]. *)
Definition int (s : string) : option Z :=
  let literal := rstrip_c (lstrip_c s) in
  if (int_max_str_digits <? count_digits literal)%nat then None else
  match literal with
  | String "-" s' => option_map Z.opp (digits s' 0 false)
  | String "+" s' => digits s' 0 false
  | s' => digits s' 0 false
  end.

End PyStr.

(** ** Numbers *)

Module PyFloat.

(** [float(n)] for a count [n]: the nearest binary64 number, which is [n]
    itself below [2^53].  Counts are lengths of tables and stay below
    [2^63]. *)
Definition of_nat (n : nat) : PrimFloat.float :=
  PrimFloat.of_uint63 (Uint63.of_Z (Z.of_nat n)).

(** The same for a difference of two counts. *)
Definition of_Z (z : Z) : PrimFloat.float :=
  if z <? 0 then PrimFloat.opp (PrimFloat.of_uint63 (Uint63.of_Z (- z)))
  else PrimFloat.of_uint63 (Uint63.of_Z z).

End PyFloat.

(** ** Time *)

Definition microseconds_per_day : Z := 86400 * 1000000.

(** [timedelta(days=n)] *)
Definition timedelta_days (n : Z) : Z := n * microseconds_per_day.

(** [td.days]: whole days, rounded towards minus infinity. *)
Definition days_of (td : Z) : Z := td / microseconds_per_day.

(** Days from 1970-01-01 to the given day of the proleptic Gregorian
    calendar. *)
Definition days_from_civil (y m d : Z) : Z :=
  let y := if m <=? 2 then y - 1 else y in
  let era := y / 400 in
  let yoe := y - era * 400 in
  let doy := (153 * (if m >? 2 then m - 3 else m + 9) + 2) / 5 + d - 1 in
  let doe := yoe * 365 + yoe / 4 - yoe / 100 + doy in
  era * 146097 + doe - 719468.

(** [datetime(y, m, d)] *)
Definition datetime (y m d : Z) : Z := timedelta_days (days_from_civil y m d).

(** ** pandas *)

Module Pandas.

(** A column with its dtype: [object] columns hold text or a missing value
    ([None]/[NaN]); [datetime64] columns hold an instant or [NaT]; a
    [float64] column of [n] missing values ([NaN]) is what [pd.read_csv]
    makes of a column in which no row has a value. *)
Inductive Series : Type :=
| ObjectCol (xs : list (option string))
| DatetimeCol (xs : list (option Z))
| MissingCol (n : nat).

Definition DataFrame : Type := list (string * Series).

Abbreviation mask := (list bool).

Definition series_len (s : Series) : nat :=
  match s with
  | ObjectCol xs => length xs
  | DatetimeCol xs => length xs
  | MissingCol n => n
  end.

(** [df.columns] *)
Definition columns (df : DataFrame) : list string := map fst df.

(** [c in df.columns] *)
Definition has_column (df : DataFrame) (c : string) : bool :=
  PyStr.mem c (columns df).

(** [len(df)] *)
Definition len (df : DataFrame) : nat :=
  match df with
  | [] => 0%nat
  | (_, s) :: _ => series_len s
  end.

(** [df.empty] *)
Definition empty (df : DataFrame) : bool := Nat.eqb (len df) 0.

(** [df[c]] *)
Fixpoint getitem (df : DataFrame) (c : string) : result Series :=
  match df with
  | [] => Raise (KeyError c)
  | (c', s) :: df' => if String.eqb c' c then Ok s else getitem df' c
  end.

(** [df[c] = s]: replaces the column in place, or appends a new one. *)
Fixpoint setitem (df : DataFrame) (c : string) (s : Series) : DataFrame :=
  match df with
  | [] => [(c, s)]
  | (c', s') :: df' =>
      if String.eqb c' c then (c', s) :: df' else (c', s') :: setitem df' c s
  end.

(** Keeping the entries of [xs] whose mask entry is [true]. *)
Fixpoint select {A} (m : mask) (xs : list A) : list A :=
  match m, xs with
  | b :: m', x :: xs' => if b then x :: select m' xs' else select m' xs'
  | _, _ => []
  end.

Definition series_select (m : mask) (s : Series) : Series :=
  match s with
  | ObjectCol xs => ObjectCol (select m xs)
  | DatetimeCol xs => DatetimeCol (select m xs)
  | MissingCol n => MissingCol (length (select m (repeat tt n)))
  end.

(** [df[mask]] *)
Definition loc (df : DataFrame) (m : mask) : DataFrame :=
  map (fun '(c, s) => (c, series_select m s)) df.

(** [m1 & m2], [~m] *)
Fixpoint mask_and (m1 m2 : mask) : mask :=
  match m1, m2 with
  | a :: m1', b :: m2' => (a && b) :: mask_and m1' m2'
  | _, _ => []
  end.

Definition mask_not (m : mask) : mask := map negb m.

(** [m.sum()] *)
Definition mask_sum (m : mask) : nat := length (List.filter id m).

(** [pd.Series([True] * n)] *)
Definition all_true (n : nat) : mask := repeat true n.

(** [s >= t] and [s <= t] against a [datetime]: [NaT] compares false; text
    and numbers cannot be ordered against a [datetime]. *)
Definition ge_datetime (s : Series) (t : Z) : result mask :=
  match s with
  | DatetimeCol xs =>
      Ok (map (fun x => match x with Some d => t <=? d | None => false end) xs)
  | ObjectCol _ | MissingCol _ => Raise TypeError
  end.

Definition le_datetime (s : Series) (t : Z) : result mask :=
  match s with
  | DatetimeCol xs =>
      Ok (map (fun x => match x with Some d => d <=? t | None => false end) xs)
  | ObjectCol _ | MissingCol _ => Raise TypeError
  end.

(** [s.notna()] *)
Definition notna (s : Series) : mask :=
  match s with
  | ObjectCol xs => map (fun x => bool_decide (is_Some x)) xs
  | DatetimeCol xs => map (fun x => bool_decide (is_Some x)) xs
  | MissingCol n => repeat false n
  end.

(** [s.str.strip()]: missing values stay missing; the [.str] accessor only
    exists on [object] columns ("Can only use .str accessor with string
    values"). *)
Definition str_strip (s : Series) : result Series :=
  match s with
  | ObjectCol xs => Ok (ObjectCol (map (option_map PyStr.strip) xs))
  | DatetimeCol _ | MissingCol _ => Raise (AttributeError "str")
  end.

(** [s != v] for a string [v]: a missing value, like an instant, differs
    from every string. *)
Definition ne_str (s : Series) (v : string) : mask :=
  match s with
  | ObjectCol xs =>
      map (fun x => match x with Some x => negb (String.eqb x v) | None => true end) xs
  | DatetimeCol xs => map (fun _ => true) xs
  | MissingCol n => repeat true n
  end.

(** [s.isin(values)] for a collection of strings. *)
Definition isin (s : Series) (values : list string) : mask :=
  match s with
  | ObjectCol xs =>
      map (fun x => match x with Some x => PyStr.mem x values | None => false end) xs
  | DatetimeCol xs => map (fun _ => false) xs
  | MissingCol n => repeat false n
  end.

(** [df.rename(columns={old: new})] *)
Definition rename (df : DataFrame) (old new : string) : DataFrame :=
  map (fun '(c, s) => if String.eqb c old then (new, s) else (c, s)) df.

(** [df.drop(columns=[c])] for a column that exists. *)
Definition drop (df : DataFrame) (c : string) : DataFrame :=
  List.filter (fun cs => negb (String.eqb (fst cs) c)) df.

(** [s.min()] and [s.max()] of a datetime column skip [NaT]; the result is
    [NaT] when nothing is left. *)
Definition opt_min (a : option Z) (b : option Z) : option Z :=
  match a, b with
  | Some x, Some y => Some (Z.min x y)
  | Some x, None => Some x
  | None, b => b
  end.

Definition opt_max (a : option Z) (b : option Z) : option Z :=
  match a, b with
  | Some x, Some y => Some (Z.max x y)
  | Some x, None => Some x
  | None, b => b
  end.

Definition dt_min (xs : list (option Z)) : option Z := fold_right opt_min None xs.
Definition dt_max (xs : list (option Z)) : option Z := fold_right opt_max None xs.

Section ToDatetime.
(** The date parser behind [pd.to_datetime]; [None] when the text is not a
    date. *)
Variable parse : string -> option Z.

Fixpoint parse_all (coerce : bool) (xs : list (option string))
  : result (list (option Z)) :=
  match xs with
  | [] => Ok []
  | None :: xs' =>
      let! r := parse_all coerce xs' in Ok (None :: r)
  | Some x :: xs' =>
      match parse x with
      | Some t => let! r := parse_all coerce xs' in Ok (Some t :: r)
      | None =>
          if coerce then let! r := parse_all coerce xs' in Ok (None :: r)
          else Raise ValueError
      end
  end.

(** [pd.to_datetime(s)] and [pd.to_datetime(s, errors="coerce")]: the
    values of the resulting [datetime64] column; [NaN] becomes [NaT]. *)
Definition to_datetime (coerce : bool) (s : Series) : result (list (option Z)) :=
  match s with
  | DatetimeCol xs => Ok xs
  | ObjectCol xs => parse_all coerce xs
  | MissingCol n => Ok (repeat None n)
  end.
End ToDatetime.

End Pandas.

(** ** [analysis/real_data_fetcher_search.py] *)

Module Search.
Import Pandas.

(** The attributes of a [SearchAPIRealDataFetcher] that the pipeline reads.
    [use_cache] is [self.use_cache and self.supabase_manager]. *)
Record SearchAPIRealDataFetcher : Type := {
  start_date : Z;
  end_date : Z;
  lite_mode : bool;
  max_records : Z;
  use_cache : bool
}.

(** [self.credit_exclusions] (a set, only used for membership). *)
Definition credit_exclusions : list string :=
  [ "Credit reporting, credit repair services, or other personal consumer reports";
    "Credit reporting";
    "Credit repair services";
    "Other personal consumer reports" ].

Definition narrative_column : string := "Consumer complaint narrative".

(** The environment variables read by the constructor. *)
Record environ : Type := {
  LITE_MODE : option string;
  MAX_RECORDS : option string
}.

(** [months = max(1, min(int(months), 3))] *)
Definition clamp_months (months : Z) : Z := Z.max 1 (Z.min months 3).

(** [str(os.environ.get("LITE_MODE", "1")).lower() in ("1", "true", "yes")] *)
Definition lite_mode_of_env (v : option string) : bool :=
  PyStr.mem (PyStr.lower (default "1" v)) ["1"; "true"; "yes"].

(** [__init__(months, max_records, use_cache)] at instant [now].
    [supabase] tells whether the Supabase manager could be imported and
    constructed. *)
Definition __init__ (now : Z) (env : environ) (supabase : bool)
    (months max_records : Z) (use_cache : bool)
  : result SearchAPIRealDataFetcher :=
  let months := clamp_months months in
  let end_date := now in
  let start_date := end_date - timedelta_days (30 * months) in
  let lite := lite_mode_of_env (LITE_MODE env) in
  let! max_records :=
    match MAX_RECORDS env with
    | None => Ok max_records
    | Some v => match PyStr.int v with Some n => Ok n | None => Raise ValueError end
    end in
  Ok {| start_date := start_date; end_date := end_date; lite_mode := lite;
        max_records := max_records; use_cache := use_cache && supabase |}.

(** *** The Search API as seen by the client *)

(** The [_source] object of one hit; absent keys read as [None]. *)
Record hit : Type := {
  complaint_id : option string;
  date_received : option string;
  date_sent_to_company : option string;
  product : option string;
  issue : option string;
  company : option string;
  state : option string;
  complaint_what_happened : option string
}.

(** The query parameters of one GET request. *)
Record request : Type := {
  date_received_min : Z;
  date_received_max : Z;
  size : Z;
  frm : Z;
  has_narrative : bool
}.

(** What a request comes back with: status 400, a failure ([raise_for_status],
    the transport or the JSON decoder raising), or a body with its hits. *)
Inductive response : Type :=
| Status400
| Failure (e : exn)
| Body (hits : list hit).

Definition provider : Type := request -> response.

Inductive message : Type :=
| MsgPagingStopped (frm max_records : Z)
| MsgPaging400 (frm : Z)
| MsgCacheHit (n : nat)
| MsgCacheMiss
| MsgReachedMaxRecords (max_records : Z)
| MsgSearchError (e : exn)
| MsgNoData
| MsgLoaded (n : nat)
| MsgTruncated (max_records : Z).

(** *** [_page]: the pagination generator *)

(** The generator's local variables between two resumptions.  [finished]
    records that the test after the [yield] has chosen [break].  [warned] is
    always [False] when it is read, so it is not kept. *)
Record page_state : Type := {
  st_frm : Z;
  st_total_yielded : Z;
  st_finished : bool
}.

Definition page_start : page_state :=
  {| st_frm := 0; st_total_yielded := 0; st_finished := false |}.

(** One resumption of the generator: it runs to the next [yield], to the end
    of the loop, or to an exception, and sends at most one request. *)
Inductive page_step : Type :=
| Yield (req : request) (hits : list hit) (next : page_state)
| Stop (req : option request) (msgs : list message)
| Throw (req : request) (e : exn).

Definition page_next (self : SearchAPIRealDataFetcher) (api : provider)
    (page_size : Z) (st : page_state) : page_step :=
  if st_finished st then Stop None [] else
  let max_offset := Z.min 10000 (max_records self) in
  if (st_frm st >=? max_offset) || (st_total_yielded st >=? max_records self) then
    Stop None [MsgPagingStopped (st_frm st) (max_records self)]
  else
    let req := {| date_received_min := start_date self;
                  date_received_max := end_date self;
                  size := Z.min page_size (max_records self - st_total_yielded st);
                  frm := st_frm st;
                  has_narrative := negb (lite_mode self) |} in
    match api req with
    | Status400 => Stop (Some req) [MsgPaging400 (st_frm st)]
    | Failure e => Throw req e
    | Body [] => Stop (Some req) []
    | Body hits =>
        let total := st_total_yielded st + Z.of_nat (length hits) in
        if (Z.of_nat (length hits) <? page_size) || (total >=? max_records self) then
          Yield req hits {| st_frm := st_frm st; st_total_yielded := total;
                            st_finished := true |}
        else
          Yield req hits {| st_frm := st_frm st + page_size; st_total_yielded := total;
                            st_finished := false |}
    end.

(** Everything observable of a generator run to its end. *)
Record page_trace : Type := {
  pages : list (list hit);
  requests : list request;
  printed : list message;
  raised : option exn
}.

(** Iterating the generator to exhaustion; [None] if [fuel] resumptions were
    not enough. *)
Fixpoint page_run (fuel : nat) (self : SearchAPIRealDataFetcher) (api : provider)
    (page_size : Z) (st : page_state) : option page_trace :=
  match fuel with
  | O => None
  | S fuel' =>
      match page_next self api page_size st with
      | Stop req msgs =>
          Some {| pages := []; requests := option_list req; printed := msgs;
                  raised := None |}
      | Throw req e =>
          Some {| pages := []; requests := [req]; printed := []; raised := Some e |}
      | Yield req hits st' =>
          match page_run fuel' self api page_size st' with
          | Some t =>
              Some {| pages := hits :: pages t; requests := req :: requests t;
                      printed := printed t; raised := raised t |}
          | None => None
          end
      end
  end.

(** Every page but the last one adds at least one record below
    [max_records], so [max_records + 1] resumptions always suffice. *)
Definition page_fuel (self : SearchAPIRealDataFetcher) : nat :=
  S (Z.to_nat (max_records self)).

(** [list(self._page(size))] *)
Definition _page (self : SearchAPIRealDataFetcher) (api : provider) (page_size : Z)
  : option page_trace :=
  page_run (page_fuel self) self api page_size page_start.

(** The number of records in a list of pages. *)
Definition total_records (ps : list (list hit)) : Z :=
  Z.of_nat (length (concat ps)).

(** *** [load_and_filter_data]: the consumer of the generator *)

(** The inner [for h in hits] loop: returns the rows and [truncated]. *)
Fixpoint append_hits (max_records : Z) (rows hits : list hit) : list hit * bool :=
  match hits with
  | [] => (rows, false)
  | h :: hits' =>
      if Z.of_nat (length rows) >=? max_records then (rows, true)
      else append_hits max_records (rows ++ [h]) hits'
  end.

Record collected : Type := {
  col_rows : list hit;
  col_truncated : bool;
  col_requests : list request;
  col_printed : list message;
  col_raised : option exn
}.

(** The outer [for hits in self._page()] loop.  The generator is resumed
    only while the consumer has not left the loop. *)
Fixpoint collect (fuel : nat) (self : SearchAPIRealDataFetcher) (api : provider)
    (page_size : Z) (st : page_state) (rows : list hit) : option collected :=
  match fuel with
  | O => None
  | S fuel' =>
      match page_next self api page_size st with
      | Stop req msgs =>
          Some {| col_rows := rows; col_truncated := false;
                  col_requests := option_list req; col_printed := msgs;
                  col_raised := None |}
      | Throw req e =>
          Some {| col_rows := rows; col_truncated := false; col_requests := [req];
                  col_printed := []; col_raised := Some e |}
      | Yield req hits st' =>
          let '(rows', truncated) := append_hits (max_records self) rows hits in
          if truncated then
            Some {| col_rows := rows'; col_truncated := true; col_requests := [req];
                    col_printed := []; col_raised := None |}
          else
            match collect fuel' self api page_size st' rows' with
            | Some c =>
                Some {| col_rows := col_rows c; col_truncated := col_truncated c;
                        col_requests := req :: col_requests c;
                        col_printed := col_printed c; col_raised := col_raised c |}
            | None => None
            end
      end
  end.

(** [rows[:n]] *)
Definition slice_to {A} (n : Z) (rows : list A) : list A :=
  if n <? 0 then firstn (Z.to_nat (Z.of_nat (length rows) + n)) rows
  else firstn (Z.to_nat n) rows.

(** [pd.DataFrame(rows)] for the [row_data] dictionaries built from the
    hits; the narrative key is only there outside lite mode. *)
Definition frame_of_rows (lite : bool) (rows : list hit) : DataFrame :=
  [ ("Complaint ID", ObjectCol (map complaint_id rows));
    ("Date received", ObjectCol (map date_received rows));
    ("Date sent to company", ObjectCol (map date_sent_to_company rows));
    ("Product", ObjectCol (map product rows));
    ("Issue", ObjectCol (map issue rows));
    ("Company", ObjectCol (map company rows));
    ("State", ObjectCol (map state rows)) ]
  ++ (if lite then []
      else [ (narrative_column, ObjectCol (map complaint_what_happened rows)) ]).

(** [_apply_filters(df)].  The casts to [category] and the best-effort
    [to_csv] do not change the returned table and are left out. *)
Definition _apply_filters (self : SearchAPIRealDataFetcher) (df : DataFrame)
  : result DataFrame :=
  if empty df then Ok df else
  let! received := getitem df "Date received" in
  let! ge := ge_datetime received (start_date self) in
  let! le := le_datetime received (end_date self) in
  let m := mask_and ge le in
  let! m :=
    if negb (lite_mode self) && has_column df narrative_column then
      let! narrative := getitem df narrative_column in
      let! stripped := str_strip narrative in
      Ok (mask_and m (mask_and (notna narrative) (ne_str stripped "")))
    else Ok m in
  let df := loc df m in
  let! prod := getitem df "Product" in
  let df := loc df (mask_not (isin prod credit_exclusions)) in
  let df :=
    if lite_mode self && has_column df narrative_column
    then drop df narrative_column else df in
  Ok df.

(** What a call of [load_and_filter_data] does: the messages printed, the
    requests sent, and the value returned ([Ok None] is Python's [None]) or
    the exception that escapes. *)
Record outcome : Type := {
  out_printed : list message;
  out_requests : list request;
  out_returned : result (option DataFrame)
}.

Section Load.
Variable parse : string -> option Z.

(** The part of [load_and_filter_data] after the [try] block. *)
Definition finish (self : SearchAPIRealDataFetcher) (c : collected) : outcome :=
  let printed :=
    col_printed c
    ++ (if col_truncated c then [MsgReachedMaxRecords (max_records self)] else []) in
  match col_rows c with
  | [] =>
      {| out_printed := printed ++ [MsgNoData]; out_requests := col_requests c;
         out_returned := Ok None |}
  | _ =>
      let over := Z.of_nat (length (col_rows c)) >? max_records self in
      let rows := if over then slice_to (max_records self) (col_rows c) else col_rows c in
      let truncated := col_truncated c || over in
      let df := frame_of_rows (lite_mode self) rows in
      let printed :=
        printed ++ [MsgLoaded (len df)]
        ++ (if truncated then [MsgTruncated (max_records self)] else []) in
      {| out_printed := printed; out_requests := col_requests c;
         out_returned :=
           let! received := getitem df "Date received" in
           let! received := to_datetime parse true received in
           let df := setitem df "Date received" (DatetimeCol received) in
           let! sent := getitem df "Date sent to company" in
           let! sent := to_datetime parse true sent in
           let df := setitem df "Date sent to company" (DatetimeCol sent) in
           let! out := _apply_filters self df in
           Ok (Some out) |}
  end.

(** [load_and_filter_data()].  [cached_df] is what
    [get_cached_complaints] returns when it is consulted; [page_size] is
    the default argument of [_page]. *)
Definition load_with (page_size : Z) (self : SearchAPIRealDataFetcher)
    (cached_df : DataFrame) (api : provider) : option outcome :=
  if use_cache self && negb (empty cached_df) then
    Some {| out_printed := [MsgCacheHit (len cached_df)]; out_requests := [];
            out_returned :=
              let! out := _apply_filters self cached_df in Ok (Some out) |}
  else
    let pre := if use_cache self then [MsgCacheMiss] else [] in
    match collect (page_fuel self) self api page_size page_start [] with
    | None => None
    | Some c =>
        match col_raised c with
        | Some e =>
            Some {| out_printed := pre ++ col_printed c ++ [MsgSearchError e];
                    out_requests := col_requests c; out_returned := Ok None |}
        | None =>
            let o := finish self c in
            Some {| out_printed := pre ++ out_printed o;
                    out_requests := out_requests o;
                    out_returned := out_returned o |}
        end
    end.

Definition load_and_filter_data := load_with 1000.
End Load.

(** *** The rest of the constructor and of the interface *)

(** The default of [CFPB_SEARCH_API_BASE]. *)
Definition default_base : string :=
  "https://www.consumerfinance.gov/data-research/consumer-complaints/search/api/v1/".

(** [self.base_url = base.rstrip("/") + "/"] *)
Definition base_url (CFPB_SEARCH_API_BASE : option string) : string :=
  String.append (PyStr.rstrip_char "/" (default default_base CFPB_SEARCH_API_BASE)) "/".

(** [generate_complaint_links(complaint_ids)], the same in the three
    classes; an id is given by its text, as the f-string renders it. *)
Definition generate_complaint_links (complaint_ids : list string) : list string :=
  map (String.append
         "https://www.consumerfinance.gov/data-research/consumer-complaints/search/detail/")
    complaint_ids.

End Search.

(** ** [analysis/real_data_fetcher_lite.py] *)

Module Lite.
Import Pandas.

Record RealDataFetcher : Type := {
  start_date : Z;
  end_date : Z;
  lite_mode : bool;
  include_narratives : bool
}.

(** [self.credit_exclusions] *)
Definition credit_exclusions : list string :=
  [ "Credit reporting, credit repair services, or other personal consumer reports";
    "Credit reporting";
    "Credit repair services";
    "Other personal consumer reports" ].

Record environ : Type := {
  MONTHS_WINDOW : option string;
  LITE_MODE : option string
}.

(** [try: months = int(os.environ.get("MONTHS_WINDOW", "4"))]
    [except ValueError: months = 4] *)
Definition months_of_env (v : option string) : Z :=
  match PyStr.int (default "4" v) with
  | Some n => n
  | None => 4
  end.

(** [months = max(1, min(months, 12))] *)
Definition clamp_months (months : Z) : Z := Z.max 1 (Z.min months 12).

Definition lite_mode_of_env (v : option string) : bool :=
  PyStr.mem (PyStr.lower (default "0" v)) ["1"; "true"; "yes"].

(** [__init__()] at instant [now]. *)
Definition __init__ (now : Z) (env : environ) : RealDataFetcher :=
  let months := clamp_months (months_of_env (MONTHS_WINDOW env)) in
  let end_date := now in
  let start_date := end_date - timedelta_days (30 * months) in
  let lite := lite_mode_of_env (LITE_MODE env) in
  {| start_date := start_date; end_date := end_date; lite_mode := lite;
     include_narratives := negb lite |}.

Inductive message : Type :=
| MsgUsingCache (age_days : Z)
| MsgCacheCovers (n : nat)
| MsgCacheInsufficient
| MsgCacheOld (age_days : Z)
| MsgCacheError (e : exn)
| MsgDownloadFailed
| MsgTotalLoaded (n : nat)
| MsgApplyingFilters
| MsgDateFilter (n : nat)
| MsgNarrativeFilter (n : nat)
| MsgWarningNoNarrativeColumn
| MsgExcluding (n : nat)
| MsgFinal (n : nat)
| MsgCached
| MsgProcessingError (e : exn).

(** The messages that are printed as warnings. *)
Definition is_warning (m : message) : bool :=
  match m with
  | MsgWarningNoNarrativeColumn => true
  | _ => false
  end.

(** Code that prints and may raise: the messages printed so far, and the
    value or the exception. *)
Definition io (A : Type) : Type := (list message * result A)%type.

Definition ret {A} (a : A) : io A := ([], Ok a).
Definition print (m : message) : io unit := ([m], Ok tt).
Definition lift {A} (r : result A) : io A := ([], r).
Definition bind {A B} (m : io A) (k : A -> io B) : io B :=
  match m with
  | (l, Ok a) => let '(l', r) := k a in (l ++ l', r)
  | (l, Raise e) => (l, Raise e)
  end.

Notation "'do' x <- m ; k" := (bind m (fun x => k))
  (at level 10, x name, m at level 100, k at level 200).
Notation "'say' m ; k" := (bind (print m) (fun _ => k))
  (at level 10, m at level 100, k at level 200).

(** The first of the candidate labels that is a column of [df]. *)
Definition find_column (df : DataFrame) (candidates : list string) : option string :=
  List.find (has_column df) candidates.

(** [col_map] *)
Definition col_map : list (string * string) :=
  [ ("consumer_complaint_narrative", "Consumer complaint narrative");
    ("complaint_id", "Complaint ID");
    ("date_received", "Date received");
    ("date_sent_to_company", "Date sent to company");
    ("product", "Product");
    ("issue", "Issue");
    ("company", "Company");
    ("state", "State") ].

(** [for old, new in col_map.items(): ...] *)
Definition rename_columns (df : DataFrame) : DataFrame :=
  fold_left
    (fun df '(old, new) =>
       if has_column df old && negb (has_column df new) then rename df old new else df)
    col_map df.

(** The three masks, their conjunction and the renaming: the statements
    from "Applying filters..." to the renaming loop, for a table whose date
    columns have been converted. *)
Definition apply_filters (self : RealDataFetcher) (df : DataFrame) : io DataFrame :=
  say MsgApplyingFilters;
  do received <- lift (getitem df "Date received");
  do ge <- lift (ge_datetime received (start_date self));
  do le <- lift (le_datetime received (end_date self));
  let date_mask := mask_and ge le in
  say (MsgDateFilter (mask_sum date_mask));
  do narrative_mask <-
    match find_column df ["Consumer complaint narrative"; "consumer_complaint_narrative"] with
    | Some narrative_col =>
        do narrative <- lift (getitem df narrative_col);
        do stripped <- lift (str_strip narrative);
        let narrative_mask :=
          mask_and (notna narrative) (ne_str stripped "") in
        say (MsgNarrativeFilter (mask_sum narrative_mask));
        ret narrative_mask
    | None =>
        say MsgWarningNoNarrativeColumn;
        ret (all_true (len df))
    end;
  do product_mask <-
    match find_column df ["Product"; "product"] with
    | Some product_col =>
        do prod <- lift (getitem df product_col);
        let product_mask := mask_not (isin prod credit_exclusions) in
        say (MsgExcluding (mask_sum (mask_not product_mask)));
        ret product_mask
    | None => ret (all_true (len df))
    end;
  let filtered_df := loc df (mask_and (mask_and date_mask narrative_mask) product_mask) in
  say (MsgFinal (len filtered_df));
  ret (rename_columns filtered_df).

(** The cache file: its modification time and what [pd.read_csv] makes of
    it. *)
Record cache_file : Type := {
  mtime : Z;
  cache_contents : result DataFrame
}.

(** The files the loader finds: the cache for the configured window, and
    the CSV that [_download_zip] leaves (absent when the download failed),
    as read by [pd.read_csv]. *)
Record files : Type := {
  cache : option cache_file;
  csv : option (result DataFrame)
}.

Section Load.
Variable parse : string -> option Z.

(** Reading the cache: the converted table with the least and greatest
    ["Date received"]. *)
Definition read_cache (f : cache_file)
  : result (DataFrame * option Z * option Z) :=
  let! df := cache_contents f in
  let! received := getitem df "Date received" in
  let! received := to_datetime parse false received in
  let df := setitem df "Date received" (DatetimeCol received) in
  let! sent := getitem df "Date sent to company" in
  let! sent := to_datetime parse true sent in
  let df := setitem df "Date sent to company" (DatetimeCol sent) in
  Ok (df, dt_min received, dt_max received).

(** [cache_start <= self.start_date and]
    [cache_end >= (self.end_date - timedelta(days=7))];
    comparisons with [NaT] are false. *)
Definition covers (self : RealDataFetcher) (cache_start cache_end : option Z) : bool :=
  match cache_start, cache_end with
  | Some lo, Some hi =>
      (lo <=? start_date self) && (end_date self - timedelta_days 7 <=? hi)
  | _, _ => false
  end.

(** The [if os.path.exists(cache)] block at instant [now]: the table it
    returns, if any. *)
Definition check_cache (self : RealDataFetcher) (now : Z) (c : option cache_file)
  : list message * option DataFrame :=
  match c with
  | None => ([], None)
  | Some f =>
      let cache_age := now - mtime f in
      if days_of cache_age <? 7 then
        match read_cache f with
        | Ok (df, cache_start, cache_end) =>
            if covers self cache_start cache_end
            then ([MsgUsingCache (days_of cache_age); MsgCacheCovers (len df)], Some df)
            else ([MsgUsingCache (days_of cache_age); MsgCacheInsufficient], None)
        | Raise e => ([MsgUsingCache (days_of cache_age); MsgCacheError e], None)
        end
      else ([MsgCacheOld (days_of cache_age)], None)
  end.

(** The [try] block: read, convert the dates, filter. *)
Definition process (self : RealDataFetcher) (contents : result DataFrame)
  : io DataFrame :=
  do df <- lift contents;
  say (MsgTotalLoaded (len df));
  do received <- lift (getitem df "Date received");
  do received <- lift (to_datetime parse false received);
  let df := setitem df "Date received" (DatetimeCol received) in
  do sent <- lift (getitem df "Date sent to company");
  do sent <- lift (to_datetime parse true sent);
  let df := setitem df "Date sent to company" (DatetimeCol sent) in
  apply_filters self df.

(** [load_and_filter_data()] at instant [now]; [None] is Python's [None].
    Writing the new cache file is best effort and not part of the
    result. *)
Definition load_and_filter_data (self : RealDataFetcher) (now : Z) (w : files)
  : list message * option DataFrame :=
  match check_cache self now (cache w) with
  | (msgs, Some df) => (msgs, Some df)
  | (msgs, None) =>
      match csv w with
      | None => (msgs ++ [MsgDownloadFailed], None)
      | Some contents =>
          match process self contents with
          | (l, Ok df) => (msgs ++ l ++ [MsgCached], Some df)
          | (l, Raise e) => (msgs ++ l ++ [MsgProcessingError e], None)
          end
      end
  end.
End Load.

End Lite.

(** ** Regular expressions

    The fragment of Python's [re] syntax that the taxonomy uses: literal
    characters, [.], escaped punctuation, groups [(...)] and [(?:...)],
    alternation and the postfix operators [*], [+] and [?].  Matching is
    decided with derivatives; for this fragment the existence of a match does
    not depend on the order in which a backtracking matcher tries the
    alternatives. *)

Module Re.

Inductive regex : Type :=
| Void
| Eps
| Chr (c : ascii)
| Dot
| Cat (r s : regex)
| Alt (r s : regex)
| Star (r : regex).

Fixpoint regex_eqb (r s : regex) : bool :=
  match r, s with
  | Void, Void | Eps, Eps | Dot, Dot => true
  | Chr a, Chr b => Ascii.eqb a b
  | Cat r1 r2, Cat s1 s2 => regex_eqb r1 s1 && regex_eqb r2 s2
  | Alt r1 r2, Alt s1 s2 => regex_eqb r1 s1 && regex_eqb r2 s2
  | Star r, Star s => regex_eqb r s
  | _, _ => false
  end.

(** Constructors that drop what cannot match. *)
Definition cat (r s : regex) : regex :=
  match r, s with
  | Void, _ | _, Void => Void
  | Eps, _ => s
  | _, Eps => r
  | _, _ => Cat r s
  end.

Definition alt (r s : regex) : regex :=
  match r, s with
  | Void, _ => s
  | _, Void => r
  | _, _ => if regex_eqb r s then r else Alt r s
  end.

(** *** Reading a pattern *)

Definition is_meta (c : ascii) : bool :=
  existsb (Ascii.eqb c) (list_ascii_of_string "*+?[]{}^$|()\.").

Definition is_alnum (c : ascii) : bool :=
  let n := nat_of_ascii c in
  ((48 <=? n)%nat && (n <=? 57)%nat) || ((65 <=? n)%nat && (n <=? 90)%nat)
  || ((97 <=? n)%nat && (n <=? 122)%nat).

(** A postfix operator, if one follows. *)
Definition postfix (r : regex) (s : list ascii) : regex * list ascii :=
  match s with
  | "*"%char :: s' => (Star r, s')
  | "+"%char :: s' => (Cat r (Star r), s')
  | "?"%char :: s' => (Alt Eps r, s')
  | _ => (r, s)
  end.

(** Recursive descent; [None] for a pattern outside the fragment. *)
Fixpoint parse_alt (fuel : nat) (s : list ascii) : option (regex * list ascii) :=
  match fuel with
  | O => None
  | S fuel' =>
      match parse_cat fuel' s with
      | Some (r, "|"%char :: s') =>
          match parse_alt fuel' s' with
          | Some (r', s'') => Some (Alt r r', s'')
          | None => None
          end
      | other => other
      end
  end
with parse_cat (fuel : nat) (s : list ascii) : option (regex * list ascii) :=
  match fuel with
  | O => None
  | S fuel' =>
      match s with
      | [] => Some (Eps, [])
      | "|"%char :: _ => Some (Eps, s)
      | ")"%char :: _ => Some (Eps, s)
      | _ =>
          match parse_atom fuel' s with
          | Some (a, s') =>
              let '(a', s'') := postfix a s' in
              match parse_cat fuel' s'' with
              | Some (r, s''') => Some (cat a' r, s''')
              | None => None
              end
          | None => None
          end
      end
  end
with parse_atom (fuel : nat) (s : list ascii) : option (regex * list ascii) :=
  match fuel with
  | O => None
  | S fuel' =>
      match s with
      | "("%char :: "?"%char :: ":"%char :: s' =>
          match parse_alt fuel' s' with
          | Some (r, ")"%char :: s'') => Some (r, s'')
          | _ => None
          end
      | "("%char :: s' =>
          match parse_alt fuel' s' with
          | Some (r, ")"%char :: s'') => Some (r, s'')
          | _ => None
          end
      | "."%char :: s' => Some (Dot, s')
      | "\"%char :: c :: s' => if is_alnum c then None else Some (Chr c, s')
      | c :: s' => if is_meta c then None else Some (Chr c, s')
      | [] => None
      end
  end.

(** [re.compile(pattern)] *)
Definition compile (pattern : string) : option regex :=
  let s := list_ascii_of_string pattern in
  match parse_alt (2 * S (length s)) s with
  | Some (r, []) => Some r
  | _ => None
  end.

(** *** Matching with [re.IGNORECASE] *)

Fixpoint nullable (r : regex) : bool :=
  match r with
  | Void | Chr _ | Dot => false
  | Eps | Star _ => true
  | Cat r s => nullable r && nullable s
  | Alt r s => nullable r || nullable s
  end.

Definition newline : ascii := ascii_of_nat 10.

(** What is left of [r] after reading [c].  Letters are compared without
    their case; [.] matches everything but a newline. *)
Fixpoint deriv (c : ascii) (r : regex) : regex :=
  match r with
  | Void | Eps => Void
  | Chr a => if Ascii.eqb (PyStr.lower_char a) (PyStr.lower_char c) then Eps else Void
  | Dot => if Ascii.eqb c newline then Void else Eps
  | Cat r s =>
      if nullable r then alt (cat (deriv c r) s) (deriv c s)
      else cat (deriv c r) s
  | Alt r s => alt (deriv c r) (deriv c s)
  | Star r => cat (deriv c r) (Star r)
  end.

(** Does a prefix of [s] match [r]? *)
Fixpoint match_prefix (r : regex) (s : string) : bool :=
  nullable r ||
  match s with
  | EmptyString => false
  | String c s' => match_prefix (deriv c r) s'
  end.

(** [re.search(r, s) is not None] *)
Fixpoint search (r : regex) (s : string) : bool :=
  match_prefix r s ||
  match s with
  | EmptyString => false
  | String _ s' => search r s'
  end.

End Re.

(** ** [analysis/cfpb_analyzer.py] *)

Module Analyzer.
Import Pandas.

(** The values that the attributes of a [CFPBAnalyzer] hold. *)
Inductive pyval : Type :=
| VNone
| VStr (s : string)
| VDatetime (t : Z)
| VStrings (l : list string)
| VTaxonomy (t : list (string * list string))
| VFrame (df : DataFrame)
| VFetcher.

(** An instance is its attribute dictionary. *)
Abbreviation instance := (gmap string pyval).

(** [self.a]: an attribute that was never assigned raises. *)
Definition getattr (self : instance) (a : string) : result pyval :=
  match self !! a with
  | Some v => Ok v
  | None => Raise (AttributeError a)
  end.

(** [self.a = v] *)
Definition setattr (self : instance) (a : string) (v : pyval) : instance :=
  <[a := v]> self.

Definition as_datetime (v : pyval) : result Z :=
  match v with VDatetime t => Ok t | _ => Raise TypeError end.

Definition as_strings (v : pyval) : result (list string) :=
  match v with VStrings l => Ok l | _ => Raise TypeError end.

Definition as_taxonomy (v : pyval) : result (list (string * list string)) :=
  match v with VTaxonomy t => Ok t | _ => Raise TypeError end.

Definition ai_keywords : list string :=
  [ "AI"; "artificial intelligence"; "algorithm"; "algorithmic"; "model";
    "chatbot"; "automated decision"; "machine learning"; "ML"; "bot";
    "algorithmic bias"; "automated"; "robo"; "intelligent system" ].

Definition lep_keywords : list string :=
  [ "language"; "Spanish"; "LEP"; "translation"; "non-English"; "interpreter";
    "bilingual"; "translate"; "English proficiency"; "language barrier";
    "Spanish-speaking"; "language assistance"; "limited English" ].

Definition fraud_digital_keywords : list string :=
  [ "fraud"; "fraudulent"; "scam"; "scammer"; "unauthorized"; "Zelle";
    "digital wallet"; "app"; "mobile banking"; "phishing"; "identity theft";
    "cybercrime"; "digital fraud"; "online fraud"; "wire fraud"; "ACH fraud";
    "synthetic identity"; "account takeover" ].

(** [self.harm_mechanisms], in insertion order.  The patterns are the raw
    strings of the source. *)
Definition harm_mechanisms : list (string * list string) :=
  [ ("Unauthorized Fees",
     [ "fee.*(?:without|no|never).*(?:authorization|consent|permission|approval)";
       "(?:charged|billing|billed).*(?:unauthorized|without.*permission)";
       "fee.*(?:did not|didn\'t).*(?:authorize|approve|consent)";
       "never.*(?:agreed|authorized|approved).*fee" ]);
    ("Excessive Fees",
     [ "fee.*(?:excessive|too high|unreasonable|inflated|outrageous)";
       "(?:overcharged|overcharge|charging too much)";
       "fee.*(?:amount|price).*(?:excessive|ridiculous|unfair)";
       "exorbitant.*fee" ]);
    ("Hidden Fees",
     [ "(?:hidden|undisclosed|surprise).*fee";
       "fee.*(?:not disclosed|never told|didn\'t tell|wasn\'t told)";
       "fee.*(?:didn\'t know|unaware|no notice)";
       "unexpected.*(?:fee|charge)" ]);
    ("Account Closure Without Notice",
     [ "(?:closed|shut down|terminated).*account.*(?:without|no).*(?:notice|warning|explanation)";
       "account.*(?:suddenly|unexpectedly).*closed";
       "closed.*account.*(?:no reason|without cause)" ]);
    ("Denied Access to Funds",
     [ "(?:can\'t|cannot|unable to).*(?:access|withdraw|get).*(?:funds|money)";
       "(?:froze|frozen|locked).*(?:account|funds)";
       "denied.*access.*(?:money|funds|account)";
       "withhold.*(?:funds|money|payment)" ]);
    ("Credit Report Errors",
     [ "(?:incorrect|wrong|inaccurate|false).*(?:information|entry).*credit report";
       "credit report.*(?:error|mistake|wrong)";
       "reporting.*(?:incorrect|inaccurate|false).*information";
       "(?:negative|derogatory).*(?:mark|entry).*(?:error|incorrect|wrong)" ]);
    ("Identity Theft",
     [ "identity.*(?:theft|stolen|fraud)";
       "someone.*(?:opened|used).*(?:account|credit).*(?:my name|without)";
       "fraudulent.*account.*(?:my name|opened)";
       "victim.*identity theft" ]);
    ("Harassment by Debt Collector",
     [ "(?:harass|harassment|threatening|threat).*(?:collector|collection|debt)";
       "(?:calling|called|contact).*(?:repeatedly|constantly|multiple times).*(?:day|hour)";
       "debt collector.*(?:abusive|rude|threatening|aggressive)";
       "(?:won\'t stop|keep calling|constant calls)" ]);
    ("Refused Refund",
     [ "(?:refused|denied|won\'t|will not).*(?:refund|return|reimburse)";
       "refund.*(?:refused|denied|rejected)";
       "(?:request|asked for).*refund.*(?:denied|refused)";
       "entitled.*refund.*(?:refused|won\'t)" ]);
    ("Misleading Marketing",
     [ "(?:misled|deceived|tricked|lied).*(?:advertisement|marketing|promotion)";
       "(?:false|misleading|deceptive).*(?:advertising|marketing|claim)";
       "promised.*(?:but|however|never).*(?:delivered|received)";
       "bait and switch" ]);
    ("Service Not Provided",
     [ "(?:paid for|purchased).*(?:never received|didn\'t receive|not provided)";
       "service.*(?:not provided|never delivered|didn\'t get)";
       "charged.*(?:but|without).*(?:receiving|getting).*service";
       "no service.*(?:provided|delivered|rendered)" ]);
    ("Billing Disputes",
     [ "(?:billed|charged).*(?:wrong amount|incorrect|error)";
       "billing.*(?:error|mistake|incorrect|wrong)";
       "charged.*(?:twice|multiple times|duplicate)";
       "statement.*(?:incorrect|wrong|error)" ]);
    ("Poor Customer Service",
     [ "(?:customer service|representative|agent).*(?:rude|unhelpful|dismissive)";
       "(?:can\'t|cannot|unable to).*(?:reach|contact|speak to).*(?:representative|someone)";
       "(?:ignored|dismiss|refuse to help)";
       "(?:transferred|transfer).*(?:multiple times|repeatedly|back and forth)" ]);
    ("Loan Modification Denied",
     [ "(?:denied|rejected|refused).*(?:loan modification|mortgage modification)";
       "modification.*(?:request|application).*(?:denied|rejected)";
       "foreclosure.*(?:despite|even though).*modification";
       "(?:won\'t|will not).*(?:modify|work with).*loan" ]);
    ("Predatory Lending",
     [ "predatory.*(?:lending|loan|practice)";
       "(?:high|excessive).*interest.*(?:rate|APR)";
       "(?:trapped|stuck).*(?:loan|debt)";
       "(?:misleading|deceptive).*loan.*terms" ]) ].

(** [__init__()]: the assignments, in order. *)
Definition __init__ : instance :=
  fold_left (fun self '(a, v) => setattr self a v)
    [ ("data_dir", VStr "data/");
      ("output_dir", VStr "outputs/");
      ("viz_dir", VStr "visualizations/");
      ("data_fetcher", VFetcher);
      ("end_date", VDatetime (datetime 2025 10 19));
      ("start_date", VDatetime (datetime 2025 4 19));
      ("ai_keywords", VStrings ai_keywords);
      ("lep_keywords", VStrings lep_keywords);
      ("fraud_digital_keywords", VStrings fraud_digital_keywords);
      ("harm_mechanisms", VTaxonomy harm_mechanisms);
      ("df", VNone);
      ("filtered_df", VNone) ]
    (∅ : instance).

Section Load.
Variable parse : string -> option Z.

(** The statements of [load_and_filter_data] after [self.df] has been
    read from the CSV. *)
Definition filter_loaded (self : instance) (df : DataFrame) : result DataFrame :=
  let! received := getitem df "date_received" in
  let! start_date := (let! v := getattr self "start_date" in as_datetime v) in
  let! ge := ge_datetime received start_date in
  let! received := getitem df "date_received" in
  let! end_date := (let! v := getattr self "end_date" in as_datetime v) in
  let! le := le_datetime received end_date in
  let date_mask := mask_and ge le in
  let! narrative := getitem df "consumer_complaint_narrative" in
  let! narrative' := getitem df "consumer_complaint_narrative" in
  let narrative_mask := mask_and (notna narrative) (ne_str narrative' "") in
  let! prod := getitem df "product" in
  let! exclusions := (let! v := getattr self "credit_exclusions" in as_strings v) in
  let product_mask := mask_not (isin prod exclusions) in
  Ok (loc df (mask_and (mask_and date_mask narrative_mask) product_mask)).

(** [load_and_filter_data(csv_path)], where [csv] is what [pd.read_csv]
    makes of the file: the instance afterwards, and the value returned or
    the exception raised. *)
Definition load_and_filter_data (self : instance) (csv : result DataFrame)
  : instance * result DataFrame :=
  match csv with
  | Raise e => (self, Raise e)
  | Ok df =>
      let self := setattr self "df" (VFrame df) in
      match (let! received := getitem df "date_received" in
             to_datetime parse false received) with
      | Raise e => (self, Raise e)
      | Ok received =>
          let df := setitem df "date_received" (DatetimeCol received) in
          let self := setattr self "df" (VFrame df) in
          match filter_loaded self df with
          | Raise e => (self, Raise e)
          | Ok filtered => (setattr self "filtered_df" (VFrame filtered), Ok filtered)
          end
      end
  end.
End Load.

(** *** [analyze_harm_mechanisms] *)

(** A cell of a summary: text, or an instant when the column is a date. *)
Inductive scalar : Type :=
| SStr (s : string)
| STime (t : Z).

Record summary_row : Type := {
  Harm_Mechanism : string;
  Count : nat;
  Percentage : PrimFloat.float;
  Top_Product : scalar;
  Top_Company : scalar
}.

(** [s.str.contains(pattern, case=False, na=False, regex=True)] *)
Definition str_contains (s : Series) (pattern : string) : result mask :=
  match s with
  | DatetimeCol _ | MissingCol _ => Raise (AttributeError "str")
  | ObjectCol xs =>
      match Re.compile pattern with
      | None => Raise ReError
      | Some r =>
          Ok (map (fun x => match x with Some x => Re.search r x | None => false end) xs)
      end
  end.

Section Mode.
Context {A : Type} (eqb leb : A -> A -> bool).

Definition occurrences (x : A) (xs : list A) : nat :=
  length (List.filter (eqb x) xs).

(** The entries of [xs] that no other value outnumbers. *)
Definition most_frequent (xs : list A) : list A :=
  List.filter
    (fun x => forallb (fun y => (occurrences y xs <=? occurrences x xs)%nat) xs) xs.

(** The least entry of a list. *)
Definition least (xs : list A) : option A :=
  match xs with
  | [] => None
  | x :: xs' => Some (fold_left (fun m y => if leb m y then m else y) xs' x)
  end.
End Mode.

(** The values of a column without the missing ones. *)
Definition dropna {A} (xs : list (option A)) : list A :=
  flat_map (fun x => match x with Some a => [a] | None => [] end) xs.

(** [s.mode()[0]]: [mode] drops missing values and returns the most frequent
    values in ascending order; indexing an empty result raises. *)
Definition mode0 (s : Series) : result scalar :=
  match s with
  | ObjectCol xs =>
      match least String.leb (most_frequent String.eqb (dropna xs)) with
      | Some v => Ok (SStr v)
      | None => Raise (KeyError "0")
      end
  | DatetimeCol xs =>
      match least Z.leb (most_frequent Z.eqb (dropna xs)) with
      | Some v => Ok (STime v)
      | None => Raise (KeyError "0")
      end
  | MissingCol _ => Raise (KeyError "0")
  end.

(** [(count / total) * 100]: the quotient of two counts is the binary64
    number nearest to the fraction, and so is its product with [100].  The
    code divides by the size of a table that has rows. *)
Definition percentage (count total : nat) : PrimFloat.float :=
  PrimFloat.mul (PrimFloat.div (PyFloat.of_nat count) (PyFloat.of_nat total))
    (PyFloat.of_nat 100).

(** [s.apply(lambda x: f"{x}, {harm_type}" if x else harm_type)] on the
    selected rows of a text column. *)
Fixpoint tag (m : mask) (harm_type : string) (xs : list (option string))
  : list (option string) :=
  match m, xs with
  | b :: m', x :: xs' =>
      (if b then
         match x with
         | Some (String c x') =>
             Some (String.append (String c x') (String.append ", " harm_type))
         | _ => Some harm_type
         end
       else x) :: tag m' harm_type xs'
  | _, _ => xs
  end.

Definition tag_series (m : mask) (harm_type : string) (s : Series) : Series :=
  match s with
  | ObjectCol xs => ObjectCol (tag m harm_type xs)
  | DatetimeCol xs => DatetimeCol xs
  | MissingCol n => MissingCol n
  end.

(** The variables of the loop over the taxonomy. *)
Record loop_state : Type := {
  results : list (string * DataFrame);
  harm_summary : list summary_row;
  df_copy : DataFrame
}.

(** One iteration of [for harm_type, patterns in self.harm_mechanisms.items()]. *)
Definition classify (filtered_df : DataFrame) (st : loop_state)
    (entry : string * list string) : result loop_state :=
  let '(harm_type, patterns) := entry in
  let combined_pattern := String.concat "|" patterns in
  let! narrative := getitem (df_copy st) "consumer_complaint_narrative" in
  let! m := str_contains narrative combined_pattern in
  let matching_complaints := loc (df_copy st) m in
  if (0 <? len matching_complaints)%nat then
    let! categories := getitem (df_copy st) "harm_categories" in
    let df_copy' :=
      setitem (df_copy st) "harm_categories" (tag_series m harm_type categories) in
    let! prod := getitem matching_complaints "product" in
    let! top_product := mode0 prod in
    let! comp := getitem matching_complaints "company" in
    let! top_company := mode0 comp in
    Ok {| results := results st ++ [(harm_type, matching_complaints)];
          harm_summary :=
            harm_summary st ++
            [ {| Harm_Mechanism := harm_type;
                 Count := len matching_complaints;
                 Percentage := percentage (len matching_complaints) (len filtered_df);
                 Top_Product := top_product;
                 Top_Company := top_company |} ];
          df_copy := df_copy' |}
  else Ok st.

Fixpoint classify_all (filtered_df : DataFrame) (st : loop_state)
    (taxonomy : list (string * list string)) : result loop_state :=
  match taxonomy with
  | [] => Ok st
  | entry :: taxonomy' =>
      let! st' := classify filtered_df st entry in
      classify_all filtered_df st' taxonomy'
  end.

(** [sort_values('Count', ascending=False)]: rows by decreasing count. *)
Fixpoint insert_row (r : summary_row) (rows : list summary_row) : list summary_row :=
  match rows with
  | [] => [r]
  | x :: rows' =>
      if (Count x <=? Count r)%nat then r :: rows else x :: insert_row r rows'
  end.

Definition sort_by_count (rows : list summary_row) : list summary_row :=
  fold_right insert_row [] rows.

Record analysis : Type := {
  by_mechanism : list (string * DataFrame);
  summary : list summary_row;
  df_with_categories : DataFrame
}.

(** [analyze_harm_mechanisms()].  A summary without rows has no ['Count']
    column to sort by. *)
Definition analyze_harm_mechanisms (self : instance) : result analysis :=
  let! v := getattr self "filtered_df" in
  match v with
  | VFrame filtered_df =>
      let copy :=
        setitem filtered_df "harm_categories"
          (ObjectCol (repeat (Some "") (len filtered_df))) in
      let! taxonomy := (let! v := getattr self "harm_mechanisms" in as_taxonomy v) in
      let! st :=
        classify_all filtered_df
          {| results := []; harm_summary := []; df_copy := copy |}
          taxonomy in
      match harm_summary st with
      | [] => Raise (KeyError "Count")
      | rows =>
          Ok {| by_mechanism := results st;
                summary := sort_by_count rows;
                df_with_categories := df_copy st |}
      end
  | VNone => Raise ValueError
  | _ => Raise TypeError
  end.

(** *** [analyze_special_categories] *)

Record special_categories : Type := {
  ai_complaints : DataFrame;
  lep_complaints : DataFrame;
  fraud_digital_complaints : DataFrame
}.

(** ['|'.join(v)]: a list of strings is joined; a string is iterated by
    characters, a dict by its keys, a frame by its column labels. *)
Definition join_of (v : pyval) : result string :=
  match v with
  | VStrings l => Ok (String.concat "|" l)
  | VStr s => Ok (String.concat "|" (map (fun c => String c EmptyString) (list_ascii_of_string s)))
  | VTaxonomy t => Ok (String.concat "|" (map fst t))
  | VFrame df => Ok (String.concat "|" (columns df))
  | VNone | VDatetime _ | VFetcher => Raise TypeError
  end.

(** [v[c].method]: a frame is indexed by a column label; a dict by a key,
    and the list found there has no pandas method; nothing else that an
    attribute holds can be indexed by a string. *)
Definition column_of (v : pyval) (c : string) (method : string) : result Series :=
  match v with
  | VFrame df => getitem df c
  | VTaxonomy t =>
      if PyStr.mem c (map fst t) then Raise (AttributeError method) else Raise (KeyError c)
  | _ => Raise TypeError
  end.

(** [v[mask]] for the frame that produced the mask. *)
Definition rows_of (v : pyval) (m : mask) : result DataFrame :=
  match v with
  | VFrame df => Ok (loc df m)
  | _ => Raise TypeError
  end.

(** One of the three blocks of [analyze_special_categories]. *)
Definition keyword_complaints (self : instance) (keywords : string) : result DataFrame :=
  let! pattern := (let! v := getattr self keywords in join_of v) in
  let! v := getattr self "filtered_df" in
  let! narrative := column_of v "consumer_complaint_narrative" "str" in
  let! m := str_contains narrative pattern in
  let! v := getattr self "filtered_df" in
  rows_of v m.

(** [analyze_special_categories()].  The method that the first branch calls
    is defined nowhere: looking it up raises, unless an attribute of that
    name was assigned, and none of the values an attribute holds can be
    called. *)
Definition analyze_special_categories (self : instance) : result special_categories :=
  let! v := getattr self "filtered_df" in
  match v with
  | VNone =>
      let! _ := getattr self "_get_simulated_special_categories" in
      Raise TypeError
  | _ =>
      let! ai := keyword_complaints self "ai_keywords" in
      let! lep := keyword_complaints self "lep_keywords" in
      let! fraud := keyword_complaints self "fraud_digital_keywords" in
      Ok {| ai_complaints := ai; lep_complaints := lep;
            fraud_digital_complaints := fraud |}
  end.

(** *** [calculate_trend_changes] *)

#[global] Instance scalar_eq_dec : EqDecision scalar.
Proof. solve_decision. Defined.

#[global] Instance scalar_countable : Countable scalar :=
  inj_countable'
    (fun s => match s with SStr s => inl s | STime t => inr t end)
    (fun x => match x with inl s => SStr s | inr t => STime t end)
    (fun s => match s with SStr _ | STime _ => eq_refl end).

(** [s.value_counts()] as a map from the values to their counts; missing
    values are not counted. *)
Definition value_counts (s : Series) : gmap scalar nat :=
  let count := fun (v : scalar) (m : gmap scalar nat) => <[v := S (default 0%nat (m !! v))]> m in
  match s with
  | ObjectCol xs => fold_right count ∅ (map SStr (dropna xs))
  | DatetimeCol xs => fold_right count ∅ (map STime (dropna xs))
  | MissingCol _ => ∅
  end.

(** A percentage, or [float('inf')]. *)
Inductive pct : Type :=
| Finite (x : PrimFloat.float)
| Infinite.

Record trend_change : Type := {
  current : nat;
  historical : nat;
  change : Z;
  pct_change : pct
}.

(** The body of the loop over [current_products.index]. *)
Definition trend_of (historical_products : gmap scalar nat) (product : scalar)
    (current_count : nat) : trend_change :=
  let historical_count := default 0%nat (historical_products !! product) in
  let diff := Z.of_nat current_count - Z.of_nat historical_count in
  {| current := current_count;
     historical := historical_count;
     change := diff;
     pct_change :=
       if (0 <? historical_count)%nat
       then Finite (PrimFloat.mul
                      (PrimFloat.div (PyFloat.of_Z diff) (PyFloat.of_nat historical_count))
                      (PyFloat.of_nat 100))
       else if (0 <? current_count)%nat then Infinite else Finite PrimFloat.zero |}.

Section Trend.
Variable parse : string -> option Z.

(** [calculate_trend_changes(historical_data_path)]; [historical] is
    [None] when no path is given, and otherwise what [pd.read_csv] makes of
    the file. *)
Definition calculate_trend_changes (self : instance)
    (historical : option (result DataFrame))
  : result (option (gmap scalar trend_change)) :=
  match historical with
  | None => Ok None
  | Some csv =>
      let! historical_df := csv in
      let! received := getitem historical_df "date_received" in
      let! received := to_datetime parse false received in
      let historical_df := setitem historical_df "date_received" (DatetimeCol received) in
      let hist_start := datetime 2024 4 19 in
      let hist_end := datetime 2024 10 19 in
      let! received := getitem historical_df "date_received" in
      let! ge := ge_datetime received hist_start in
      let! received := getitem historical_df "date_received" in
      let! le := le_datetime received hist_end in
      let! narrative := getitem historical_df "consumer_complaint_narrative" in
      let! prod := getitem historical_df "product" in
      let! exclusions := (let! v := getattr self "credit_exclusions" in as_strings v) in
      let m :=
        mask_and (mask_and (mask_and ge le) (notna narrative))
          (mask_not (isin prod exclusions)) in
      let hist_filtered := loc historical_df m in
      let! v := getattr self "filtered_df" in
      let! prod := column_of v "product" "value_counts" in
      let current_products := value_counts prod in
      let! prod := getitem hist_filtered "product" in
      let historical_products := value_counts prod in
      Ok (Some (map_imap (fun product n => Some (trend_of historical_products product n))
                  current_products))
  end.
End Trend.

End Analyzer.

(** ** [analysis/real_data_fetcher_search.py]: the reports *)

Module Reports.
Import Pandas.

(** [s.head(n)] and [df.head(n)] *)
Definition series_head (n : Z) (s : Series) : Series :=
  match s with
  | ObjectCol xs => ObjectCol (Search.slice_to n xs)
  | DatetimeCol xs => DatetimeCol (Search.slice_to n xs)
  | MissingCol k => MissingCol (length (Search.slice_to n (repeat tt k)))
  end.

Definition head_rows (n : Z) (df : DataFrame) : DataFrame :=
  map (fun '(c, s) => (c, series_head n s)) df.

(** [df[[l1, ..., ln]]] for a list of labels in which [None] can occur.  No
    column is labelled [None]; pandas raises one [KeyError] for all the
    labels it does not find, here it names the first of them. *)
Fixpoint select_columns (df : DataFrame) (labels : list (option string))
  : result DataFrame :=
  match labels with
  | [] => Ok []
  | l :: labels' =>
      let! s := match l with
                | Some c => getitem df c
                | None => Raise (KeyError "None")
                end in
      let! rest := select_columns df labels' in
      Ok ((default "None" l, s) :: rest)
  end.

(** [df.dropna(how="all", axis=1)]: without the columns that hold nothing
    but missing values. *)
Definition all_missing (s : Series) : bool :=
  match s with
  | ObjectCol xs => forallb (fun x => negb (bool_decide (is_Some x))) xs
  | DatetimeCol xs => forallb (fun x => negb (bool_decide (is_Some x))) xs
  | MissingCol _ => true
  end.

Definition dropna_columns (df : DataFrame) : DataFrame :=
  List.filter (fun cs => negb (all_missing (snd cs))) df.

(** A [for] loop whose body can raise, collecting what the rounds
    produce. *)
Fixpoint for_each {A B} (xs : list A) (body : A -> result B) : result (list B) :=
  match xs with
  | [] => Ok []
  | x :: xs' =>
      let! y := body x in
      let! ys := for_each xs' body in
      Ok (y :: ys)
  end.

Record sub_trend : Type := {
  count : nat;
  percentage : PrimFloat.float;
  sample_complaints : DataFrame
}.

Record company_report : Type := {
  total_complaints : nat;
  top_issues : list (Analyzer.scalar * nat);
  company_sample_complaints : DataFrame
}.

(** The companies that [get_top_companies] leaves out. *)
Definition exclude : list string :=
  [ "EQUIFAX, INC.";
    "Experian Information Solutions Inc.";
    "TRANSUNION INTERMEDIATE HOLDINGS, INC.";
    "TransUnion Intermediate Holdings, Inc.";
    "EXPERIAN INFORMATION SOLUTIONS INC.";
    "Equifax Information Services LLC";
    "EXPERIAN";
    "EQUIFAX" ].

Section Reports.
(** The date parser of pandas, used when a date column is compared with a
    string. *)
Variable parse : string -> option Z.
(** [s.value_counts()]: the values of a column with their counts, the most
    frequent first.  The order among equally frequent values, and whether
    values that do not occur are listed (they are for a categorical
    column), is left to pandas. *)
Variable value_counts : Series -> list (Analyzer.scalar * nat).

(** [s == v] for a scalar [v]. *)
Definition eq_value (s : Series) (v : Analyzer.scalar) : mask :=
  match s, v with
  | ObjectCol xs, Analyzer.SStr v =>
      map (fun x => match x with Some x => String.eqb x v | None => false end) xs
  | ObjectCol xs, Analyzer.STime _ => map (fun _ => false) xs
  | DatetimeCol xs, Analyzer.STime t =>
      map (fun x => match x with Some d => d =? t | None => false end) xs
  | DatetimeCol xs, Analyzer.SStr v =>
      match parse v with
      | Some t => map (fun x => match x with Some d => d =? t | None => false end) xs
      | None => map (fun _ => false) xs
      end
  | MissingCol n, _ => repeat false n
  end.

(** The narrative label, or [None] when the table has no such column. *)
Definition narrative_label (df : DataFrame) : option string :=
  if has_column df Search.narrative_column then Some Search.narrative_column else None.

(** [get_sub_trends(df, product, top_n)] *)
Definition get_sub_trends (df : option DataFrame) (product : Analyzer.scalar) (top_n : Z)
  : result (option (list (Analyzer.scalar * sub_trend))) :=
  match df with
  | None => Ok None
  | Some df =>
      if Nat.eqb (len df) 0 then Ok None else
      let! prod := getitem df "Product" in
      let sub := loc df (eq_value prod product) in
      if empty sub then Ok None else
      let! issues := getitem sub "Issue" in
      let counts := Search.slice_to top_n (value_counts issues) in
      let! details :=
        for_each counts
          (fun '(issue, n) =>
             let! issues := getitem sub "Issue" in
             let! sample :=
               select_columns (loc sub (eq_value issues issue))
                 [ Some "Complaint ID"; narrative_label sub; Some "Company"; Some "State";
                   Some "Date received" ] in
             let sample := head_rows 3 (dropna_columns sample) in
             Ok (issue, {| count := n;
                           percentage := Analyzer.percentage n (len sub);
                           sample_complaints := sample |})) in
      Ok (Some details)
  end.

(** [get_top_companies(df, top_n)] *)
Definition get_top_companies (df : option DataFrame) (top_n : Z)
  : result (option (list (Analyzer.scalar * company_report))) :=
  match df with
  | None => Ok None
  | Some df =>
      if Nat.eqb (len df) 0 then Ok None else
      let! comp := getitem df "Company" in
      let base := loc df (mask_not (isin comp exclude)) in
      let! comp := getitem base "Company" in
      let top := Search.slice_to top_n (value_counts comp) in
      let! out :=
        for_each top
          (fun '(company, n) =>
             let! comp := getitem base "Company" in
             let cdf := loc base (eq_value comp company) in
             let! issues := getitem cdf "Issue" in
             let top_issues := Search.slice_to 5 (value_counts issues) in
             let! sample :=
               select_columns cdf
                 [ Some "Complaint ID"; narrative_label cdf; Some "Issue"; Some "Product";
                   Some "Date received" ] in
             let sample := head_rows 5 (dropna_columns sample) in
             Ok (company, {| total_complaints := n;
                             top_issues := top_issues;
                             company_sample_complaints := sample |})) in
      Ok (Some out)
  end.
End Reports.

End Reports.

(** ** Vocabulary of the statements *)

Module Spec.
Import Pandas.

(** A frame is well formed when all its columns have the length of its
    index. *)
Definition well_formed (df : DataFrame) : bool :=
  forallb (fun cs => Nat.eqb (series_len (snd cs)) (len df)) df.

(** The cell of row [i] in a [datetime64] column [c]. *)
Definition datetime_at (df : DataFrame) (c : string) (i : nat) : option (option Z) :=
  match getitem df c with
  | Ok (DatetimeCol xs) => xs !! i
  | _ => None
  end.

(** The cell of row [i] in a text column [c]. *)
Definition text_at (df : DataFrame) (c : string) (i : nat) : option (option string) :=
  match getitem df c with
  | Ok (ObjectCol xs) => xs !! i
  | _ => None
  end.

(** The three predicates of the filter. *)
Definition in_window (start_date end_date : Z) (cell : option Z) : Prop :=
  exists t, cell = Some t /\ start_date <= t <= end_date.

Definition has_narrative (cell : option string) : Prop :=
  exists s, cell = Some s /\ PyStr.strip s <> "".

Definition not_excluded (exclusions : list string) (cell : option string) : Prop :=
  forall p, cell = Some p -> ~ In p exclusions.

(** The two implementations of the filter. *)
Inductive engine : Type :=
| SearchEngine (self : Search.SearchAPIRealDataFetcher)
| LiteEngine (self : Lite.RealDataFetcher).

Definition filtered (e : engine) (df : DataFrame) : result DataFrame :=
  match e with
  | SearchEngine self => Search._apply_filters self df
  | LiteEngine self => snd (Lite.apply_filters self df)
  end.



Definition exclusions (e : engine) : list string :=
  match e with
  | SearchEngine _ => Search.credit_exclusions
  | LiteEngine _ => Lite.credit_exclusions
  end.


(** [d] is the least, or the greatest, instant of a [datetime64] column;
    [NaT] cells do not count. *)
Definition least_date (xs : list (option Z)) (d : Z) : Prop :=
  In (Some d) xs /\ forall t, In (Some t) xs -> d <= t.

Definition greatest_date (xs : list (option Z)) (d : Z) : Prop :=
  In (Some d) xs /\ forall t, In (Some t) xs -> t <= d.

(** The table that the cache file holds, once its date columns are
    converted. *)
Definition cached_table (parse : string -> option Z) (f : Lite.cache_file)
  : result DataFrame :=
  let! r := Lite.read_cache parse f in Ok (fst (fst r)).



(** Does the narrative in a cell match?  A missing narrative does not. *)
Definition matches (r : Re.regex) (cell : option string) : bool :=
  match cell with
  | Some x => Re.search r x
  | None => false
  end.






(** The alternatives of a label make a pattern of the supported fragment. *)
Definition compiles (entry : string * list string) : bool :=
  match Re.compile (String.concat "|" (snd entry)) with
  | Some _ => true
  | None => false
  end.


(** The provider never sends more hits than the request asks for. *)
Definition honours_size (api : Search.provider) : Prop :=
  forall req hits,
    api req = Search.Body hits -> Z.of_nat (length hits) <= Z.max 0 (Search.size req).

(** The provider has plenty of complaints: every request gets exactly as
    many hits as it asks for. *)
Definition fills_pages (api : Search.provider) : Prop :=
  forall req, exists hits,
    api req = Search.Body hits /\ length hits = Z.to_nat (Search.size req).

(** The request that the generator sends from a state. *)
Definition request_of (self : Search.SearchAPIRealDataFetcher) (page_size : Z)
    (st : Search.page_state) : Search.request :=
  {| Search.date_received_min := Search.start_date self;
     Search.date_received_max := Search.end_date self;
     Search.size :=
       Z.min page_size (Search.max_records self - Search.st_total_yielded st);
     Search.frm := Search.st_frm st;
     Search.has_narrative := negb (Search.lite_mode self) |}.

(** One round of the renaming loop of the lite fetcher. *)
Definition rename_step (df : DataFrame) (p : string * string) : DataFrame :=
  let '(old, new) := p in
  if has_column df old && negb (has_column df new) then rename df old new else df.


(** A date parser for the examples: [YYYY-MM-DD]. *)
Definition iso_date (s : string) : option Z :=
  match list_ascii_of_string s with
  | [y1; y2; y3; y4; "-"%char; m1; m2; "-"%char; d1; d2] =>
      match PyStr.digit y1, PyStr.digit y2, PyStr.digit y3, PyStr.digit y4,
            PyStr.digit m1, PyStr.digit m2, PyStr.digit d1, PyStr.digit d2 with
      | Some a, Some b, Some c, Some d, Some e, Some f, Some g, Some h =>
          let y := 1000 * a + 100 * b + 10 * c + d in
          let m := 10 * e + f in
          let d := 10 * g + h in
          if (1 <=? m) && (m <=? 12) && (1 <=? d) && (d <=? 31)
          then Some (datetime y m d) else None
      | _, _, _, _, _, _, _, _ => None
      end
  | _ => None
  end.

(** The two messages that tell the user that records were cut off. *)
Definition reports_truncation (m : Search.message) : bool :=
  match m with
  | Search.MsgReachedMaxRecords _ | Search.MsgTruncated _ => true
  | _ => false
  end.

(** Does the narrative in a cell match the combined pattern of a label? *)
Definition matches_label (entry : string * list string) (cell : option string) : bool :=
  match Re.compile (String.concat "|" (snd entry)) with
  | Some r => matches r cell
  | None => false
  end.

(** The labels of a taxonomy that a narrative matches, in the order of the
    taxonomy. *)
Definition labels_of (taxonomy : list (string * list string)) (cell : option string)
  : list string :=
  map fst (List.filter (fun entry => matches_label entry cell) taxonomy).

(** The working copy of the classifier once the labels of [done] have been
    handled: row by row, the ["harm_categories"] cell lists the labels
    matched so far. *)
Definition categories_upto (done : list (string * list string)) (df : DataFrame)
    (narr : list (option string)) : Prop :=
  df <> []
  /\ len df = length narr
  /\ getitem df "consumer_complaint_narrative" = Ok (ObjectCol narr)
  /\ exists cats,
       getitem df "harm_categories" = Ok (ObjectCol cats)
       /\ length cats = length narr
       /\ forall i x, narr !! i = Some x ->
            cats !! i = Some (Some (String.concat ", " (labels_of done x))).

(** [p] is a prefix of [s], and [p] occurs in [s], when the case of the
    ASCII letters is ignored. *)
Fixpoint prefix_ci (p s : string) : bool :=
  match p, s with
  | EmptyString, _ => true
  | String a p', String b s' =>
      Ascii.eqb (PyStr.lower_char a) (PyStr.lower_char b) && prefix_ci p' s'
  | String _ _, EmptyString => false
  end.

Fixpoint contains_ci (p s : string) : bool :=
  prefix_ci p s ||
  match s with
  | EmptyString => false
  | String _ s' => contains_ci p s'
  end.

(** The narrative in a cell mentions one of the keywords. *)
Definition mentions (keywords : list string) (cell : option string) : bool :=
  match cell with
  | Some s => existsb (fun k => contains_ci k s) keywords
  | None => false
  end.

(** The expression that reads one word, and the one that reads one of
    several words. *)
Fixpoint word (w : string) : Re.regex :=
  match w with
  | EmptyString => Re.Eps
  | String c EmptyString => Re.Chr c
  | String c w' => Re.Cat (Re.Chr c) (word w')
  end.

Fixpoint one_of (ws : list string) : Re.regex :=
  match ws with
  | [] => Re.Eps
  | [w] => word w
  | w :: ws' => Re.Alt (word w) (one_of ws')
  end.

(** What the reports need of [value_counts]: a column with a value that is
    not missing has at least one entry. *)
Definition lists_values (value_counts : Series -> list (Analyzer.scalar * nat)) : Prop :=
  forall s, existsb id (notna s) = true -> value_counts s <> [].

(** A [value_counts] for the examples: the values are counted, then sorted
    by decreasing count. *)
Fixpoint tally (xs : list Analyzer.scalar) : list (Analyzer.scalar * nat) :=
  match xs with
  | [] => []
  | x :: xs' =>
      let t := tally xs' in
      if existsb (fun p => bool_decide (fst p = x)) t
      then map (fun p => if bool_decide (fst p = x) then (fst p, S (snd p)) else p) t
      else (x, 1%nat) :: t
  end.

Fixpoint insert_count (p : Analyzer.scalar * nat) (l : list (Analyzer.scalar * nat))
  : list (Analyzer.scalar * nat) :=
  match l with
  | [] => [p]
  | x :: l' => if (snd x <=? snd p)%nat then p :: l else x :: insert_count p l'
  end.

Definition counts_by_frequency (s : Series) : list (Analyzer.scalar * nat) :=
  fold_right insert_count []
    match s with
    | ObjectCol xs => tally (map Analyzer.SStr (Analyzer.dropna xs))
    | DatetimeCol xs => tally (map Analyzer.STime (Analyzer.dropna xs))
    | MissingCol _ => []
    end.

(** The filter of the search fetcher in one pass: the three predicates are
    evaluated on the rows of the table as it comes in, and a row is kept
    when all of them hold. *)
Definition keep_mask (self : Search.SearchAPIRealDataFetcher) (df : DataFrame)
  : result mask :=
  let! received := getitem df "Date received" in
  let! ge := ge_datetime received (Search.start_date self) in
  let! le := le_datetime received (Search.end_date self) in
  let! narrative_mask :=
    if negb (Search.lite_mode self) && has_column df Search.narrative_column then
      let! narrative := getitem df Search.narrative_column in
      let! stripped := str_strip narrative in
      Ok (mask_and (notna narrative) (ne_str stripped ""))
    else Ok (all_true (len df)) in
  let! prod := getitem df "Product" in
  Ok (mask_and (mask_and (mask_and ge le) narrative_mask)
        (mask_not (isin prod Search.credit_exclusions))).





End Spec.

(** ** Sample data for the examples *)

Module Samples.
Import Pandas.

(** A search fetcher built on 2025-10-19 for three months, outside lite
    mode. *)
Definition search_fetcher : Search.SearchAPIRealDataFetcher :=
  {| Search.start_date := datetime 2025 10 19 - timedelta_days 90;
     Search.end_date := datetime 2025 10 19;
     Search.lite_mode := false;
     Search.max_records := 250;
     Search.use_cache := false |}.

Definition search_fetcher_lite : Search.SearchAPIRealDataFetcher :=
  {| Search.start_date := datetime 2025 10 19 - timedelta_days 90;
     Search.end_date := datetime 2025 10 19;
     Search.lite_mode := true;
     Search.max_records := 250;
     Search.use_cache := true |}.

(** Four complaints: one passes; one is too old; one has a blank narrative;
    one is about credit reporting and has no date. *)
Definition batch : DataFrame :=
  [ ("Complaint ID", ObjectCol [Some "1"; Some "2"; Some "3"; Some "4"]);
    ("Date received",
     DatetimeCol [Some (datetime 2025 9 1); Some (datetime 2025 1 1);
                  Some (datetime 2025 9 2); None]);
    ("Product",
     ObjectCol [Some "Mortgage"; Some "Mortgage"; Some "Debt collection";
                Some "Credit reporting"]);
    ("Consumer complaint narrative",
     ObjectCol [Some "they charged a fee without my authorization"; Some "late fee";
                Some "   "; Some "wrong entry"]) ].

Definition batch_filtered : DataFrame :=
  [ ("Complaint ID", ObjectCol [Some "1"]);
    ("Date received", DatetimeCol [Some (datetime 2025 9 1)]);
    ("Product", ObjectCol [Some "Mortgage"]);
    ("Consumer complaint narrative",
     ObjectCol [Some "they charged a fee without my authorization"]) ].

(** What lite mode keeps of [batch]: the blank narrative does not matter, and
    the narrative column is gone. *)
Definition batch_filtered_lite : DataFrame :=
  [ ("Complaint ID", ObjectCol [Some "1"; Some "3"]);
    ("Date received", DatetimeCol [Some (datetime 2025 9 1); Some (datetime 2025 9 2)]);
    ("Product", ObjectCol [Some "Mortgage"; Some "Debt collection"]) ].

(** A batch without rows that has a narrative column. *)
Definition empty_batch : DataFrame :=
  [ ("Complaint ID", ObjectCol []);
    ("Date received", DatetimeCol []);
    ("Product", ObjectCol []);
    ("Consumer complaint narrative", ObjectCol []) ].

(** A CSV with the lower-case labels that [CFPBAnalyzer] reads. *)
Definition analyzer_csv : DataFrame :=
  [ ("complaint_id", ObjectCol [Some "1"; Some "2"]);
    ("date_received", ObjectCol [Some "2025-09-01"; Some "2025-05-02"]);
    ("product", ObjectCol [Some "Mortgage"; Some "Debt collection"]);
    ("company", ObjectCol [Some "ACME BANK"; Some "ZETA COLLECTIONS"]);
    ("consumer_complaint_narrative",
     ObjectCol [Some "a classic bait and switch"; Some "they keep calling"]) ].

(** A filtered corpus for the classifier.  The first two narratives match
    "Misleading Marketing", the third "Harassment by Debt Collector". *)
Definition corpus_narratives : list (option string) :=
  [ Some "a classic bait and switch"; Some "it was BAIT AND SWITCH again";
    Some "they keep calling me" ].

Definition corpus_products : list (option string) :=
  [ Some "Mortgage"; Some "Debt collection"; Some "Debt collection" ].

(** The company of the first complaint is missing. *)
Definition corpus_companies : list (option string) :=
  [ None; Some "ACME BANK"; Some "ACME BANK" ].

Definition corpus : DataFrame :=
  [ ("complaint_id", ObjectCol [Some "1"; Some "2"; Some "3"]);
    ("product", ObjectCol corpus_products);
    ("company", ObjectCol corpus_companies);
    ("consumer_complaint_narrative", ObjectCol corpus_narratives) ].



Definition a_hit : Search.hit :=
  {| Search.complaint_id := Some "1";
     Search.date_received := Some "2025-09-01";
     Search.date_sent_to_company := Some "2025-09-02";
     Search.product := Some "Mortgage";
     Search.issue := Some "Fees";
     Search.company := Some "ACME BANK";
     Search.state := Some "TX";
     Search.complaint_what_happened := Some "they charged a fee without my authorization" |}.

(** A provider with plenty of complaints: it fills every page. *)
Definition full_pages : Search.provider :=
  fun req => Search.Body (repeat a_hit (Z.to_nat (Search.size req))).

(** A provider that sends 300 hits whatever the request asks for. *)
Definition oversized : Search.provider :=
  fun _ => Search.Body (repeat a_hit 300).





(** A lite fetcher built on 2025-10-19 for four months. *)
Definition lite_fetcher : Lite.RealDataFetcher :=
  {| Lite.start_date := datetime 2025 10 19 - timedelta_days 120;
     Lite.end_date := datetime 2025 10 19;
     Lite.lite_mode := false;
     Lite.include_narratives := true |}.



(** A converted batch that has no product column under either label. *)
Definition batch_without_product : DataFrame :=
  [ ("Complaint ID", ObjectCol [Some "1"; Some "2"]);
    ("Date received", DatetimeCol [Some (datetime 2025 9 1); Some (datetime 2025 9 3)]);
    ("Date sent to company", DatetimeCol [Some (datetime 2025 9 2); None]);
    ("Consumer complaint narrative", ObjectCol [Some "late fee"; Some "wrong entry"]) ].

(** A converted batch that has no narrative column under either label. *)
Definition batch_without_narrative : DataFrame :=
  [ ("Complaint ID", ObjectCol [Some "1"; Some "2"]);
    ("Date received", DatetimeCol [Some (datetime 2025 9 1); Some (datetime 2025 9 3)]);
    ("Date sent to company", DatetimeCol [Some (datetime 2025 9 2); None]);
    ("Product", ObjectCol [Some "Mortgage"; Some "Credit reporting"]) ].

(** A cache file written three days before 2025-10-19: it reaches back
    beyond the window of [lite_fetcher], and one of its complaints is about
    credit reporting. *)
Definition stored_cache : Lite.cache_file :=
  {| Lite.mtime := datetime 2025 10 16;
     Lite.cache_contents :=
       Ok [ ("Date received", ObjectCol [Some "2025-06-01"; Some "2025-10-15"]);
            ("Date sent to company", ObjectCol [Some "2025-06-02"; None]);
            ("Product", ObjectCol [Some "Credit reporting"; Some "Mortgage"]) ] |}.

(** A bulk file in which one date cannot be read. *)
Definition csv_with_bad_date : DataFrame :=
  [ ("Complaint ID", ObjectCol [Some "1"; Some "2"]);
    ("Date received", ObjectCol [Some "2025-09-01"; Some "yesterday"]);
    ("Date sent to company", ObjectCol [Some "2025-09-02"; None]);
    ("Product", ObjectCol [Some "Mortgage"; Some "Mortgage"]);
    ("Consumer complaint narrative", ObjectCol [Some "late fee"; Some "wrong entry"]) ].

(** A table with the lower-case labels of the API, and a product column
    under both labels. *)
Definition lowercase_batch : DataFrame :=
  [ ("complaint_id", ObjectCol [Some "1"]);
    ("date_received", ObjectCol [Some "2025-09-01"]);
    ("product", ObjectCol [Some "Mortgage"]);
    ("Product", ObjectCol [Some "Mortgage"]);
    ("company", ObjectCol [Some "ACME BANK"]) ].

(** A corpus in which no narrative matches a label of the taxonomy. *)
Definition quiet_corpus : DataFrame :=
  [ ("complaint_id", ObjectCol [Some "7"; Some "8"]);
    ("product", ObjectCol [Some "Mortgage"; Some "Student loan"]);
    ("company", ObjectCol [Some "ACME BANK"; Some "ZETA BANK"]);
    ("consumer_complaint_narrative",
     ObjectCol [Some "I would like a copy of my statement"; Some "thank you"]) ].

(** A corpus whose second narrative matches two labels. *)
Definition mixed_corpus : DataFrame :=
  [ ("complaint_id", ObjectCol [Some "1"; Some "2"; Some "3"]);
    ("product", ObjectCol [Some "Mortgage"; Some "Debt collection"; Some "Mortgage"]);
    ("company", ObjectCol [Some "ZETA BANK"; Some "ACME BANK"; Some "ACME BANK"]);
    ("consumer_complaint_narrative",
     ObjectCol [ Some "a classic bait and switch";
                 Some "a hidden fee, and they keep calling me";
                 Some "thank you" ]) ].

(** A corpus in which no complaint is about artificial intelligence, a
    language barrier or fraud. *)
Definition plain_corpus : DataFrame :=
  [ ("complaint_id", ObjectCol [Some "1"; Some "2"; Some "3"]);
    ("consumer_complaint_narrative",
     ObjectCol [ Some "I paid the bill in full";
                 Some "My loan application was denied";
                 Some "The bank closed the branch" ]) ].

(** A historical file for the year-over-year comparison. *)
Definition historical_csv : DataFrame :=
  [ ("date_received", ObjectCol [Some "2024-05-01"; Some "2024-06-01"]);
    ("product", ObjectCol [Some "Mortgage"; Some "Debt collection"]);
    ("consumer_complaint_narrative", ObjectCol [Some "late fee"; Some "wrong amount"]) ].

(** A table as the search loader returns it in lite mode: no narrative
    column. *)
Definition lite_table : DataFrame :=
  [ ("Complaint ID", ObjectCol [Some "1"; Some "2"]);
    ("Date received", DatetimeCol [Some (datetime 2025 9 1); Some (datetime 2025 9 2)]);
    ("Product", ObjectCol [Some "Mortgage"; Some "Debt collection"]);
    ("Issue", ObjectCol [Some "Fees"; Some "Calls"]);
    ("Company", ObjectCol [Some "ACME BANK"; Some "ZETA COLLECTIONS"]);
    ("State", ObjectCol [Some "TX"; Some "NY"]) ].



End Samples.

(* ===================================================================== *)
(** * Part II: properties                                                 *)
(* ===================================================================== *)

(** ** The building blocks on known values *)

Section Checks.
Import Spec.

Example days_from_civil_epoch : days_from_civil 1970 1 1 = 0.
Proof. reflexivity. Qed.

Example days_from_civil_leap_day : days_from_civil 2000 2 29 = 11016.
Proof. reflexivity. Qed.

Example days_from_civil_analysis_end : days_from_civil 2025 10 19 = 20380.
Proof. reflexivity. Qed.

Example strip_whitespace :
  PyStr.strip (String (ascii_of_nat 28) " a b " ++ String (ascii_of_nat 10) "") = "a b".
Proof. reflexivity. Qed.

Example int_examples :
  PyStr.int " 1_0 " = Some 10 /\ PyStr.int "-3" = Some (-3)
  /\ PyStr.int "1__0" = None /\ PyStr.int "four" = None /\ PyStr.int "+ 5" = None.
Proof. repeat split; reflexivity. Qed.

(** [int] does not skip the separator that [strip] removes, and refuses a
    literal of more than 4300 digits. *)
Example int_limits :
  PyStr.strip (String (ascii_of_nat 28) "5") = "5"
  /\ PyStr.int (String (ascii_of_nat 28) "5") = None
  /\ PyStr.int (String.concat "" (repeat "7" 4300)) <> None
  /\ PyStr.int (String.concat "" (repeat "7" 4301)) = None.
Proof.
  split; [reflexivity|]. split; [reflexivity|].
  split; [vm_compute; discriminate|vm_compute; reflexivity].
Qed.

(** Percentages are binary64 numbers: a quarter is 25 exactly, while 7
    complaints out of 100 make a little more than 7 percent. *)
Example percentage_examples :
  Analyzer.percentage 1 4 = PyFloat.of_nat 25
  /\ PrimFloat.ltb (PyFloat.of_nat 7) (Analyzer.percentage 7 100) = true
  /\ PrimFloat.ltb (Analyzer.percentage 7 100) (Analyzer.percentage 8 100) = true.
Proof. repeat split; vm_compute; reflexivity. Qed.

(** An unknown [MONTHS_WINDOW] falls back to four months. *)
Example months_of_env_examples :
  Lite.months_of_env None = 4 /\ Lite.months_of_env (Some "six") = 4
  /\ Lite.months_of_env (Some "6") = 6 /\ Lite.months_of_env (Some "-2") = -2.
Proof. repeat split; reflexivity. Qed.

Example lite_mode_of_env_examples :
  Search.lite_mode_of_env None = true /\ Search.lite_mode_of_env (Some "TRUE") = true
  /\ Search.lite_mode_of_env (Some "0") = false /\ Lite.lite_mode_of_env None = false.
Proof. repeat split; reflexivity. Qed.

(** The combined pattern of "Unauthorized Fees" on four narratives: [.] does
    not cross a line break, and letters match without their case. *)
Example unauthorized_fees_matches :
  exists r,
    Re.compile
      (String.concat "|"
         [ "fee.*(?:without|no|never).*(?:authorization|consent|permission|approval)";
           "(?:charged|billing|billed).*(?:unauthorized|without.*permission)";
           "fee.*(?:did not|didn\'t).*(?:authorize|approve|consent)";
           "never.*(?:agreed|authorized|approved).*fee" ]) = Some r
    /\ Re.search r "they charged a fee without my authorization" = true
    /\ Re.search r (String.append "a fee" (String Re.newline "without authorization")) = false
    /\ Re.search r "FEE... I didn't authorize" = true
    /\ Re.search r "nothing here" = false.
Proof.
  eexists. split; [vm_compute; reflexivity|].
  split; [vm_compute; reflexivity|]. split; [vm_compute; reflexivity|].
  split; vm_compute; reflexivity.
Qed.

Example iso_date_examples :
  iso_date "2025-10-19" = Some (datetime 2025 10 19) /\ iso_date "19/10/2025" = None.
Proof. split; reflexivity. Qed.

End Checks.

(** ** Masks and selections *)

Section MaskFacts.
Import Pandas.

(** Selections of a column in which every cell is the same. *)
Lemma select_repeat {A} (m : mask) (x : A) (n : nat) :
  select m (repeat x n) = repeat x (length (select m (repeat tt n))).
Proof.
  revert n. induction m as [|b m IH]; intros [|n]; simpl; try reflexivity.
  destruct b; simpl; now rewrite IH.
Qed.

Lemma repeat_unit (l : list unit) : repeat tt (length l) = l.
Proof. induction l as [|[] l IH]; simpl; [reflexivity|]. now rewrite IH. Qed.

Lemma map_repeat_const {A B} (f : A -> B) (x : A) (n : nat) :
  map f (repeat x n) = repeat (f x) n.
Proof. induction n as [|n IH]; simpl; [reflexivity|]. now rewrite IH. Qed.

Lemma select_all_length (n : nat) : length (select (repeat true n) (repeat tt n)) = n.
Proof. induction n as [|n IH]; simpl; [reflexivity|]. now rewrite IH. Qed.

Lemma repeat_false_lookup (n i : nat) : repeat false n !! i <> Some true.
Proof. revert i. induction n as [|n IH]; intros [|i]; simpl; try discriminate. apply IH. Qed.

Lemma existsb_repeat_false (n : nat) : existsb id (repeat false n) = false.
Proof. induction n as [|n IH]; simpl; auto. Qed.

Lemma select_lookup {A} (m : mask) (xs : list A) (j : nat) (x : A) :
  select m xs !! j = Some x ->
  exists i, xs !! i = Some x /\ m !! i = Some true.
Proof.
  revert xs j. induction m as [|b m IH]; intros [|y xs] j H; simpl in H;
    try discriminate.
  destruct b.
  - destruct j as [|j]; simpl in H.
    + exists 0%nat. simpl. split; congruence.
    + destruct (IH _ _ H) as (i & Hx & Hm). exists (S i). auto.
  - destruct (IH _ _ H) as (i & Hx & Hm). exists (S i). auto.
Qed.

Lemma mask_and_lookup (a b : mask) (i : nat) :
  mask_and a b !! i = Some true ->
  a !! i = Some true /\ b !! i = Some true.
Proof.
  revert b i. induction a as [|x a IH]; intros [|y b] i H; simpl in H;
    try discriminate.
  destruct i as [|i]; simpl in *.
  - injection H as H. apply andb_true_iff in H as [-> ->]. auto.
  - auto.
Qed.

Lemma map_lookup_true {A} (f : A -> bool) (xs : list A) (i : nat) (x : A) :
  map f xs !! i = Some true -> xs !! i = Some x -> f x = true.
Proof.
  revert i. induction xs as [|y xs IH]; intros [|i] H Hx; simpl in *;
    try discriminate.
  - congruence.
  - eauto.
Qed.

Lemma mask_not_lookup (m : mask) (i : nat) :
  mask_not m !! i = Some true -> m !! i = Some false.
Proof.
  revert i. induction m as [|b m IH]; intros [|i] H; simpl in *; try discriminate.
  - destruct b; simpl in H; congruence.
  - auto.
Qed.

Lemma map_lookup_false {A} (f : A -> bool) (xs : list A) (i : nat) (x : A) :
  map f xs !! i = Some false -> xs !! i = Some x -> f x = false.
Proof.
  revert i. induction xs as [|y xs IH]; intros [|i] H Hx; simpl in *;
    try discriminate.
  - congruence.
  - eauto.
Qed.

Lemma map_lookup {A B} (f : A -> B) (xs : list A) (i : nat) :
  map f xs !! i = option_map f (xs !! i).
Proof.
  revert i. induction xs as [|y xs IH]; intros [|i]; simpl; auto.
Qed.

End MaskFacts.

(** ** Columns of a frame *)

Section FrameFacts.
Import Pandas.

Lemma columns_loc (df : DataFrame) (m : mask) : columns (loc df m) = columns df.
Proof.
  unfold columns, loc. rewrite map_map. apply map_ext. intros [c s]. reflexivity.
Qed.

Lemma has_column_loc (df : DataFrame) (m : mask) (c : string) :
  has_column (loc df m) c = has_column df c.
Proof. unfold has_column. now rewrite columns_loc. Qed.

Lemma getitem_loc (df : DataFrame) (m : mask) (c : string) :
  getitem (loc df m) c =
  match getitem df c with
  | Ok s => Ok (series_select m s)
  | Raise e => Raise e
  end.
Proof.
  induction df as [|[c' s] df IH]; simpl; [reflexivity|].
  destruct (String.eqb c' c); auto.
Qed.

Lemma has_column_cons (c' : string) (s : Series) (df : DataFrame) (c : string) :
  has_column ((c', s) :: df) c = String.eqb c' c || has_column df c.
Proof. unfold has_column. simpl. now rewrite String.eqb_sym. Qed.



Lemma getitem_drop_ne (df : DataFrame) (c d : string) :
  c <> d -> getitem (drop df d) c = getitem df c.
Proof.
  intros Hne. induction df as [|[c' s'] df IH]; simpl; [reflexivity|].
  destruct (String.eqb_spec c' d) as [->|Hd]; simpl.
  - destruct (String.eqb_spec d c); [congruence|]. exact IH.
  - destruct (String.eqb c' c); auto.
Qed.

Lemma has_column_drop (df : DataFrame) (d : string) : has_column (drop df d) d = false.
Proof.
  induction df as [|[c' s'] df IH]; simpl; [reflexivity|].
  destruct (String.eqb_spec c' d) as [->|Hd]; simpl; [exact IH|].
  rewrite has_column_cons, IH.
  destruct (String.eqb_spec c' d); [congruence|reflexivity].
Qed.




Lemma getitem_setitem_eq (df : DataFrame) (c : string) (s : Series) :
  getitem (setitem df c s) c = Ok s.
Proof.
  induction df as [|[c' s'] df IH]; cbn [setitem getitem].
  - now rewrite String.eqb_refl.
  - destruct (String.eqb c' c) eqn:Hc; cbn [getitem]; rewrite Hc; auto.
Qed.

Lemma getitem_setitem_ne (df : DataFrame) (c d : string) (s : Series) :
  c <> d -> getitem (setitem df d s) c = getitem df c.
Proof.
  intros Hne. induction df as [|[c' s'] df IH]; cbn [setitem getitem].
  - destruct (String.eqb_spec d c); [congruence|reflexivity].
  - destruct (String.eqb_spec c' d) as [->|Hd]; cbn [getitem].
    + destruct (String.eqb_spec d c); [congruence|reflexivity].
    + destruct (String.eqb c' c); auto.
Qed.

Lemma has_column_setitem_ne (df : DataFrame) (c d : string) (s : Series) :
  c <> d -> has_column (setitem df d s) c = has_column df c.
Proof.
  intros Hne. induction df as [|[c' s'] df IH]; cbn [setitem].
  - rewrite has_column_cons. destruct (String.eqb_spec d c); [congruence|reflexivity].
  - destruct (String.eqb_spec c' d) as [->|Hd]; rewrite !has_column_cons.
    + reflexivity.
    + now rewrite IH.
Qed.

Lemma len_setitem (df : DataFrame) (d : string) (s : Series) :
  df <> [] -> series_len s = len df -> len (setitem df d s) = len df.
Proof.
  destruct df as [|[c' s'] df]; [congruence|]. intros _ H. cbn [setitem].
  destruct (String.eqb c' d); simpl in *; auto.
Qed.

End FrameFacts.

(** ** The filters *)

Section FilterFacts.
Import Pandas Spec.

Lemma ge_datetime_lookup (s : Series) (t : Z) (m : mask) (i : nat) :
  ge_datetime s t = Ok m -> m !! i = Some true ->
  exists xs d, s = DatetimeCol xs /\ xs !! i = Some (Some d) /\ t <= d.
Proof.
  destruct s as [xs|xs|n]; simpl; [discriminate| |discriminate]. intros [= <-] H.
  destruct (xs !! i) as [x|] eqn:Hx.
  - pose proof (map_lookup_true _ _ _ _ H Hx) as Hf. destruct x as [d|]; [|discriminate].
    exists xs, d. split; [reflexivity|]. split; [exact Hx|]. lia.
  - rewrite map_lookup, Hx in H. discriminate.
Qed.

Lemma le_datetime_lookup (s : Series) (t : Z) (m : mask) (i : nat) :
  le_datetime s t = Ok m -> m !! i = Some true ->
  exists xs d, s = DatetimeCol xs /\ xs !! i = Some (Some d) /\ d <= t.
Proof.
  destruct s as [xs|xs|n]; simpl; [discriminate| |discriminate]. intros [= <-] H.
  destruct (xs !! i) as [x|] eqn:Hx.
  - pose proof (map_lookup_true _ _ _ _ H Hx) as Hf. destruct x as [d|]; [|discriminate].
    exists xs, d. split; [reflexivity|]. split; [exact Hx|]. lia.
  - rewrite map_lookup, Hx in H. discriminate.
Qed.

(** A row kept by both date comparisons lies in the window. *)
Lemma date_mask_window (s : Series) (lo hi : Z) (ge le : mask) (i : nat) :
  ge_datetime s lo = Ok ge -> le_datetime s hi = Ok le ->
  mask_and ge le !! i = Some true ->
  exists xs, s = DatetimeCol xs /\ exists x, xs !! i = Some x /\ in_window lo hi x.
Proof.
  intros Hge Hle H. apply mask_and_lookup in H as [H1 H2].
  destruct (ge_datetime_lookup _ _ _ _ Hge H1) as (xs & d & -> & Hd & Hlo).
  destruct (le_datetime_lookup _ _ _ _ Hle H2) as (xs' & d' & [= <-] & Hd' & Hhi).
  exists xs. split; [reflexivity|]. exists (Some d). split; [assumption|].
  exists d. split; [reflexivity|]. rewrite Hd in Hd'. injection Hd' as <-. lia.
Qed.

(** A row kept by the narrative mask has a narrative that is not blank. *)
Lemma narrative_mask_text (s stripped : Series) (i : nat) :
  str_strip s = Ok stripped ->
  mask_and (notna s) (ne_str stripped "") !! i = Some true ->
  exists xs, s = ObjectCol xs /\ exists x, xs !! i = Some x /\ has_narrative x.
Proof.
  destruct s as [xs|xs|n]; simpl; [|discriminate|discriminate]. intros [= <-] H.
  apply mask_and_lookup in H as [H1 H2]. simpl in H2.
  exists xs. split; [reflexivity|].
  destruct (xs !! i) as [x|] eqn:Hx.
  - exists x. split; [reflexivity|].
    pose proof (map_lookup_true _ _ _ _ H1 Hx) as Hna.
    destruct x as [x|]; [|discriminate].
    exists x. split; [reflexivity|].
    assert (Hs : map (option_map PyStr.strip) xs !! i = Some (Some (PyStr.strip x))).
    { rewrite map_lookup, Hx. reflexivity. }
    pose proof (map_lookup_true _ _ _ _ H2 Hs) as Hne. simpl in Hne.
    apply negb_true_iff, String.eqb_neq in Hne. exact Hne.
  - rewrite map_lookup, Hx in H1. discriminate.
Qed.

Lemma mem_In (x : string) (xs : list string) : PyStr.mem x xs = true <-> In x xs.
Proof.
  unfold PyStr.mem. rewrite existsb_exists. split.
  - intros (y & Hy & Heq). apply String.eqb_eq in Heq. now subst.
  - intros H. exists x. split; [assumption|apply String.eqb_refl].
Qed.

(** A row kept by the product mask has no excluded product. *)
Lemma product_mask_text (xs : list (option string)) (exclusions : list string)
    (i : nat) (x : option string) :
  mask_not (isin (ObjectCol xs) exclusions) !! i = Some true ->
  xs !! i = Some x -> not_excluded exclusions x.
Proof.
  intros H Hx p ->. apply mask_not_lookup in H. simpl in H.
  pose proof (map_lookup_false _ _ _ _ H Hx) as Hf. simpl in Hf.
  intros Hin. apply mem_In in Hin. congruence.
Qed.

End FilterFacts.

Section FilterPostcondition.
Import Pandas Spec.

Lemma well_formed_empty (df : DataFrame) (c : string) (s : Series) :
  well_formed df = true -> empty df = true -> getitem df c = Ok s ->
  series_len s = 0%nat.
Proof.
  unfold well_formed, empty. intros Hwf He Hg.
  apply Nat.eqb_eq in He. rewrite He in Hwf. clear He.
  induction df as [|[c' s'] df IH]; simpl in *; [discriminate|].
  apply andb_true_iff in Hwf as [H1 H2].
  destruct (String.eqb c' c).
  - injection Hg as <-. now apply Nat.eqb_eq in H1.
  - auto.
Qed.

Lemma datetime_at_empty (df : DataFrame) (c : string) (i : nat) :
  well_formed df = true -> empty df = true -> datetime_at df c i = None.
Proof.
  intros Hwf He. unfold datetime_at.
  destruct (getitem df c) as [[xs|xs|n]|] eqn:Hg; try reflexivity.
  pose proof (well_formed_empty _ _ _ Hwf He Hg) as Hl. simpl in Hl.
  destruct xs; [reflexivity|discriminate].
Qed.

Lemma text_at_empty (df : DataFrame) (c : string) (i : nat) :
  well_formed df = true -> empty df = true -> text_at df c i = None.
Proof.
  intros Hwf He. unfold text_at.
  destruct (getitem df c) as [[xs|xs|n]|] eqn:Hg; try reflexivity.
  pose proof (well_formed_empty _ _ _ Hwf He Hg) as Hl. simpl in Hl.
  destruct xs; [reflexivity|discriminate].
Qed.

(** The cells of a column of [df[m]] are cells of rows that [m] keeps. *)
Lemma datetime_at_loc (df : DataFrame) (m : mask) (c : string) (j : nat) (x : option Z) :
  datetime_at (loc df m) c j = Some x ->
  exists xs i, getitem df c = Ok (DatetimeCol xs) /\ xs !! i = Some x /\ m !! i = Some true.
Proof.
  unfold datetime_at. rewrite getitem_loc.
  destruct (getitem df c) as [s|]; [|discriminate].
  destruct s as [xs|xs|n]; simpl; [discriminate| |discriminate]. intros H.
  destruct (select_lookup _ _ _ _ H) as (i & Hi & Hm). eauto.
Qed.

Lemma text_at_loc (df : DataFrame) (m : mask) (c : string) (j : nat) (x : option string) :
  text_at (loc df m) c j = Some x ->
  exists xs i, getitem df c = Ok (ObjectCol xs) /\ xs !! i = Some x /\ m !! i = Some true.
Proof.
  unfold text_at. rewrite getitem_loc.
  destruct (getitem df c) as [s|]; [|discriminate].
  destruct s as [xs|xs|n]; simpl; [|discriminate|discriminate]. intros H.
  destruct (select_lookup _ _ _ _ H) as (i & Hi & Hm). eauto.
Qed.

End FilterPostcondition.

Section SearchFilter.
Import Pandas Spec.

Lemma datetime_at_intro (df : DataFrame) (c : string) (xs : list (option Z)) (i : nat) :
  getitem df c = Ok (DatetimeCol xs) -> datetime_at df c i = xs !! i.
Proof. unfold datetime_at. now intros ->. Qed.

Lemma text_at_intro (df : DataFrame) (c : string) (xs : list (option string)) (i : nat) :
  getitem df c = Ok (ObjectCol xs) -> text_at df c i = xs !! i.
Proof. unfold text_at. now intros ->. Qed.

Lemma datetime_at_drop (df : DataFrame) (c d : string) (i : nat) :
  c <> d -> datetime_at (drop df d) c i = datetime_at df c i.
Proof. intros H. unfold datetime_at. now rewrite getitem_drop_ne. Qed.

Lemma text_at_drop (df : DataFrame) (c d : string) (i : nat) :
  c <> d -> text_at (drop df d) c i = text_at df c i.
Proof. intros H. unfold text_at. now rewrite getitem_drop_ne. Qed.

(** The second selection of [_apply_filters] keeps rows without an excluded
    product. *)
Lemma product_stage (df : DataFrame) (prod : Series) (j : nat) (x : option string) :
  getitem df "Product" = Ok prod ->
  text_at (loc df (mask_not (isin prod Search.credit_exclusions))) "Product" j = Some x ->
  not_excluded Search.credit_exclusions x.
Proof.
  intros Hg H. apply text_at_loc in H as (xs & i & Hg' & Hx & Hm).
  rewrite Hg in Hg'. injection Hg' as ->.
  eapply product_mask_text; eauto.
Qed.

Lemma search_filter_post (self : Search.SearchAPIRealDataFetcher) (df out : DataFrame) :
  well_formed df = true ->
  Search._apply_filters self df = Ok out ->
  forall i,
    (forall x, datetime_at out "Date received" i = Some x ->
               in_window (Search.start_date self) (Search.end_date self) x)
    /\ (negb (Search.lite_mode self) && has_column df Search.narrative_column = true ->
        forall x, text_at out Search.narrative_column i = Some x -> has_narrative x)
    /\ (forall x, text_at out "Product" i = Some x ->
                  not_excluded Search.credit_exclusions x).
Proof.
  intros Hwf H i. unfold Search._apply_filters in H.
  destruct (empty df) eqn:He.
  { injection H as <-. rewrite datetime_at_empty, text_at_empty, text_at_empty by assumption.
    repeat split; intros; discriminate. }
  destruct (getitem df "Date received") as [received|] eqn:Hrec; [|discriminate].
  simpl in H.
  destruct (ge_datetime received (Search.start_date self)) as [ge|] eqn:Hge; [|discriminate].
  destruct (le_datetime received (Search.end_date self)) as [le|] eqn:Hle; [|discriminate].
  simpl in H.
  set (narr := negb (Search.lite_mode self) && has_column df Search.narrative_column) in *.
  assert (Hmask : exists m,
    (forall k, m !! k = Some true -> mask_and ge le !! k = Some true)
    /\ (narr = true -> forall k x, text_at (loc df m) Search.narrative_column k = Some x ->
                       has_narrative x)
    /\ (let! prod := getitem (loc df m) "Product" in
        let df1 := loc (loc df m) (mask_not (isin prod Search.credit_exclusions)) in
        Ok (if Search.lite_mode self && has_column df1 Search.narrative_column
            then drop df1 Search.narrative_column else df1)) = Ok out).
  { destruct narr eqn:Hn.
    - destruct (getitem df Search.narrative_column) as [narrative|] eqn:Hnar; [|discriminate].
      simpl in H.
      destruct (str_strip narrative) as [stripped|] eqn:Hstr; [|discriminate].
      simpl in H. eexists. split; [|split; [|exact H]].
      + intros k Hk. now apply mask_and_lookup in Hk as [Hk _].
      + intros _ k x Hx. apply text_at_loc in Hx as (xs & i' & Hg & Hx & Hm).
        apply mask_and_lookup in Hm as [_ Hm].
        destruct (narrative_mask_text _ _ _ Hstr Hm) as (xs' & Heq & x' & Hx' & Hn').
        rewrite Hnar in Hg. injection Hg as ->. injection Heq as <-.
        rewrite Hx in Hx'. injection Hx' as <-. exact Hn'.
    - simpl in H. exists (mask_and ge le). split; [auto|]. split; [discriminate|exact H]. }
  clear H. destruct Hmask as (m & Hdate & Hnarr & H).
  destruct (getitem (loc df m) "Product") as [prod|] eqn:Hprod; [|discriminate].
  simpl in H. injection H as H.
  set (df1 := loc (loc df m) (mask_not (isin prod Search.credit_exclusions))) in *.
  assert (Hd : forall x, datetime_at df1 "Date received" i = Some x ->
               in_window (Search.start_date self) (Search.end_date self) x).
  { intros x Hx. apply datetime_at_loc in Hx as (ys & k & Hg & Hy & _).
    assert (Hx : datetime_at (loc df m) "Date received" k = Some x)
      by (now rewrite (datetime_at_intro _ _ _ _ Hg)).
    apply datetime_at_loc in Hx as (xs & k' & Hg' & Hx & Hm).
    rewrite Hrec in Hg'. injection Hg' as ->.
    destruct (date_mask_window _ _ _ _ _ _ Hge Hle (Hdate _ Hm)) as (xs' & Heq & x' & Hx' & Hw).
    injection Heq as <-. rewrite Hx in Hx'. now injection Hx' as <-. }
  assert (Hp : forall x, text_at df1 "Product" i = Some x ->
               not_excluded Search.credit_exclusions x).
  { intros x Hx. eapply product_stage; eauto. }
  assert (Hn : narr = true -> forall x, text_at df1 Search.narrative_column i = Some x ->
               has_narrative x).
  { intros Hn x Hx. apply text_at_loc in Hx as (ys & k & Hg & Hy & _).
    eapply (Hnarr Hn k). now rewrite (text_at_intro _ _ _ _ Hg). }
  destruct (Search.lite_mode self && has_column df1 Search.narrative_column) eqn:Hl;
    subst out.
  - rewrite datetime_at_drop, (text_at_drop _ "Product") by discriminate.
    split; [exact Hd|]. split; [|exact Hp].
    intros Hn'. apply andb_true_iff in Hl as [Hl _]. subst narr.
    rewrite Hl in Hn'. discriminate.
  - auto.
Qed.

End SearchFilter.

Section LiteFilter.
Import Pandas Spec.




Lemma rename_columns_steps (l : list (string * string)) (df : DataFrame) :
  fold_left
    (fun df '(old, new) =>
       if has_column df old && negb (has_column df new) then rename df old new else df)
    l df
  = fold_left rename_step l df.
Proof. reflexivity. Qed.








Lemma find_column_two (df : DataFrame) (c1 c2 : string) :
  Lite.find_column df [c1; c2] =
  if has_column df c1 then Some c1 else if has_column df c2 then Some c2 else None.
Proof. unfold Lite.find_column. simpl. reflexivity. Qed.



End LiteFilter.

(** ** The filter engine (C1) *)

Section FilterEngine.
Import Pandas Spec.



End FilterEngine.

(** ** The window (C6) *)

Section Window.

Lemma clamp_cases (lo hi m : Z) :
  lo <= hi ->
  Z.max lo (Z.min m hi) = if m <? lo then lo else if hi <? m then hi else m.
Proof.
  intros H. destruct (Z.ltb_spec m lo), (Z.ltb_spec hi m); lia.
Qed.

(** The search fetcher turns its default of four months into three: the
    window is 90 days long, not 120. *)
Lemma C6_counterexample :
  exists f,
    Search.__init__ (datetime 2025 10 19)
      {| Search.LITE_MODE := None; Search.MAX_RECORDS := None |} false 4 5000 true = Ok f
    /\ Search.end_date f - Search.start_date f = timedelta_days (30 * 3)
    /\ Search.end_date f - Search.start_date f <> timedelta_days (30 * 4).
Proof.
  eexists. split; [reflexivity|]. split; [reflexivity|]. vm_compute. discriminate.
Qed.

(** C6 (amended).  Window Calculator.  In both fetchers the window ends at
    the instant of construction and starts 30 days times the clamped month
    count earlier.  The lite fetcher clamps the configured value to [1,12];
    the search fetcher clamps its argument to [1,3].  The search constructor
    only fails when [MAX_RECORDS] is set to something that is not an
    integer. *)
Theorem C6_window (now : Z) (lite_env : Lite.environ) (search_env : Search.environ)
    (supabase : bool) (months max_records : Z) (use_cache : bool) :
  (let f := Lite.__init__ now lite_env in
   let m := Lite.months_of_env (Lite.MONTHS_WINDOW lite_env) in
   let clamped := if m <? 1 then 1 else if 12 <? m then 12 else m in
   Lite.end_date f = now
   /\ Lite.end_date f - Lite.start_date f = timedelta_days (30 * clamped)
   /\ 1 <= clamped <= 12)
  /\ match Search.__init__ now search_env supabase months max_records use_cache with
     | Ok f =>
         let clamped := if months <? 1 then 1 else if 3 <? months then 3 else months in
         Search.end_date f = now
         /\ Search.end_date f - Search.start_date f = timedelta_days (30 * clamped)
         /\ 1 <= clamped <= 3
     | Raise e =>
         e = ValueError
         /\ exists v, Search.MAX_RECORDS search_env = Some v /\ PyStr.int v = None
     end.
Proof.
  split.
  - cbv zeta. unfold Lite.__init__, Lite.clamp_months. cbn [Lite.end_date Lite.start_date].
    rewrite clamp_cases by lia. split; [reflexivity|]. split; [lia|].
    destruct (Z.ltb_spec (Lite.months_of_env (Lite.MONTHS_WINDOW lite_env)) 1); [lia|].
    destruct (Z.ltb_spec 12 (Lite.months_of_env (Lite.MONTHS_WINDOW lite_env))); lia.
  - unfold Search.__init__, Search.clamp_months. rewrite clamp_cases by lia.
    destruct (Search.MAX_RECORDS search_env) as [v|]; simpl.
    + destruct (PyStr.int v) as [n|] eqn:Hint; simpl.
      * split; [reflexivity|]. split; [lia|].
        destruct (Z.ltb_spec months 1); [lia|]. destruct (Z.ltb_spec 3 months); lia.
      * split; [reflexivity|]. eauto.
    + split; [reflexivity|]. split; [lia|].
      destruct (Z.ltb_spec months 1); [lia|]. destruct (Z.ltb_spec 3 months); lia.
Qed.

End Window.

(** ** The local cache (C3) *)

Section Cache.
Import Pandas Spec.
Variable parse : string -> option Z.

Lemma days_lt_7 (age : Z) : days_of age < 7 <-> age < timedelta_days 7.
Proof.
  unfold days_of, timedelta_days, microseconds_per_day. split; intros H.
  - destruct (Z_lt_le_dec age (7 * (86400 * 1000000))) as [|Hge]; [assumption|].
    apply (Z.div_le_lower_bound age (86400 * 1000000) 7) in Hge; lia.
  - apply Z.div_lt_upper_bound; lia.
Qed.

Lemma dt_min_spec (xs : list (option Z)) :
  match dt_min xs with
  | Some d => least_date xs d
  | None => forall t, ~ In (Some t) xs
  end.
Proof.
  unfold dt_min, least_date. induction xs as [|[a|] xs IH]; cbn [fold_right].
  - intros t [].
  - destruct (fold_right opt_min None xs) as [y|]; cbn [opt_min].
    + destruct IH as [Hin Hle]. split.
      * destruct (Z.min_spec a y) as [[_ ->]|[_ ->]]; [now left|now right].
      * intros t [[= <-]|Ht]; [lia|]. specialize (Hle t Ht). lia.
    + split; [now left|]. intros t [[= <-]|Ht]; [lia|]. now apply IH in Ht.
  - destruct (fold_right opt_min None xs) as [y|]; cbn [opt_min].
    + destruct IH as [Hin Hle]. split; [now right|].
      intros t [|Ht]; [discriminate|auto].
    + intros t [|Ht]; [discriminate|]. now apply IH in Ht.
Qed.

Lemma dt_max_spec (xs : list (option Z)) :
  match dt_max xs with
  | Some d => greatest_date xs d
  | None => forall t, ~ In (Some t) xs
  end.
Proof.
  unfold dt_max, greatest_date. induction xs as [|[a|] xs IH]; cbn [fold_right].
  - intros t [].
  - destruct (fold_right opt_max None xs) as [y|]; cbn [opt_max].
    + destruct IH as [Hin Hle]. split.
      * destruct (Z.max_spec a y) as [[_ ->]|[_ ->]]; [now right|now left].
      * intros t [[= <-]|Ht]; [lia|]. specialize (Hle t Ht). lia.
    + split; [now left|]. intros t [[= <-]|Ht]; [lia|]. now apply IH in Ht.
  - destruct (fold_right opt_max None xs) as [y|]; cbn [opt_max].
    + destruct IH as [Hin Hle]. split; [now right|].
      intros t [|Ht]; [discriminate|auto].
    + intros t [|Ht]; [discriminate|]. now apply IH in Ht.
Qed.

(** [min] and [max] return the least and the greatest instant, and nothing
    else. *)
Lemma dt_min_least (xs : list (option Z)) (d : Z) :
  dt_min xs = Some d <-> least_date xs d.
Proof.
  pose proof (dt_min_spec xs) as H. split.
  - intros Hd. now rewrite Hd in H.
  - intros [Hin Hle]. destruct (dt_min xs) as [d'|].
    + destruct H as [Hin' Hle']. f_equal.
      specialize (Hle d' Hin'). specialize (Hle' d Hin). lia.
    + now apply H in Hin.
Qed.

Lemma dt_max_greatest (xs : list (option Z)) (d : Z) :
  dt_max xs = Some d <-> greatest_date xs d.
Proof.
  pose proof (dt_max_spec xs) as H. split.
  - intros Hd. now rewrite Hd in H.
  - intros [Hin Hle]. destruct (dt_max xs) as [d'|].
    + destruct H as [Hin' Hle']. f_equal.
      specialize (Hle d' Hin'). specialize (Hle' d Hin). lia.
    + now apply H in Hin.
Qed.

(** The dates that reading the cache reports are the [min] and the [max] of
    the converted ["Date received"] column of the table it returns. *)
Lemma read_cache_received (f : Lite.cache_file) (df : DataFrame) (lo hi : option Z) :
  Lite.read_cache parse f = Ok (df, lo, hi) ->
  exists received,
    getitem df "Date received" = Ok (DatetimeCol received)
    /\ lo = dt_min received /\ hi = dt_max received.
Proof.
  unfold Lite.read_cache.
  destruct (Lite.cache_contents f) as [raw|]; [|discriminate]. cbn [rbind].
  destruct (getitem raw "Date received") as [s|]; [|discriminate]. cbn [rbind].
  destruct (to_datetime parse false s) as [received|]; [|discriminate]. cbn [rbind].
  destruct (getitem _ "Date sent to company") as [s'|]; [|discriminate]. cbn [rbind].
  destruct (to_datetime parse true s') as [sent|]; [|discriminate]. cbn [rbind].
  intros [= <- <- <-]. exists received.
  split; [rewrite getitem_setitem_ne by discriminate; apply getitem_setitem_eq|auto].
Qed.

(** The cache block in terms of the table and its dates. *)
Lemma check_cache_used (self : Lite.RealDataFetcher) (now : Z) (f : Lite.cache_file)
    (df : DataFrame) :
  snd (Lite.check_cache parse self now (Some f)) = Some df <->
  now - Lite.mtime f < timedelta_days 7
  /\ exists received min_date max_date,
       cached_table parse f = Ok df
       /\ getitem df "Date received" = Ok (DatetimeCol received)
       /\ least_date received min_date
       /\ greatest_date received max_date
       /\ min_date <= Lite.start_date self
       /\ max_date >= Lite.end_date self - timedelta_days 7.
Proof.
  unfold Lite.check_cache, cached_table.
  destruct (Z.ltb_spec (days_of (now - Lite.mtime f)) 7) as [Hage|Hage].
  - apply days_lt_7 in Hage.
    destruct (Lite.read_cache parse f) as [[[df' lo] hi]|e] eqn:Hread; cbn [rbind fst snd].
    + destruct (read_cache_received f df' lo hi Hread) as (received & Hcol & -> & ->).
      unfold Lite.covers. split.
      * destruct (dt_min received) as [a|] eqn:Hmin; [|discriminate].
        destruct (dt_max received) as [b|] eqn:Hmax; [|discriminate].
        destruct (Z.leb_spec a (Lite.start_date self)); [|discriminate].
        destruct (Z.leb_spec (Lite.end_date self - timedelta_days 7) b); [|discriminate].
        cbn [andb snd]. intros [= <-]. split; [exact Hage|].
        exists received, a, b. split; [reflexivity|]. split; [exact Hcol|].
        split; [now apply dt_min_least|]. split; [now apply dt_max_greatest|]. lia.
      * intros (_ & received' & a & b & [= <-] & Hcol' & Hmin & Hmax & Ha & Hb).
        rewrite Hcol in Hcol'. injection Hcol' as <-.
        apply dt_min_least in Hmin. apply dt_max_greatest in Hmax. rewrite Hmin, Hmax.
        destruct (Z.leb_spec a (Lite.start_date self)); [|lia].
        destruct (Z.leb_spec (Lite.end_date self - timedelta_days 7) b); [|lia].
        reflexivity.
    + split; [discriminate|]. intros (_ & ? & ? & ? & [=] & _).
  - cbn [snd]. split; [discriminate|]. intros [Hlt _]. apply days_lt_7 in Hlt. lia.
Qed.

(** C3.  Cache usability.  The cache file is used, and its table returned
    without fetching, exactly when it is younger than seven days, the least
    ["Date received"] of its table is at most the start of the window, and
    the greatest is at least the end of the window minus seven days.  A file
    that is eight days old is never used, whatever it holds; nor is a file
    whose greatest date lies more than seven days before the end of the
    window. *)
Theorem C3_cache_usability (self : Lite.RealDataFetcher) (now : Z) (f : Lite.cache_file) :
  (forall df,
     snd (Lite.check_cache parse self now (Some f)) = Some df <->
     now - Lite.mtime f < timedelta_days 7
     /\ exists received min_date max_date,
          cached_table parse f = Ok df
          /\ getitem df "Date received" = Ok (DatetimeCol received)
          /\ least_date received min_date
          /\ greatest_date received max_date
          /\ min_date <= Lite.start_date self
          /\ max_date >= Lite.end_date self - timedelta_days 7)
  /\ (forall contents,
        snd (Lite.check_cache parse self now
               (Some {| Lite.mtime := now - timedelta_days 8;
                        Lite.cache_contents := contents |})) = None)
  /\ (forall df received max_date,
        cached_table parse f = Ok df ->
        getitem df "Date received" = Ok (DatetimeCol received) ->
        greatest_date received max_date ->
        max_date < Lite.end_date self - timedelta_days 7 ->
        snd (Lite.check_cache parse self now (Some f)) = None).
Proof.
  split; [|split].
  - intros df. apply check_cache_used.
  - intros contents. unfold Lite.check_cache. cbn [Lite.mtime].
    replace (now - (now - timedelta_days 8)) with (timedelta_days 8) by lia.
    reflexivity.
  - intros df received max_date Hdf Hcol [Hin Hmax] Hshort.
    destruct (snd (Lite.check_cache parse self now (Some f))) as [df'|] eqn:Hused;
      [|reflexivity].
    apply check_cache_used in Hused
      as (_ & received' & a & b & Hdf' & Hcol' & _ & [Hb _] & _ & Hcover).
    rewrite Hdf in Hdf'. injection Hdf' as <-.
    rewrite Hcol in Hcol'. injection Hcol' as <-.
    specialize (Hmax b Hb). lia.
Qed.

End Cache.

Section CacheWitness.
Import Pandas Spec.

Lemma C3_cache_usability_witness :
  let f := {| Lite.mtime := datetime 2025 10 16;
              Lite.cache_contents :=
                Ok [ ("Date received", ObjectCol [Some "2025-06-01"; Some "2025-10-15"]);
                     ("Date sent to company", ObjectCol [Some "2025-06-02"; None]) ] |} in
  let df := [ ("Date received",
               DatetimeCol [Some (datetime 2025 6 1); Some (datetime 2025 10 15)]);
              ("Date sent to company", DatetimeCol [Some (datetime 2025 6 2); None]) ] in
  snd (Lite.check_cache iso_date Samples.lite_fetcher (datetime 2025 10 19) (Some f))
  = Some df.
Proof.
  cbv zeta.
  apply (proj1 (C3_cache_usability iso_date Samples.lite_fetcher (datetime 2025 10 19) _)).
  split; [vm_compute; reflexivity|].
  exists [Some (datetime 2025 6 1); Some (datetime 2025 10 15)],
    (datetime 2025 6 1), (datetime 2025 10 15).
  split; [vm_compute; reflexivity|]. split; [reflexivity|].
  split; [split; [now left|intros t [[= <-]|[[= <-]|[]]]; vm_compute; discriminate]|].
  split; [split; [right; now left|intros t [[= <-]|[[= <-]|[]]]; vm_compute; discriminate]|].
  split; vm_compute; discriminate.
Defined.

End CacheWitness.


(** ** The pagination generator (C2, C5) *)

Section Pagination.
Import Spec.
Variable self : Search.SearchAPIRealDataFetcher.
Variable api : Search.provider.
Variable page_size : Z.

Let max := Search.max_records self.

(** What one resumption of the generator can do. *)
Lemma page_next_cases (st : Search.page_state) :
  match Search.page_next self api page_size st with
  | Search.Yield req hits st' =>
      req = request_of self page_size st
      /\ api req = Search.Body hits
      /\ Search.st_frm st < Z.min 10000 max
      /\ Search.st_total_yielded st < max
      /\ (0 < length hits)%nat
      /\ Search.st_total_yielded st' = Search.st_total_yielded st + Z.of_nat (length hits)
      /\ (Search.st_finished st' = false -> Search.st_total_yielded st' < max)
  | Search.Stop (Some req) _ =>
      req = request_of self page_size st /\ Search.st_frm st < Z.min 10000 max
  | Search.Stop None _ => True
  | Search.Throw req _ =>
      req = request_of self page_size st /\ Search.st_frm st < Z.min 10000 max
  end.
Proof.
  unfold Search.page_next, max. fold (request_of self page_size st).
  destruct (Search.st_finished st); [exact I|].
  destruct (Z.geb_spec (Search.st_frm st) (Z.min 10000 (Search.max_records self))) as [|Hfrm]; [exact I|].
  destruct (Z.geb_spec (Search.st_total_yielded st) (Search.max_records self)) as [|Htot]; [exact I|].
  cbn [orb].
  destruct (api (request_of self page_size st)) as [|e|[|h hits]] eqn:Hapi.
  - split; [reflexivity|lia].
  - split; [reflexivity|lia].
  - split; [reflexivity|lia].
  - destruct (Z.ltb_spec (Z.of_nat (length (h :: hits))) page_size); cbn [orb].
    + repeat split; auto; simpl; try lia; discriminate.
    + destruct (Z.geb_spec (Search.st_total_yielded st + Z.of_nat (length (h :: hits)))
                  (Search.max_records self));
        repeat split; auto; simpl; try lia; try discriminate.
Qed.

(** No request is sent from an offset at or beyond the ceiling. *)
Lemma page_run_offsets (fuel : nat) (st : Search.page_state) (t : Search.page_trace) :
  Search.page_run fuel self api page_size st = Some t ->
  Forall (fun req => Search.frm req < Z.min 10000 max) (Search.requests t).
Proof.
  revert st t. induction fuel as [|fuel IH]; intros st t H; simpl in H; [discriminate|].
  pose proof (page_next_cases st) as Hc.
  destruct (Search.page_next self api page_size st) as [req hits st'|[req|] msgs|req e].
  - destruct (Search.page_run fuel self api page_size st') as [t'|] eqn:Hrun; [|discriminate].
    injection H as <-. simpl. destruct Hc as (-> & _ & Hfrm & _).
    constructor; [exact Hfrm|]. eapply IH; eauto.
  - injection H as <-. simpl. destruct Hc as (-> & Hfrm). repeat constructor. exact Hfrm.
  - injection H as <-. constructor.
  - injection H as <-. simpl. destruct Hc as (-> & Hfrm). repeat constructor. exact Hfrm.
Qed.

(** Against a provider that honours [size], the records yielded never exceed
    the cap. *)
Lemma page_run_total (fuel : nat) (st : Search.page_state) (t : Search.page_trace) :
  honours_size api ->
  Search.page_run fuel self api page_size st = Some t ->
  Search.st_total_yielded st <= Z.max 0 max ->
  Search.st_total_yielded st + Search.total_records (Search.pages t) <= Z.max 0 max.
Proof.
  intros Hapi. revert st t.
  induction fuel as [|fuel IH]; intros st t H Hinv; simpl in H; [discriminate|].
  pose proof (page_next_cases st) as Hc.
  destruct (Search.page_next self api page_size st) as [req hits st'|req msgs|req e].
  - destruct (Search.page_run fuel self api page_size st') as [t'|] eqn:Hrun; [|discriminate].
    injection H as <-. destruct Hc as (-> & Hbody & _ & Htot & _ & Hst' & _).
    pose proof (Hapi _ _ Hbody) as Hlen. cbn [request_of Search.size] in Hlen. fold max in Hlen.
    assert (Hinv' : Search.st_total_yielded st' <= Z.max 0 max) by lia.
    specialize (IH _ _ Hrun Hinv'). unfold Search.total_records in *. simpl.
    rewrite length_app. lia.
  - injection H as <-. unfold Search.total_records. simpl. lia.
  - injection H as <-. unfold Search.total_records. simpl. lia.
Qed.

(** The generator always comes to an end within its fuel. *)
Lemma page_run_terminates (fuel : nat) (st : Search.page_state) :
  (Search.st_finished st = false ->
   (Z.to_nat (max - Search.st_total_yielded st) < fuel)%nat) ->
  (0 < fuel)%nat ->
  exists t, Search.page_run fuel self api page_size st = Some t.
Proof.
  revert st. induction fuel as [|fuel IH]; intros st Hm Hpos; [lia|]. simpl.
  pose proof (page_next_cases st) as Hc.
  destruct (Search.page_next self api page_size st) as [req hits st'|req msgs|req e] eqn:Hn;
    eauto.
  destruct Hc as (_ & _ & _ & Htot & Hlen & Hst' & Hfin).
  assert (Hnf : Search.st_finished st = false).
  { unfold Search.page_next in Hn. destruct (Search.st_finished st); [discriminate|reflexivity]. }
  specialize (Hm Hnf).
  destruct (IH st') as [t' ->]; [| lia | eauto].
  intros Hf. specialize (Hfin Hf). lia.
Qed.

Lemma page_terminates : exists t, Search._page self api page_size = Some t.
Proof.
  apply page_run_terminates; unfold Search.page_fuel; fold max; simpl; lia.
Qed.

End Pagination.

(** ** The consumer of the generator *)

Section Consumer.
Import Pandas Spec.
Variable parse : string -> option Z.

Lemma append_hits_fits (max : Z) (hits rows : list Search.hit) :
  Z.of_nat (length rows) + Z.of_nat (length hits) <= max ->
  Search.append_hits max rows hits = (rows ++ hits, false).
Proof.
  revert rows. induction hits as [|h hits IH]; intros rows H; simpl.
  - now rewrite app_nil_r.
  - destruct (Z.geb_spec (Z.of_nat (length rows)) max) as [Hge|_]; [simpl in H; lia|].
    rewrite IH.
    + now rewrite <- app_assoc.
    + rewrite length_app. simpl in *. lia.
Qed.

Lemma fills_pages_honours (api : Search.provider) : fills_pages api -> honours_size api.
Proof.
  intros H req hits Hb. destruct (H req) as (hits' & Hb' & Hlen).
  rewrite Hb in Hb'. injection Hb' as <-. rewrite Hlen. lia.
Qed.

(** Against a provider that honours [size] the consumer takes every page
    whole: its rows are the pages of the generator, and it never sets
    [truncated]. *)
Lemma collect_page_run (self : Search.SearchAPIRealDataFetcher) (api : Search.provider)
    (page_size : Z) (fuel : nat) (st : Search.page_state) (t : Search.page_trace)
    (rows : list Search.hit) :
  honours_size api ->
  Search.page_run fuel self api page_size st = Some t ->
  Z.of_nat (length rows) = Search.st_total_yielded st ->
  Search.collect fuel self api page_size st rows =
  Some {| Search.col_rows := rows ++ concat (Search.pages t);
          Search.col_truncated := false;
          Search.col_requests := Search.requests t;
          Search.col_printed := Search.printed t;
          Search.col_raised := Search.raised t |}.
Proof.
  intros Hapi. revert st t rows.
  induction fuel as [|fuel IH]; intros st t rows H Hrows; simpl in *; [discriminate|].
  pose proof (page_next_cases self api page_size st) as Hc.
  destruct (Search.page_next self api page_size st) as [req hits st'|req msgs|req e].
  - destruct (Search.page_run fuel self api page_size st') as [t'|] eqn:Hrun; [|discriminate].
    injection H as <-. destruct Hc as (-> & Hbody & _ & Htot & _ & Hst' & _).
    pose proof (Hapi _ _ Hbody) as Hlen. cbn [request_of Search.size] in Hlen.
    rewrite append_hits_fits by lia.
    rewrite (IH st' t' (rows ++ hits) Hrun) by (rewrite length_app; lia).
    simpl. now rewrite <- app_assoc.
  - injection H as <-. simpl. now rewrite app_nil_r.
  - injection H as <-. simpl. now rewrite app_nil_r.
Qed.

Lemma parse_all_coerce (xs : list (option string)) :
  exists r, parse_all parse true xs = Ok r.
Proof.
  induction xs as [|[x|] xs [r IH]]; simpl; eauto.
  - destruct (parse x); rewrite IH; simpl; eauto.
  - rewrite IH. simpl. eauto.
Qed.

(** A table built from hits always gets through the conversions and the
    filter. *)
Lemma filter_rows_ok (self : Search.SearchAPIRealDataFetcher) (rows : list Search.hit) :
  let df := Search.frame_of_rows (Search.lite_mode self) rows in
  exists out,
    (let! received := getitem df "Date received" in
     let! received := to_datetime parse true received in
     let df := setitem df "Date received" (DatetimeCol received) in
     let! sent := getitem df "Date sent to company" in
     let! sent := to_datetime parse true sent in
     let df := setitem df "Date sent to company" (DatetimeCol sent) in
     let! out := Search._apply_filters self df in
     Ok (Some out)) = Ok (Some out).
Proof.
  cbv zeta. unfold Search.frame_of_rows.
  destruct (parse_all_coerce (map Search.date_received rows)) as [r1 H1].
  destruct (parse_all_coerce (map Search.date_sent_to_company rows)) as [r2 H2].
  destruct (Search.lite_mode self) eqn:Hl; cbn -[Search._apply_filters];
    rewrite H1; cbn -[Search._apply_filters]; rewrite H2; cbn -[Search._apply_filters];
    unfold Search._apply_filters; rewrite Hl;
    (destruct (empty _); [eauto|]); cbn; eauto.
Qed.

End Consumer.

Section Loader.
Import Pandas Spec.
Variable parse : string -> option Z.
Variable self : Search.SearchAPIRealDataFetcher.
Variable api : Search.provider.
Variable page_size : Z.




Lemma finish_rows (c : Search.collected) :
  Search.col_rows c <> [] ->
  exists out, Search.out_returned (Search.finish parse self c) = Ok (Some out).
Proof.
  unfold Search.finish. destruct (Search.col_rows c) as [|h rows] eqn:Hrows; [congruence|].
  intros _. cbn [Search.out_returned]. apply filter_rows_ok.
Qed.

Lemma finish_requests (c : Search.collected) :
  Search.out_requests (Search.finish parse self c) = Search.col_requests c.
Proof. unfold Search.finish. now destruct (Search.col_rows c). Qed.

(** The loader when the Supabase cache is off or has nothing. *)
Lemma load_with_fetch (cached_df : DataFrame) (c : Search.collected) :
  Search.use_cache self && negb (empty cached_df) = false ->
  Search.collect (Search.page_fuel self) self api page_size Search.page_start [] = Some c ->
  exists o,
    Search.load_with parse page_size self cached_df api = Some o
    /\ Search.out_requests o = Search.col_requests c
    /\ Search.out_returned o =
       match Search.col_raised c with
       | Some _ => Ok None
       | None => Search.out_returned (Search.finish parse self c)
       end.
Proof.
  intros Hcache Hc. unfold Search.load_with. rewrite Hcache, Hc.
  destruct (Search.col_raised c); eexists; split; try reflexivity; split; try reflexivity.
  simpl. apply finish_requests.
Qed.

(** A full page from a provider with plenty of complaints. *)
Lemma page_next_full (st st' : Search.page_state) (n : Z) :
  fills_pages api ->
  Search.st_finished st = false ->
  Search.st_frm st < Z.min 10000 (Search.max_records self) ->
  Search.st_total_yielded st < Search.max_records self ->
  n = Z.min page_size (Search.max_records self - Search.st_total_yielded st) ->
  0 < n ->
  (let fin := (n <? page_size)
              || (Search.st_total_yielded st + n >=? Search.max_records self) in
   st' = {| Search.st_frm := if fin then Search.st_frm st else Search.st_frm st + page_size;
            Search.st_total_yielded := Search.st_total_yielded st + n;
            Search.st_finished := fin |}) ->
  exists hits,
    length hits = Z.to_nat n
    /\ Search.page_next self api page_size st
       = Search.Yield (request_of self page_size st) hits st'.
Proof.
  intros Hfill Hfin Hfrm Htot Hn Hpos Hst'. cbv zeta in Hst'.
  destruct (Hfill (request_of self page_size st)) as (hits & Hbody & Hlen).
  cbn [request_of Search.size] in Hlen. rewrite <- Hn in Hlen.
  exists hits. split; [exact Hlen|].
  unfold Search.page_next. fold (request_of self page_size st).
  rewrite Hfin, Hbody.
  destruct (Z.geb_spec (Search.st_frm st) (Z.min 10000 (Search.max_records self))); [lia|].
  destruct (Z.geb_spec (Search.st_total_yielded st) (Search.max_records self)); [lia|].
  cbn [orb].
  destruct hits as [|h hits]; [simpl in Hlen; lia|].
  replace (Z.of_nat (length (h :: hits))) with n by lia.
  subst st'. now destruct ((n <? page_size)
                        || (Search.st_total_yielded st + n >=? Search.max_records self)).
Qed.

End Loader.

(** ** The pagination cap (C2) *)

Section PaginationCap.
Import Spec.

(** A provider that sends 300 hits for a request of 100 makes the generator
    yield 300 records under a cap of 250. *)
Lemma C2_counterexample :
  exists t,
    Search._page Samples.search_fetcher Samples.oversized 100 = Some t
    /\ Search.total_records (Search.pages t) = 300
    /\ ~ Search.total_records (Search.pages t) <= Search.max_records Samples.search_fetcher.
Proof.
  eexists. split; [vm_compute; reflexivity|]. split; [reflexivity|].
  vm_compute. intros H. apply H. reflexivity.
Qed.

(** C2 (amended).  Pagination Controller cap.  Every run of the generator
    comes to an end; no request is sent with an offset [frm] at or beyond
    10,000, nor at or beyond [max_records]; and provided the provider never
    returns more hits than a request asks for, the records yielded over all
    pages number at most [max_records] (none when it is negative). *)
Theorem C2_pagination_cap (self : Search.SearchAPIRealDataFetcher) (api : Search.provider)
    (page_size : Z) :
  exists t,
    Search._page self api page_size = Some t
    /\ Forall (fun req => Search.frm req < 10000
                          /\ Search.frm req < Search.max_records self)
         (Search.requests t)
    /\ (honours_size api ->
        Search.total_records (Search.pages t) <= Z.max 0 (Search.max_records self)).
Proof.
  destruct (page_terminates self api page_size) as [t Ht]. exists t.
  split; [exact Ht|]. split.
  - apply page_run_offsets in Ht. eapply Forall_impl; [exact Ht|].
    simpl. intros req Hreq. lia.
  - intros Hapi. pose proof (page_run_total self api page_size _ _ _ Hapi Ht) as Htot.
    simpl in Htot. lia.
Qed.

Lemma full_pages_fills : fills_pages Samples.full_pages.
Proof.
  intros req. eexists. split; [reflexivity|]. apply repeat_length.
Qed.

Lemma C2_pagination_cap_witness :
  honours_size Samples.full_pages
  /\ exists t,
    Search._page Samples.search_fetcher Samples.full_pages 100 = Some t
    /\ Forall (fun req => Search.frm req < 10000
                          /\ Search.frm req < Search.max_records Samples.search_fetcher)
         (Search.requests t)
    /\ Search.total_records (Search.pages t) <= Z.max 0 (Search.max_records Samples.search_fetcher).
Proof.
  assert (H : honours_size Samples.full_pages)
    by (apply fills_pages_honours, full_pages_fills).
  split; [exact H|].
  destruct (C2_pagination_cap Samples.search_fetcher Samples.full_pages 100)
    as (t & Ht & Hreq & Htot).
  exists t. split; [exact Ht|]. split; [exact Hreq|]. exact (Htot H).
Defined.

End PaginationCap.

(** ** Truncation (C5) *)

Section Truncation.
Import Pandas Spec.

Lemma page_run_unfold (fuel : nat) (self : Search.SearchAPIRealDataFetcher)
    (api : Search.provider) (page_size : Z) (st : Search.page_state) :
  Search.page_run (S fuel) self api page_size st =
  match Search.page_next self api page_size st with
  | Search.Stop req msgs =>
      Some {| Search.pages := []; Search.requests := option_list req;
              Search.printed := msgs; Search.raised := None |}
  | Search.Throw req e =>
      Some {| Search.pages := []; Search.requests := [req]; Search.printed := [];
              Search.raised := Some e |}
  | Search.Yield req hits st' =>
      match Search.page_run fuel self api page_size st' with
      | Some t =>
          Some {| Search.pages := hits :: Search.pages t;
                  Search.requests := req :: Search.requests t;
                  Search.printed := Search.printed t; Search.raised := Search.raised t |}
      | None => None
      end
  end.
Proof. reflexivity. Qed.

(** With a cap of 250 and pages of 100, a provider with plenty of complaints
    is asked three times. *)
Lemma page_250_100 (self : Search.SearchAPIRealDataFetcher) (api : Search.provider) :
  Search.max_records self = 250 ->
  fills_pages api ->
  exists t,
    Search._page self api 100 = Some t
    /\ map (@length Search.hit) (Search.pages t) = [100; 100; 50]%nat
    /\ map (fun r => (Search.frm r, Search.size r)) (Search.requests t)
       = [(0, 100); (100, 100); (200, 50)]
    /\ Search.total_records (Search.pages t) = 250
    /\ Search.printed t = []
    /\ Search.raised t = None.
Proof.
  intros Hmax Hfill. unfold Search._page, Search.page_fuel. rewrite Hmax.
  change (Z.to_nat 250) with (S (S (S 247))).
  destruct (page_next_full self api 100 Search.page_start
              {| Search.st_frm := 100; Search.st_total_yielded := 100;
                 Search.st_finished := false |} 100 Hfill)
    as (h1 & L1 & E1); try (rewrite ?Hmax; simpl; first [reflexivity | lia]).
  destruct (page_next_full self api 100
              {| Search.st_frm := 100; Search.st_total_yielded := 100;
                 Search.st_finished := false |}
              {| Search.st_frm := 200; Search.st_total_yielded := 200;
                 Search.st_finished := false |} 100 Hfill)
    as (h2 & L2 & E2); try (rewrite ?Hmax; simpl; first [reflexivity | lia]).
  destruct (page_next_full self api 100
              {| Search.st_frm := 200; Search.st_total_yielded := 200;
                 Search.st_finished := false |}
              {| Search.st_frm := 200; Search.st_total_yielded := 250;
                 Search.st_finished := true |} 50 Hfill)
    as (h3 & L3 & E3); try (rewrite ?Hmax; simpl; first [reflexivity | lia]).
  rewrite page_run_unfold, E1, page_run_unfold, E2, page_run_unfold, E3, page_run_unfold.
  eexists. split; [reflexivity|]. cbn [Search.pages Search.requests Search.printed Search.raised map].
  rewrite L1, L2, L3. unfold Search.total_records. simpl concat.
  rewrite !length_app, L1, L2, L3. cbn [request_of Search.frm Search.size app Search.st_frm Search.st_total_yielded Search.page_start].
  rewrite Hmax. repeat split; reflexivity.
Qed.

(** With a cap of 250 and pages of 100 the cap is reached after three
    requests, yet the loader neither prints a truncation message nor sets its
    flag: the third page has just the 50 records that were missing, so the
    consumer never meets a row beyond the cap.  What the caller gets is the
    table alone.  The loader with its own page size of 1000 behaves the same
    with a single request. *)
Lemma C5_counterexample :
  exists c o df o',
    Search.collect (Search.page_fuel Samples.search_fetcher) Samples.search_fetcher
      Samples.full_pages 100 Search.page_start [] = Some c
    /\ length (Search.col_rows c) = 250%nat
    /\ length (Search.col_requests c) = 3%nat
    /\ Search.col_truncated c = false
    /\ Search.load_with iso_date 100 Samples.search_fetcher [] Samples.full_pages = Some o
    /\ Search.out_printed o = [Search.MsgLoaded 250]
    /\ Search.out_returned o = Ok (Some df)
    /\ Search.load_and_filter_data iso_date Samples.search_fetcher [] Samples.full_pages
       = Some o'
    /\ Search.out_printed o' = [Search.MsgLoaded 250]
    /\ Search.out_returned o' = Ok (Some df).
Proof.
  do 4 eexists. split; [vm_compute; reflexivity|].
  split; [vm_compute; reflexivity|]. split; [vm_compute; reflexivity|].
  split; [vm_compute; reflexivity|]. split; [vm_compute; reflexivity|].
  split; [vm_compute; reflexivity|]. split; [vm_compute; reflexivity|].
  split; [vm_compute; reflexivity|]. split; vm_compute; reflexivity.
Qed.

(** C5 (amended).  With [max_records = 250] and pages of 100, against a
    provider that has enough complaints to fill every page, the generator
    yields exactly 250 records in three pages of 100, 100 and 50, asked for
    at offsets 0, 100 and 200; the loader then sends these three requests
    and returns a table.  The value returned is the table alone: the loader
    has no truncation flag in its result. *)
Theorem C5_pagination_scenario (parse : string -> option Z)
    (self : Search.SearchAPIRealDataFetcher) (api : Search.provider)
    (cached_df : DataFrame) :
  Search.max_records self = 250 ->
  fills_pages api ->
  Search.use_cache self && negb (empty cached_df) = false ->
  (exists t,
     Search._page self api 100 = Some t
     /\ map (@length Search.hit) (Search.pages t) = [100; 100; 50]%nat
     /\ map (fun r => (Search.frm r, Search.size r)) (Search.requests t)
        = [(0, 100); (100, 100); (200, 50)]
     /\ Search.total_records (Search.pages t) = 250
     /\ Search.raised t = None)
  /\ (exists o out,
        Search.load_with parse 100 self cached_df api = Some o
        /\ length (Search.out_requests o) = 3%nat
        /\ Search.out_returned o = Ok (Some out)).
Proof.
  intros Hmax Hfill Hcache.
  destruct (page_250_100 self api Hmax Hfill) as (t & Ht & Hpages & Hreqs & Htot & Hpr & Hr).
  split; [exists t; auto|].
  pose proof (collect_page_run self api 100 _ _ t [] (fills_pages_honours _ Hfill) Ht eq_refl)
    as Hc.
  destruct (load_with_fetch parse self api 100 cached_df _ Hcache Hc) as (o & Ho & Hq & Hret).
  cbn [Search.col_raised Search.col_requests] in Hq, Hret. rewrite Hr in Hret.
  destruct (finish_rows parse self
              {| Search.col_rows := [] ++ concat (Search.pages t);
                 Search.col_truncated := false;
                 Search.col_requests := Search.requests t;
                 Search.col_printed := Search.printed t;
                 Search.col_raised := None |}) as [out Hout].
  { cbn [Search.col_rows app]. intros Hnil.
    unfold Search.total_records in Htot. rewrite Hnil in Htot. discriminate. }
  exists o, out. split; [exact Ho|]. split.
  - rewrite Hq. rewrite <- (length_map (fun r => (Search.frm r, Search.size r))), Hreqs.
    reflexivity.
  - rewrite Hret. rewrite <- Hr. rewrite Hr. exact Hout.
Qed.

Lemma C5_pagination_scenario_witness :
  Search.max_records Samples.search_fetcher = 250
  /\ fills_pages Samples.full_pages
  /\ Search.use_cache Samples.search_fetcher && negb (empty Samples.batch) = false
  /\ (exists t,
        Search._page Samples.search_fetcher Samples.full_pages 100 = Some t
        /\ map (@length Search.hit) (Search.pages t) = [100; 100; 50]%nat
        /\ map (fun r => (Search.frm r, Search.size r)) (Search.requests t)
           = [(0, 100); (100, 100); (200, 50)]
        /\ Search.total_records (Search.pages t) = 250
        /\ Search.raised t = None)
  /\ (exists o out,
        Search.load_with iso_date 100 Samples.search_fetcher Samples.batch
          Samples.full_pages = Some o
        /\ length (Search.out_requests o) = 3%nat
        /\ Search.out_returned o = Ok (Some out)).
Proof.
  split; [reflexivity|]. split; [exact full_pages_fills|]. split; [reflexivity|].
  apply (C5_pagination_scenario iso_date Samples.search_fetcher Samples.full_pages
           Samples.batch); [reflexivity|exact full_pages_fills|reflexivity].
Defined.

End Truncation.

(** ** Missing columns (C8) *)

Section MissingColumns.
Import Pandas Spec.

(** Without a narrative column the filter says so and goes on. *)
Lemma missing_narrative_warns (self : Lite.RealDataFetcher) (df out : DataFrame)
    (msgs : list Lite.message) :
  has_column df "Consumer complaint narrative" = false ->
  has_column df "consumer_complaint_narrative" = false ->
  Lite.apply_filters self df = (msgs, Ok out) ->
  In Lite.MsgWarningNoNarrativeColumn msgs.
Proof.
  intros H1 H2. unfold Lite.apply_filters, Lite.bind, Lite.print, Lite.lift, Lite.ret.
  rewrite !find_column_two, H1, H2.
  destruct (getitem df "Date received") as [received|]; [|discriminate].
  destruct (ge_datetime received (Lite.start_date self)) as [ge|]; [|discriminate].
  destruct (le_datetime received (Lite.end_date self)) as [le|]; [|discriminate].
  destruct (has_column df "Product").
  - destruct (getitem df "Product"); [|discriminate].
    intros [= <- _]. simpl. auto.
  - destruct (has_column df "product").
    + destruct (getitem df "product"); [|discriminate].
      intros [= <- _]. simpl. auto.
    + intros [= <- _]. simpl. auto.
Qed.

(** C8.  Missing-column degradation, at the product column: when the batch
    has no product column under either label (and has a narrative column),
    the product predicate keeps every row and the filter goes on, but no
    warning is printed. *)
Theorem C8_missing_product_is_silent (self : Lite.RealDataFetcher) (df : DataFrame)
    (msgs : list Lite.message) (r : result DataFrame) :
  has_column df "Product" = false ->
  has_column df "product" = false ->
  has_column df "Consumer complaint narrative"
  || has_column df "consumer_complaint_narrative" = true ->
  Lite.apply_filters self df = (msgs, r) ->
  existsb Lite.is_warning msgs = false.
Proof.
  intros H1 H2 Hn. unfold Lite.apply_filters, Lite.bind, Lite.print, Lite.lift, Lite.ret.
  rewrite !find_column_two, H1, H2.
  destruct (getitem df "Date received") as [received|]; [|now intros [= <- _]].
  destruct (ge_datetime received (Lite.start_date self)) as [ge|]; [|now intros [= <- _]].
  destruct (le_datetime received (Lite.end_date self)) as [le|]; [|now intros [= <- _]].
  destruct (has_column df "Consumer complaint narrative").
  - destruct (getitem df "Consumer complaint narrative") as [n|]; [|now intros [= <- _]].
    destruct (str_strip n); now intros [= <- _].
  - destruct (has_column df "consumer_complaint_narrative"); [|discriminate].
    destruct (getitem df "consumer_complaint_narrative") as [n|]; [|now intros [= <- _]].
    destruct (str_strip n); now intros [= <- _].
Qed.

(** On the sample batch without a product column both rows are kept and
    nothing is reported. *)
Lemma C8_missing_product_is_silent_witness :
  has_column Samples.batch_without_product "Product" = false
  /\ has_column Samples.batch_without_product "product" = false
  /\ has_column Samples.batch_without_product "Consumer complaint narrative"
     || has_column Samples.batch_without_product "consumer_complaint_narrative" = true
  /\ Lite.apply_filters Samples.lite_fetcher Samples.batch_without_product
     = ([Lite.MsgApplyingFilters; Lite.MsgDateFilter 2; Lite.MsgNarrativeFilter 2;
         Lite.MsgFinal 2], Ok Samples.batch_without_product)
  /\ existsb Lite.is_warning
       [Lite.MsgApplyingFilters; Lite.MsgDateFilter 2; Lite.MsgNarrativeFilter 2;
        Lite.MsgFinal 2] = false.
Proof.
  split; [reflexivity|]. split; [reflexivity|]. split; [reflexivity|].
  split; [vm_compute; reflexivity|].
  apply (C8_missing_product_is_silent Samples.lite_fetcher Samples.batch_without_product
           _ (Ok Samples.batch_without_product)); vm_compute; reflexivity.
Defined.

End MissingColumns.

(** ** The analyzer's own loader (C9) *)

Section AnalyzerLoad.
Import Pandas Spec.
Variable parse : string -> option Z.

Lemma getattr_setattr_ne (self : gmap string Analyzer.pyval) (a b : string)
    (v : Analyzer.pyval) :
  a <> b -> Analyzer.getattr (Analyzer.setattr self a v) b = Analyzer.getattr self b.
Proof.
  intros H. unfold Analyzer.getattr, Analyzer.setattr. now rewrite lookup_insert_ne.
Qed.

(** [__init__] never assigns [credit_exclusions]. *)
Lemma init_has_no_exclusions :
  Analyzer.getattr Analyzer.__init__ "credit_exclusions"
  = Raise (AttributeError "credit_exclusions").
Proof. vm_compute. reflexivity. Qed.

Lemma init_start_date :
  Analyzer.getattr Analyzer.__init__ "start_date"
  = Ok (Analyzer.VDatetime (datetime 2025 4 19)).
Proof. vm_compute. reflexivity. Qed.

Lemma init_end_date :
  Analyzer.getattr Analyzer.__init__ "end_date"
  = Ok (Analyzer.VDatetime (datetime 2025 10 19)).
Proof. vm_compute. reflexivity. Qed.

(** Storing the table does not create the missing attribute. *)
Lemma loaded_has_no_exclusions (df1 df2 : DataFrame) :
  Analyzer.getattr
    (Analyzer.setattr (Analyzer.setattr Analyzer.__init__ "df" (Analyzer.VFrame df1))
       "df" (Analyzer.VFrame df2)) "credit_exclusions"
  = Raise (AttributeError "credit_exclusions").
Proof.
  rewrite !getattr_setattr_ne by discriminate. exact init_has_no_exclusions.
Qed.

(** The filter of the analyzer never gets past the product step. *)
Lemma filter_loaded_raises (df1 df2 df : DataFrame) :
  is_ok (Analyzer.filter_loaded
           (Analyzer.setattr
              (Analyzer.setattr Analyzer.__init__ "df" (Analyzer.VFrame df1))
              "df" (Analyzer.VFrame df2)) df) = false.
Proof.
  unfold Analyzer.filter_loaded.
  rewrite loaded_has_no_exclusions.
  rewrite !getattr_setattr_ne, init_start_date, init_end_date by discriminate.
  destruct (getitem df "date_received") as [received|]; [|reflexivity].
  cbn [rbind Analyzer.as_datetime].
  destruct (ge_datetime received (datetime 2025 4 19)) as [ge|]; [|reflexivity]. cbn [rbind].
  destruct (le_datetime received (datetime 2025 10 19)) as [le|]; [|reflexivity]. cbn [rbind].
  destruct (getitem df "consumer_complaint_narrative"); [|reflexivity]. cbn [rbind].
  destruct (getitem df "product"); reflexivity.
Qed.

(** C9.  [CFPBAnalyzer.load_and_filter_data] on a fresh instance: whenever
    the CSV is read, has the three expected columns and its [date_received]
    column converts, the call raises [AttributeError] for
    [credit_exclusions] at the product step; and whatever the CSV, the call
    never returns a table. *)
Theorem C9_analyzer_loader_raises (df : DataFrame)
    (dates narrative prod : Series) (received : list (option Z)) :
  getitem df "date_received" = Ok dates ->
  to_datetime parse false dates = Ok received ->
  getitem df "consumer_complaint_narrative" = Ok narrative ->
  getitem df "product" = Ok prod ->
  snd (Analyzer.load_and_filter_data parse Analyzer.__init__ (Ok df))
  = Raise (AttributeError "credit_exclusions")
  /\ forall csv,
       is_ok (snd (Analyzer.load_and_filter_data parse Analyzer.__init__ csv)) = false.
Proof.
  intros Hd Hconv Hn Hp. split.
  - unfold Analyzer.load_and_filter_data. rewrite Hd. cbn [rbind]. rewrite Hconv.
    set (df' := setitem df "date_received" (DatetimeCol received)).
    assert (Hd' : getitem df' "date_received" = Ok (DatetimeCol received))
      by apply getitem_setitem_eq.
    assert (Hother : forall c, c <> "date_received" -> getitem df' c = getitem df c)
      by (intros c Hc; now apply getitem_setitem_ne).
    unfold Analyzer.filter_loaded.
    rewrite loaded_has_no_exclusions, Hd', !Hother, Hn, Hp by discriminate.
    rewrite !getattr_setattr_ne, init_start_date, init_end_date by discriminate.
    cbn [rbind Analyzer.as_datetime ge_datetime le_datetime]. reflexivity.
  - intros [df0|e]; [|reflexivity]. unfold Analyzer.load_and_filter_data.
    destruct (let! received0 := getitem df0 "date_received" in _) as [r|]; [|reflexivity].
    pose proof (filter_loaded_raises df0 (setitem df0 "date_received" (DatetimeCol r))
                  (setitem df0 "date_received" (DatetimeCol r))) as H.
    destruct (Analyzer.filter_loaded _ _); [discriminate|reflexivity].
Qed.

End AnalyzerLoad.

Section AnalyzerLoadWitness.
Import Pandas Spec.

Lemma C9_analyzer_loader_raises_witness :
  getitem Samples.analyzer_csv "date_received"
  = Ok (ObjectCol [Some "2025-09-01"; Some "2025-05-02"])
  /\ to_datetime iso_date false (ObjectCol [Some "2025-09-01"; Some "2025-05-02"])
     = Ok [Some (datetime 2025 9 1); Some (datetime 2025 5 2)]
  /\ snd (Analyzer.load_and_filter_data iso_date Analyzer.__init__ (Ok Samples.analyzer_csv))
     = Raise (AttributeError "credit_exclusions").
Proof.
  split; [reflexivity|]. split; [vm_compute; reflexivity|].
  refine (proj1 (C9_analyzer_loader_raises iso_date Samples.analyzer_csv _ _ _ _ _ _ _ _));
    [reflexivity | vm_compute; reflexivity | reflexivity | reflexivity].
Defined.

End AnalyzerLoadWitness.

(** ** Lite mode of the search fetcher (C10) *)

Section LiteMode.
Import Pandas Spec.

Lemma page_run_requests (self : Search.SearchAPIRealDataFetcher) (api : Search.provider)
    (page_size : Z) (fuel : nat) (st : Search.page_state) (t : Search.page_trace) :
  Search.page_run fuel self api page_size st = Some t ->
  Forall (fun req => Search.has_narrative req = negb (Search.lite_mode self))
    (Search.requests t).
Proof.
  revert st t. induction fuel as [|fuel IH]; intros st t H; simpl in H; [discriminate|].
  pose proof (page_next_cases self api page_size st) as Hc.
  destruct (Search.page_next self api page_size st) as [req hits st'|[req|] msgs|req e].
  - destruct (Search.page_run fuel self api page_size st') as [t'|] eqn:Hrun; [|discriminate].
    injection H as <-. simpl. destruct Hc as (-> & _).
    constructor; [reflexivity|]. eapply IH; eauto.
  - injection H as <-. simpl. destruct Hc as (-> & _). repeat constructor.
  - injection H as <-. constructor.
  - injection H as <-. simpl. destruct Hc as (-> & _). repeat constructor.
Qed.

(** In lite mode [_apply_filters] selects on the date and on the product
    only, and drops the narrative column. *)
Lemma search_lite_filter (self : Search.SearchAPIRealDataFetcher) (df out : DataFrame) :
  Search.lite_mode self = true ->
  empty df = false ->
  Search._apply_filters self df = Ok out ->
  exists received ge le prod,
    getitem df "Date received" = Ok received
    /\ ge_datetime received (Search.start_date self) = Ok ge
    /\ le_datetime received (Search.end_date self) = Ok le
    /\ getitem (loc df (mask_and ge le)) "Product" = Ok prod
    /\ let kept := loc (loc df (mask_and ge le))
                     (mask_not (isin prod Search.credit_exclusions)) in
       out = (if has_column kept Search.narrative_column
              then drop kept Search.narrative_column else kept)
       /\ has_column out Search.narrative_column = false.
Proof.
  intros Hl He. unfold Search._apply_filters. rewrite He, Hl. cbn [negb andb].
  destruct (getitem df "Date received") as [received|]; [|discriminate]. cbn [rbind].
  destruct (ge_datetime received (Search.start_date self)) as [ge|] eqn:Hge; [|discriminate].
  destruct (le_datetime received (Search.end_date self)) as [le|] eqn:Hle; [|discriminate].
  cbn [rbind].
  destruct (getitem (loc df (mask_and ge le)) "Product") as [prod|] eqn:Hp; [|discriminate].
  cbn [rbind]. intros [= Hout]. exists received, ge, le, prod.
  do 4 (split; [auto|]). cbv zeta.
  set (kept := loc (loc df (mask_and ge le))
                 (mask_not (isin prod Search.credit_exclusions))) in *.
  split; [now symmetry|]. rewrite <- Hout.
  destruct (has_column kept Search.narrative_column) eqn:Hh; [|exact Hh].
  apply has_column_drop.
Qed.

Lemma lite_output_no_narrative (self : Search.SearchAPIRealDataFetcher) (df out : DataFrame) :
  Search.lite_mode self = true ->
  (empty df = true -> has_column df Search.narrative_column = false) ->
  Search._apply_filters self df = Ok out ->
  has_column out Search.narrative_column = false.
Proof.
  intros Hl Hempty H. destruct (empty df) eqn:He.
  - unfold Search._apply_filters in H. rewrite He in H. injection H as <-. auto.
  - destruct (search_lite_filter self df out Hl He H) as (? & ? & ? & ? & _ & _ & _ & _ & _ & Hn).
    exact Hn.
Qed.

Lemma finish_lite_no_narrative (parse : string -> option Z)
    (self : Search.SearchAPIRealDataFetcher) (c : Search.collected) (out : DataFrame) :
  Search.lite_mode self = true ->
  Search.out_returned (Search.finish parse self c) = Ok (Some out) ->
  has_column out Search.narrative_column = false.
Proof.
  intros Hl. unfold Search.finish.
  destruct (Search.col_rows c) as [|h rows]; [discriminate|].
  cbn [Search.out_returned]. rewrite Hl.
  set (rows' := if (_ >? _) then _ else _).
  set (df := Search.frame_of_rows true rows').
  destruct (getitem df "Date received") as [received|]; [|discriminate]. cbn [rbind].
  destruct (to_datetime parse true received) as [r1|]; [|discriminate]. cbn [rbind].
  set (df1 := setitem df "Date received" (DatetimeCol r1)).
  destruct (getitem df1 "Date sent to company") as [sent|]; [|discriminate]. cbn [rbind].
  destruct (to_datetime parse true sent) as [r2|]; [|discriminate]. cbn [rbind].
  set (df2 := setitem df1 "Date sent to company" (DatetimeCol r2)).
  destruct (Search._apply_filters self df2) as [out'|] eqn:Hf; [|discriminate].
  cbn [rbind]. intros [= <-].
  apply (lite_output_no_narrative self df2 out' Hl); [|exact Hf].
  intros _. subst df2 df1. rewrite !has_column_setitem_ne by discriminate.
  reflexivity.
Qed.

Lemma load_lite_no_narrative (parse : string -> option Z) (page_size : Z)
    (self : Search.SearchAPIRealDataFetcher) (cached_df : DataFrame)
    (api : Search.provider) (o : Search.outcome) (out : DataFrame) :
  Search.lite_mode self = true ->
  Search.load_with parse page_size self cached_df api = Some o ->
  Search.out_returned o = Ok (Some out) ->
  has_column out Search.narrative_column = false.
Proof.
  intros Hl. unfold Search.load_with.
  destruct (Search.use_cache self && negb (empty cached_df)) eqn:Hc.
  - intros [= <-]. cbn [Search.out_returned].
    destruct (Search._apply_filters self cached_df) as [out'|] eqn:Hf; [|discriminate].
    cbn [rbind]. intros [= <-].
    apply (lite_output_no_narrative self cached_df out' Hl); [|exact Hf].
    apply andb_true_iff in Hc as [_ Hc]. apply negb_true_iff in Hc. congruence.
  - destruct (Search.collect _ self api page_size Search.page_start []) as [c|];
      [|discriminate].
    destruct (Search.col_raised c).
    + intros [= <-]. discriminate.
    + intros [= <-]. cbn [Search.out_returned]. now apply finish_lite_no_narrative.
Qed.

(** In lite mode a batch without rows comes back as it is, with its
    narrative column: the test [df.empty] returns before the column is
    dropped. *)
Lemma C10_counterexample :
  Search.lite_mode Samples.search_fetcher_lite = true
  /\ well_formed Samples.empty_batch = true
  /\ exists out,
       Search._apply_filters Samples.search_fetcher_lite Samples.empty_batch = Ok out
       /\ has_column out Search.narrative_column = true.
Proof.
  split; [reflexivity|]. split; [reflexivity|].
  eexists. split; [vm_compute; reflexivity|reflexivity].
Qed.

(** C10 (amended).  Lite mode of the search fetcher.  Lite mode is the
    default (an unset [LITE_MODE] reads as ["1"]).  In lite mode no request
    asks for [has_narrative]; [_apply_filters] returns a batch without rows
    as it is, and of any other batch keeps exactly the rows selected by the
    date mask and the product mask, so the narrative plays no part, and
    removes the narrative column; and whatever the cache and the API
    deliver, a table returned by [load_and_filter_data] has no narrative
    column. *)
Theorem C10_lite_mode (parse : string -> option Z)
    (self : Search.SearchAPIRealDataFetcher) (cached_df : DataFrame)
    (api : Search.provider) (page_size : Z) :
  Search.lite_mode self = true ->
  Search.lite_mode_of_env None = true
  /\ (exists t,
        Search._page self api page_size = Some t
        /\ Forall (fun req => Search.has_narrative req = false) (Search.requests t))
  /\ (forall df out,
        Search._apply_filters self df = Ok out ->
        (empty df = true /\ out = df)
        \/
        exists received ge le prod,
          getitem df "Date received" = Ok received
          /\ ge_datetime received (Search.start_date self) = Ok ge
          /\ le_datetime received (Search.end_date self) = Ok le
          /\ getitem (loc df (mask_and ge le)) "Product" = Ok prod
          /\ let kept := loc (loc df (mask_and ge le))
                           (mask_not (isin prod Search.credit_exclusions)) in
             out = (if has_column kept Search.narrative_column
                    then drop kept Search.narrative_column else kept)
             /\ has_column out Search.narrative_column = false)
  /\ (forall o out,
        Search.load_and_filter_data parse self cached_df api = Some o ->
        Search.out_returned o = Ok (Some out) ->
        has_column out Search.narrative_column = false).
Proof.
  intros Hl. split; [reflexivity|]. split; [|split].
  - destruct (page_terminates self api page_size) as [t Ht]. exists t.
    split; [exact Ht|]. apply page_run_requests in Ht. rewrite Hl in Ht. exact Ht.
  - intros df out H. destruct (empty df) eqn:He.
    + left. unfold Search._apply_filters in H. rewrite He in H. injection H as <-. auto.
    + right. exact (search_lite_filter self df out Hl He H).
  - intros o out Ho Hret. exact (load_lite_no_narrative parse 1000 self cached_df api o out Hl Ho Hret).
Qed.

(** In lite mode the sample batch keeps its complaint with a blank narrative,
    and loses the narrative column. *)
Lemma C10_lite_mode_witness :
  Search.lite_mode Samples.search_fetcher_lite = true
  /\ Search._apply_filters Samples.search_fetcher_lite Samples.batch
     = Ok Samples.batch_filtered_lite
  /\ has_column Samples.batch_filtered_lite Search.narrative_column = false
  /\ (exists t,
        Search._page Samples.search_fetcher_lite Samples.full_pages 1000 = Some t
        /\ Forall (fun req => Search.has_narrative req = false) (Search.requests t)).
Proof.
  split; [reflexivity|]. split; [vm_compute; reflexivity|].
  destruct (C10_lite_mode iso_date Samples.search_fetcher_lite Samples.batch
              Samples.full_pages 1000 eq_refl) as (_ & Hpage & Hfilter & _).
  split; [|exact Hpage].
  destruct (Hfilter Samples.batch Samples.batch_filtered_lite) as [[He _]|(? & ? & ? & ? & H)];
    [vm_compute; reflexivity | discriminate He |].
  apply H.
Defined.

End LiteMode.

(** ** The most frequent value *)

Section Mode.
Import Spec.
Context {A : Type} (eqb leb : A -> A -> bool).
Hypothesis leb_total : forall x y, leb x y = true \/ leb y x = true.
Hypothesis leb_trans : forall x y z, leb x y = true -> leb y z = true -> leb x z = true.







End Mode.

(** ** The classifier (C4) *)

Section Classifier.
Import Pandas Spec.


Lemma select_length_eq {A B} (m : mask) (xs : list A) (ys : list B) :
  length xs = length ys -> length (select m xs) = length (select m ys).
Proof.
  revert xs ys. induction m as [|b m IH]; intros [|x xs] [|y ys] H; simpl in *;
    try discriminate; try reflexivity.
  injection H as H. destruct b; simpl; auto.
Qed.

Lemma select_map {A B} (f : A -> B) (m : mask) (xs : list A) :
  select m (map f xs) = map f (select m xs).
Proof.
  revert xs. induction m as [|b m IH]; intros [|x xs]; simpl; try reflexivity.
  destruct b; simpl; now rewrite IH.
Qed.

Lemma select_map_filter {A} (f : A -> bool) (xs : list A) :
  select (map f xs) xs = List.filter f xs.
Proof.
  induction xs as [|x xs IH]; simpl; [reflexivity|].
  destruct (f x); now rewrite IH.
Qed.

Lemma len_loc (df : DataFrame) (m : mask) {A} (xs : list A) :
  df <> [] -> len df = length xs -> len (loc df m) = length (select m xs).
Proof.
  destruct df as [|[c s] df]; [congruence|]. intros _. simpl.
  destruct s as [ys|ys|n]; simpl; intros H; apply select_length_eq; auto.
  now rewrite repeat_length.
Qed.

Lemma well_formed_getitem (df : DataFrame) (c : string) (s : Series) :
  well_formed df = true -> getitem df c = Ok s -> series_len s = len df.
Proof.
  unfold well_formed. generalize (len df) as n. intros n Hwf Hg.
  induction df as [|[c' s'] df IH]; simpl in *; [discriminate|].
  apply andb_true_iff in Hwf as [H1 H2].
  destruct (String.eqb c' c).
  - injection Hg as <-. now apply Nat.eqb_eq.
  - auto.
Qed.

Lemma tag_length (m : mask) (harm_type : string) (xs : list (option string)) :
  length (Analyzer.tag m harm_type xs) = length xs.
Proof.
  revert xs. induction m as [|b m IH]; intros [|x xs]; simpl; auto.
Qed.


Lemma setitem_not_nil (df : DataFrame) (c : string) (s : Series) : setitem df c s <> [].
Proof. destruct df as [|[c' s'] df]; simpl; [|destruct (String.eqb c' c)]; discriminate. Qed.













End Classifier.

Section ClassifierSummary.
Import Pandas Spec.


(** Every label of the taxonomy compiles. *)
Lemma harm_mechanisms_compile : forallb compiles Analyzer.harm_mechanisms = true.
Proof. vm_compute. reflexivity. Qed.

Lemma init_harm_mechanisms :
  Analyzer.getattr Analyzer.__init__ "harm_mechanisms"
  = Ok (Analyzer.VTaxonomy Analyzer.harm_mechanisms).
Proof. vm_compute. reflexivity. Qed.

Lemma getattr_setattr_eq (self : gmap string Analyzer.pyval) (a : string)
    (v : Analyzer.pyval) :
  Analyzer.getattr (Analyzer.setattr self a v) a = Ok v.
Proof. unfold Analyzer.getattr, Analyzer.setattr. now rewrite lookup_insert_eq. Qed.





End ClassifierSummary.

(** ** The shape of a filtered table *)

Section FilterShape.
Import Pandas Spec.

Lemma well_formed_Forall (df : DataFrame) :
  well_formed df = true <-> (forall cs, In cs df -> series_len (snd cs) = len df).
Proof.
  unfold well_formed. rewrite forallb_forall.
  split; intros H cs Hin; specialize (H cs Hin); now apply Nat.eqb_eq.
Qed.

Lemma series_select_len (m : mask) (s1 s2 : Series) :
  series_len s1 = series_len s2 ->
  series_len (series_select m s1) = series_len (series_select m s2).
Proof.
  destruct s1, s2; simpl; intros H; apply select_length_eq; now rewrite ?repeat_length.
Qed.

Lemma select_length_le {A} (m : mask) (xs : list A) :
  (length (select m xs) <= length xs)%nat.
Proof.
  revert xs. induction m as [|b m IH]; intros [|x xs]; simpl; try lia.
  specialize (IH xs). destruct b; simpl; lia.
Qed.

Lemma len_loc_le (df : DataFrame) (m : mask) : (len (loc df m) <= len df)%nat.
Proof.
  destruct df as [|[c [xs|xs|n]] df]; simpl; [lia| | |]; try apply select_length_le.
  etransitivity; [apply select_length_le|now rewrite repeat_length].
Qed.

Lemma well_formed_loc (df : DataFrame) (m : mask) :
  well_formed df = true -> well_formed (loc df m) = true.
Proof.
  rewrite !well_formed_Forall. destruct df as [|[c s] df]; [intros _ cs []|].
  intros H [c' s'] Hin. unfold loc in Hin. apply in_map_iff in Hin as ([c0 s0] & [= <- <-] & Hin).
  specialize (H _ Hin). simpl in *. now apply series_select_len.
Qed.

Lemma well_formed_drop (df : DataFrame) (c : string) :
  well_formed df = true ->
  well_formed (drop df c) = true /\ (len (drop df c) <= len df)%nat.
Proof.
  rewrite !well_formed_Forall. intros H.
  assert (Hall : forall cs, In cs (drop df c) -> series_len (snd cs) = len df).
  { intros cs Hin. apply filter_In in Hin as [Hin _]. auto. }
  destruct (drop df c) as [|[c0 s0] d] eqn:Hd.
  - split; [intros cs []|simpl; lia].
  - assert (Hl : len ((c0, s0) :: d) = len df) by (apply (Hall (c0, s0)); now left).
    split; [|lia]. intros cs Hin. rewrite Hl. auto.
Qed.

Lemma columns_drop (df : DataFrame) (c : string) :
  columns (drop df c) = List.filter (fun c' => negb (String.eqb c' c)) (columns df).
Proof.
  induction df as [|[c' s] df IH]; simpl; [reflexivity|].
  destruct (String.eqb c' c); simpl; now rewrite <- IH.
Qed.

Lemma filter_absent (df : DataFrame) (c : string) :
  has_column df c = false ->
  List.filter (fun c' => negb (String.eqb c' c)) (columns df) = columns df.
Proof.
  induction df as [|[c' s] df IH]; [reflexivity|].
  rewrite has_column_cons. intros H. apply orb_false_iff in H as [H1 H2].
  simpl. rewrite H1. simpl. f_equal. auto.
Qed.

Lemma loc_drop (df : DataFrame) (m : mask) (c : string) :
  loc (drop df c) m = drop (loc df m) c.
Proof.
  induction df as [|[c' s] df IH]; simpl; [reflexivity|].
  destruct (String.eqb c' c); simpl; now rewrite IH.
Qed.

(** The filter on a table with rows: the output is the input restricted
    twice, with the narrative column dropped in lite mode. *)
Lemma apply_filters_kept (self : Search.SearchAPIRealDataFetcher) (df out : DataFrame) :
  empty df = false ->
  Search._apply_filters self df = Ok out ->
  exists xs prod m1 m2,
    getitem df "Date received" = Ok (DatetimeCol xs)
    /\ getitem df "Product" = Ok prod
    /\ (negb (Search.lite_mode self) && has_column df Search.narrative_column = true ->
        exists ns, getitem df Search.narrative_column = Ok (ObjectCol ns))
    /\ out = (if Search.lite_mode self && has_column df Search.narrative_column
              then drop (loc (loc df m1) m2) Search.narrative_column
              else loc (loc df m1) m2).
Proof.
  intros He H. unfold Search._apply_filters in H. rewrite He in H.
  destruct (getitem df "Date received") as [[xs|xs|n]|] eqn:Hr; try discriminate.
  cbn [rbind ge_datetime le_datetime] in H.
  destruct (negb (Search.lite_mode self) && has_column df Search.narrative_column) eqn:Hn.
  - destruct (getitem df Search.narrative_column) as [[ns|ns|n]|] eqn:Hnarr; try discriminate.
    cbn [rbind str_strip] in H. rewrite getitem_loc in H.
    destruct (getitem df "Product") as [prod|] eqn:Hp; [|discriminate].
    cbn [rbind] in H. rewrite !has_column_loc in H. injection H as <-.
    do 4 eexists. split; [reflexivity|]. split; [reflexivity|]. split; [eauto|]. reflexivity.
  - cbn [rbind] in H. rewrite getitem_loc in H.
    destruct (getitem df "Product") as [prod|] eqn:Hp; [|discriminate].
    cbn [rbind] in H. rewrite !has_column_loc in H. injection H as <-.
    do 4 eexists. split; [reflexivity|]. split; [reflexivity|]. split; [discriminate|].
    reflexivity.
Qed.

Lemma filter_well_formed (self : Search.SearchAPIRealDataFetcher) (df out : DataFrame) :
  well_formed df = true ->
  Search._apply_filters self df = Ok out ->
  well_formed out = true /\ (len out <= len df)%nat.
Proof.
  intros Hwf H. destruct (empty df) eqn:He.
  - unfold Search._apply_filters in H. rewrite He in H. injection H as <-. auto.
  - destruct (apply_filters_kept self df out He H) as (xs & prod & m1 & m2 & _ & _ & _ & ->).
    pose proof (well_formed_loc _ m2 (well_formed_loc _ m1 Hwf)) as Hwf2.
    pose proof (len_loc_le df m1) as L1. pose proof (len_loc_le (loc df m1) m2) as L2.
    destruct (Search.lite_mode self && has_column df Search.narrative_column).
    + destruct (well_formed_drop _ Search.narrative_column Hwf2) as [Hwf3 L3].
      split; [exact Hwf3|lia].
    + split; [exact Hwf2|lia].
Qed.

(** X1.  The filter only removes rows: the output is well formed, has no
    more rows than the input, and has the columns of the input in their
    order; in lite mode a table with rows loses its narrative column. *)
Theorem apply_filters_shape (self : Search.SearchAPIRealDataFetcher) (df out : DataFrame) :
  well_formed df = true ->
  Search._apply_filters self df = Ok out ->
  well_formed out = true
  /\ (len out <= len df)%nat
  /\ columns out =
     (if Search.lite_mode self && negb (empty df)
      then List.filter (fun c => negb (String.eqb c Search.narrative_column)) (columns df)
      else columns df).
Proof.
  intros Hwf H. destruct (filter_well_formed self df out Hwf H) as [Hwf' Hlen].
  split; [exact Hwf'|]. split; [exact Hlen|].
  destruct (empty df) eqn:He.
  - unfold Search._apply_filters in H. rewrite He in H. injection H as <-.
    now rewrite andb_false_r.
  - destruct (apply_filters_kept self df out He H) as (xs & prod & m1 & m2 & _ & _ & _ & ->).
    rewrite andb_true_r. destruct (Search.lite_mode self); cbn [andb].
    + destruct (has_column df Search.narrative_column) eqn:Hc.
      * now rewrite columns_drop, !columns_loc.
      * rewrite !columns_loc. symmetry. now apply filter_absent.
    + now rewrite !columns_loc.
Qed.

Lemma apply_filters_shape_witness :
  well_formed Samples.batch = true
  /\ Search._apply_filters Samples.search_fetcher_lite Samples.batch
     = Ok Samples.batch_filtered_lite
  /\ well_formed Samples.batch_filtered_lite = true
  /\ (len Samples.batch_filtered_lite <= len Samples.batch)%nat
  /\ columns Samples.batch_filtered_lite =
     (if Search.lite_mode Samples.search_fetcher_lite && negb (empty Samples.batch)
      then List.filter (fun c => negb (String.eqb c Search.narrative_column))
             (columns Samples.batch)
      else columns Samples.batch).
Proof.
  split; [reflexivity|]. split; [reflexivity|].
  exact (apply_filters_shape Samples.search_fetcher_lite Samples.batch
           Samples.batch_filtered_lite eq_refl eq_refl).
Defined.

Lemma map_all_true {A} (f : A -> bool) (l : list A) :
  (forall i x, l !! i = Some x -> f x = true) -> map f l = repeat true (length l).
Proof.
  induction l as [|a l IH]; intros H; simpl; [reflexivity|].
  rewrite (H 0%nat a eq_refl). f_equal. apply IH. intros i x Hi. exact (H (S i) x Hi).
Qed.

Lemma mask_and_repeat (n : nat) : mask_and (repeat true n) (repeat true n) = repeat true n.
Proof. induction n as [|n IH]; simpl; [reflexivity|]. now rewrite IH. Qed.

Lemma select_repeat_true {A} (xs : list A) : select (repeat true (length xs)) xs = xs.
Proof. induction xs as [|x xs IH]; simpl; [reflexivity|]. now rewrite IH. Qed.

Lemma loc_all_true (df : DataFrame) :
  well_formed df = true -> loc df (repeat true (len df)) = df.
Proof.
  rewrite well_formed_Forall. generalize (len df) as n. intros n H.
  induction df as [|[c s] df IH]; simpl; [reflexivity|].
  rewrite IH by (intros cs Hin; apply H; now right).
  pose proof (H (c, s) (or_introl eq_refl)) as Hs. simpl in Hs. subst n.
  destruct s; simpl; now rewrite ?select_repeat_true, ?select_all_length.
Qed.

(** X2.  Filtering twice is filtering once: on its own output the filter changes
    nothing. *)
Theorem apply_filters_idempotent (self : Search.SearchAPIRealDataFetcher)
    (df out : DataFrame) :
  well_formed df = true ->
  Search._apply_filters self df = Ok out ->
  Search._apply_filters self out = Ok out.
Proof.
  intros Hwf H. destruct (empty df) eqn:He.
  { unfold Search._apply_filters in H. rewrite He in H. injection H as <-.
    unfold Search._apply_filters. now rewrite He. }
  pose proof (search_filter_post self df out Hwf H) as Hpost.
  destruct (filter_well_formed self df out Hwf H) as (Hwf' & _).
  destruct (apply_filters_kept self df out He H) as (xs & prod & m1 & m2 & Hd & Hp & Hn & Hout).
  unfold Search._apply_filters. destruct (empty out) eqn:He'; [reflexivity|].
  assert (Hd' : exists xs', getitem out "Date received" = Ok (DatetimeCol xs')).
  { subst out. destruct (_ && _); rewrite ?getitem_drop_ne by discriminate;
      rewrite !getitem_loc, Hd; simpl; eauto. }
  assert (Hp' : exists prod', getitem out "Product" = Ok prod').
  { subst out. destruct (_ && _); rewrite ?getitem_drop_ne by discriminate;
      rewrite !getitem_loc, Hp; simpl; eauto. }
  destruct Hd' as [xs' Hd']. destruct Hp' as [prod' Hp'].
  rewrite Hd'. cbn [rbind ge_datetime le_datetime].
  pose proof (well_formed_getitem out _ _ Hwf' Hd') as Lx. simpl in Lx.
  assert (Hge : map (fun x => match x with
                              | Some d => Search.start_date self <=? d
                              | None => false
                              end) xs' = repeat true (len out)).
  { rewrite <- Lx. apply map_all_true. intros i x Hi.
    destruct (Hpost i) as (Hw & _ & _).
    destruct (Hw x) as (t & -> & Ht); [now rewrite (datetime_at_intro _ _ _ _ Hd')|].
    apply Z.leb_le. lia. }
  assert (Hle : map (fun x => match x with
                              | Some d => d <=? Search.end_date self
                              | None => false
                              end) xs' = repeat true (len out)).
  { rewrite <- Lx. apply map_all_true. intros i x Hi.
    destruct (Hpost i) as (Hw & _ & _).
    destruct (Hw x) as (t & -> & Ht); [now rewrite (datetime_at_intro _ _ _ _ Hd')|].
    apply Z.leb_le. lia. }
  rewrite Hge, Hle, mask_and_repeat.
  assert (Hm : (if negb (Search.lite_mode self) && has_column out Search.narrative_column
                then
                  let! narrative := getitem out Search.narrative_column in
                  let! stripped := str_strip narrative in
                  Ok (mask_and (repeat true (len out))
                        (mask_and (notna narrative) (ne_str stripped "")))
                else Ok (repeat true (len out))) = Ok (repeat true (len out))).
  { destruct (negb (Search.lite_mode self) && has_column out Search.narrative_column) eqn:Hc;
      [|reflexivity].
    assert (Hc0 : negb (Search.lite_mode self) && has_column df Search.narrative_column = true).
    { apply andb_true_iff in Hc as [Hl Hc]. rewrite Hl. cbn [andb].
      destruct (Search.lite_mode self); [discriminate|]. cbn [andb] in Hout. subst out.
      now rewrite !has_column_loc in Hc. }
    destruct (Hn Hc0) as [ns Hns].
    assert (Hns' : exists ns', getitem out Search.narrative_column = Ok (ObjectCol ns')).
    { destruct (Search.lite_mode self); [discriminate|]. cbn [andb] in Hout. subst out.
      rewrite !getitem_loc, Hns. simpl. eauto. }
    destruct Hns' as [ns' Hns']. rewrite Hns'. cbn [rbind str_strip notna ne_str].
    pose proof (well_formed_getitem out _ _ Hwf' Hns') as Ln. simpl in Ln.
    assert (Hnar : forall i x, ns' !! i = Some x -> has_narrative x).
    { intros i x Hi. destruct (Hpost i) as (_ & Ht & _). apply (Ht Hc0).
      now rewrite (text_at_intro _ _ _ _ Hns'). }
    rewrite map_map.
    rewrite (map_all_true (fun x => bool_decide (is_Some x)) ns').
    2:{ intros i x Hi. destruct (Hnar i x Hi) as (s & -> & _). now apply bool_decide_eq_true. }
    rewrite (map_all_true _ ns').
    2:{ intros i x Hi. destruct (Hnar i x Hi) as (s & -> & Hs). simpl.
        apply negb_true_iff. now apply String.eqb_neq. }
    rewrite Ln. now rewrite !mask_and_repeat. }
  rewrite Hm. cbn [rbind]. rewrite (loc_all_true out Hwf'), Hp'. cbn [rbind].
  assert (Hprod : mask_not (isin prod' Search.credit_exclusions) = repeat true (len out)).
  { pose proof (well_formed_getitem out _ _ Hwf' Hp') as Lp.
    destruct prod' as [ps|ps|n]; simpl in Lp; rewrite <- Lp; unfold mask_not, isin;
      [| |now rewrite map_repeat_const];
      rewrite map_map; apply map_all_true; [|reflexivity].
    intros i x Hi. destruct x as [p|]; [|reflexivity].
    destruct (Hpost i) as (_ & _ & Hx).
    specialize (Hx (Some p)). rewrite (text_at_intro _ _ _ _ Hp') in Hx.
    specialize (Hx Hi p eq_refl). apply negb_true_iff.
    destruct (PyStr.mem p Search.credit_exclusions) eqn:Hmem; [|reflexivity].
    apply mem_In in Hmem. contradiction. }
  rewrite Hprod, (loc_all_true out Hwf').
  destruct (Search.lite_mode self) eqn:Hl; [|reflexivity]. cbn [andb].
  rewrite (lite_output_no_narrative self df out Hl); [reflexivity| |exact H].
  rewrite He. discriminate.
Qed.

Lemma apply_filters_idempotent_witness :
  well_formed Samples.batch = true
  /\ Search._apply_filters Samples.search_fetcher Samples.batch = Ok Samples.batch_filtered
  /\ Search._apply_filters Samples.search_fetcher Samples.batch_filtered
     = Ok Samples.batch_filtered.
Proof.
  split; [reflexivity|]. split; [reflexivity|].
  exact (apply_filters_idempotent Samples.search_fetcher Samples.batch
           Samples.batch_filtered eq_refl eq_refl).
Defined.

End FilterShape.

(** ** The filter in one pass *)

Section FilterOnePass.
Import Pandas Spec.

Lemma select_nil_r {A} (m : mask) : select m (@nil A) = [].
Proof. now destruct m. Qed.

Lemma select_select {A} (m1 m2 : mask) (xs : list A) :
  select (select m1 m2) (select m1 xs) = select (mask_and m1 m2) xs.
Proof.
  revert m2 xs. induction m1 as [|b m1 IH]; intros m2 xs; [reflexivity|].
  destruct m2 as [|c m2], xs as [|x xs]; cbn [select mask_and];
    rewrite ?select_nil_r; try reflexivity.
  destruct b, c; cbn [select andb]; now rewrite ?IH.
Qed.

Lemma loc_loc (df : DataFrame) (m1 m2 : mask) :
  loc (loc df m1) (select m1 m2) = loc df (mask_and m1 m2).
Proof.
  induction df as [|[c s] df IH]; simpl; [reflexivity|]. rewrite IH. do 2 f_equal.
  destruct s; simpl; rewrite ?select_select; try reflexivity.
  now rewrite repeat_unit, select_select.
Qed.

Lemma product_mask_select (m : mask) (prod : Series) (values : list string) :
  mask_not (isin (series_select m prod) values) = select m (mask_not (isin prod values)).
Proof.
  destruct prod; unfold mask_not, isin; simpl; rewrite ?select_map; try reflexivity.
  now rewrite (select_repeat m false).
Qed.

Lemma mask_and_length (a b : mask) : length a = length b -> length (mask_and a b) = length a.
Proof.
  revert b. induction a as [|x a IH]; intros [|y b]; simpl; try discriminate; auto.
Qed.

Lemma mask_and_all_true (m : mask) : mask_and m (all_true (length m)) = m.
Proof.
  induction m as [|b m IH]; simpl; [reflexivity|]. rewrite andb_true_r. f_equal. exact IH.
Qed.

Lemma select_count {A} (m : mask) (xs : list A) :
  length m = length xs -> length (select m xs) = mask_sum m.
Proof.
  unfold mask_sum. revert xs. induction m as [|b m IH]; intros [|x xs]; simpl;
    try discriminate; [reflexivity|].
  intros [= H]. destruct b; simpl; auto.
Qed.

Lemma len_loc_count (df : DataFrame) (m : mask) :
  df <> [] -> length m = len df -> len (loc df m) = mask_sum m.
Proof.
  destruct df as [|[c s] df]; [congruence|]. intros _ H.
  destruct s; simpl in *; apply select_count; now rewrite ?repeat_length.
Qed.

Lemma len_drop_other (df : DataFrame) (c d : string) (s : Series) :
  well_formed df = true -> c <> d -> getitem df c = Ok s -> len (drop df d) = len df.
Proof.
  intros Hwf Hcd Hc.
  destruct (well_formed_drop df d Hwf) as [Hwf' _].
  rewrite <- (getitem_drop_ne df c d Hcd) in Hc.
  rewrite <- (well_formed_getitem _ _ _ Hwf' Hc).
  rewrite (getitem_drop_ne df c d Hcd) in Hc.
  apply (well_formed_getitem _ _ _ Hwf Hc).
Qed.

(** X3.  The two stages of the filter amount to one pass over the table as
    it comes in: a row is kept exactly when it is in the window, has a
    narrative where that is asked for, and has no excluded product.  The
    rows of the output are those rows, and their number is the number of
    rows for which the three predicates hold. *)
Theorem apply_filters_is_one_pass (self : Search.SearchAPIRealDataFetcher)
    (df out : DataFrame) :
  well_formed df = true ->
  empty df = false ->
  Search._apply_filters self df = Ok out ->
  exists m,
    keep_mask self df = Ok m
    /\ out = (if Search.lite_mode self && has_column df Search.narrative_column
              then drop (loc df m) Search.narrative_column else loc df m)
    /\ len out = mask_sum m.
Proof.
  intros Hwf He H. unfold Search._apply_filters in H. rewrite He in H.
  assert (Hne : df <> []) by (intros ->; discriminate).
  unfold keep_mask.
  destruct (getitem df "Date received") as [[xs|xs|n]|] eqn:Hr; try discriminate.
  cbn [rbind ge_datetime le_datetime] in H |- *.
  pose proof (well_formed_getitem _ _ _ Hwf Hr) as Lx. simpl in Lx.
  set (ge := map (fun x => match x with
                           | Some d => Search.start_date self <=? d
                           | None => false
                           end) xs) in *.
  set (le := map (fun x => match x with
                           | Some d => d <=? Search.end_date self
                           | None => false
                           end) xs) in *.
  assert (Ld : length (mask_and ge le) = len df).
  { rewrite mask_and_length; subst ge le; rewrite !length_map; auto. }
  assert (Hshape : forall mA,
            length mA = len df ->
            (let! prod := getitem (loc df mA) "Product" in
             let df' := loc (loc df mA) (mask_not (isin prod Search.credit_exclusions)) in
             Ok (if Search.lite_mode self && has_column df' Search.narrative_column
                 then drop df' Search.narrative_column else df')) = Ok out ->
            exists m,
              (let! prod := getitem df "Product" in
               Ok (mask_and mA (mask_not (isin prod Search.credit_exclusions)))) = Ok m
              /\ out = (if Search.lite_mode self && has_column df Search.narrative_column
                        then drop (loc df m) Search.narrative_column else loc df m)
              /\ len out = mask_sum m).
  { intros mA LA Hout. rewrite getitem_loc in Hout.
    destruct (getitem df "Product") as [prod|] eqn:Hp; [|discriminate].
    cbn [rbind] in Hout |- *. rewrite product_mask_select, loc_loc in Hout.
    rewrite has_column_loc in Hout. injection Hout as <-.
    set (m := mask_and mA (mask_not (isin prod Search.credit_exclusions))).
    assert (Lm : length m = len df).
    { subst m. rewrite mask_and_length; [exact LA|].
      pose proof (well_formed_getitem _ _ _ Hwf Hp) as Lp.
      unfold mask_not, isin.
      destruct prod; simpl in Lp; rewrite ?length_map, ?repeat_length; congruence. }
    exists m. split; [reflexivity|]. split; [reflexivity|].
    destruct (Search.lite_mode self && has_column df Search.narrative_column).
    - rewrite (len_drop_other (loc df m) "Date received" Search.narrative_column
                 (series_select m (DatetimeCol xs))).
      + now apply len_loc_count.
      + now apply well_formed_loc.
      + discriminate.
      + now rewrite getitem_loc, Hr.
    - now apply len_loc_count. }
  destruct (negb (Search.lite_mode self) && has_column df Search.narrative_column) eqn:Hn.
  - destruct (getitem df Search.narrative_column) as [[ns|ns|n]|] eqn:Hnarr; try discriminate.
    cbn [rbind str_strip] in H |- *.
    pose proof (well_formed_getitem _ _ _ Hwf Hnarr) as Ln. simpl in Ln.
    apply Hshape; [|exact H].
    rewrite mask_and_length; [exact Ld|]. rewrite Ld.
    rewrite mask_and_length; cbn [notna ne_str]; rewrite !length_map; auto.
  - cbn [rbind] in H |- *.
    destruct (Hshape (mask_and ge le) Ld H) as (m & Hm & Hout & Hlen).
    exists m. split; [|auto].
    replace (all_true (len df)) with (all_true (length (mask_and ge le)))
      by now rewrite Ld.
    now rewrite mask_and_all_true.
Qed.

Lemma apply_filters_is_one_pass_witness :
  well_formed Samples.batch = true
  /\ empty Samples.batch = false
  /\ Search._apply_filters Samples.search_fetcher Samples.batch = Ok Samples.batch_filtered
  /\ keep_mask Samples.search_fetcher Samples.batch = Ok [true; false; false; false]
  /\ exists m,
       keep_mask Samples.search_fetcher Samples.batch = Ok m
       /\ Samples.batch_filtered
          = (if Search.lite_mode Samples.search_fetcher
                && has_column Samples.batch Search.narrative_column
             then drop (loc Samples.batch m) Search.narrative_column
             else loc Samples.batch m)
       /\ len Samples.batch_filtered = mask_sum m.
Proof.
  split; [reflexivity|]. split; [reflexivity|]. split; [reflexivity|].
  split; [vm_compute; reflexivity|].
  exact (apply_filters_is_one_pass Samples.search_fetcher Samples.batch
           Samples.batch_filtered eq_refl eq_refl eq_refl).
Defined.

End FilterOnePass.

(** ** The shape of a generator run *)

Section GeneratorShape.
Import Spec.
Variable self : Search.SearchAPIRealDataFetcher.
Variable api : Search.provider.
Variable page_size : Z.

(** One resumption in detail: what was asked, what came back, and where
    the generator goes next. *)
Lemma page_next_detail (st : Search.page_state) :
  match Search.page_next self api page_size st with
  | Search.Yield req hits st' =>
      Search.st_finished st = false
      /\ req = request_of self page_size st
      /\ api req = Search.Body hits
      /\ hits <> []
      /\ Search.st_total_yielded st' = Search.st_total_yielded st + Z.of_nat (length hits)
      /\ (Search.st_finished st' = false ->
          Search.st_frm st' = Search.st_frm st + page_size
          /\ page_size <= Z.of_nat (length hits))
  | Search.Stop (Some req) _ =>
      Search.st_finished st = false
      /\ req = request_of self page_size st
      /\ (api req = Search.Status400 \/ api req = Search.Body [])
  | Search.Stop None _ => True
  | Search.Throw req e =>
      Search.st_finished st = false
      /\ req = request_of self page_size st /\ api req = Search.Failure e
  end.
Proof.
  unfold Search.page_next. fold (request_of self page_size st).
  destruct (Search.st_finished st); [exact I|].
  destruct (_ || _); [exact I|].
  destruct (api (request_of self page_size st)) as [|e|[|h hits]] eqn:Hapi.
  - auto.
  - auto.
  - auto.
  - destruct (Z.ltb_spec (Z.of_nat (length (h :: hits))) page_size); cbn [orb].
    + repeat split; auto; try discriminate.
    + destruct (_ >=? _); repeat split; auto; try discriminate.
Qed.

(** A finished generator sends nothing more. *)
Lemma page_run_finished (fuel : nat) (st : Search.page_state) (t : Search.page_trace) :
  Search.st_finished st = true ->
  Search.page_run fuel self api page_size st = Some t ->
  Search.pages t = [] /\ Search.requests t = [] /\ Search.raised t = None.
Proof.
  intros Hf. destruct fuel as [|fuel]; simpl; [discriminate|].
  unfold Search.page_next. rewrite Hf. intros [= <-]. auto.
Qed.

Lemma page_run_frm (fuel : nat) (st : Search.page_state) (t : Search.page_trace) :
  Search.page_run fuel self api page_size st = Some t ->
  forall i req, Search.requests t !! i = Some req ->
    Search.frm req = Search.st_frm st + Z.of_nat i * page_size.
Proof.
  revert st t. induction fuel as [|fuel IH]; intros st t H; simpl in H; [discriminate|].
  pose proof (page_next_detail st) as Hc.
  destruct (Search.page_next self api page_size st) as [req hits st'|[req|] msgs|req e].
  - destruct (Search.page_run fuel self api page_size st') as [t'|] eqn:Hrun; [|discriminate].
    injection H as <-. destruct Hc as (_ & -> & _ & _ & _ & Hnext).
    intros [|i] r; cbn [Search.requests]; simpl.
    + intros [= <-]. cbn. lia.
    + intros Hi. destruct (Search.st_finished st') eqn:Hf.
      * destruct (page_run_finished _ _ _ Hf Hrun) as (_ & Hreq & _).
        rewrite Hreq in Hi. discriminate.
      * destruct Hnext as [Hfrm _]; [reflexivity|].
        rewrite (IH _ _ Hrun i r Hi), Hfrm. lia.
  - injection H as <-. destruct Hc as (_ & -> & _).
    intros [|i] r; simpl; [|discriminate]. intros [= <-]. cbn. lia.
  - injection H as <-. intros i r. simpl. discriminate.
  - injection H as <-. destruct Hc as (_ & -> & _).
    intros [|i] r; simpl; [|discriminate]. intros [= <-]. cbn. lia.
Qed.

(** Against a provider that honours [size], every page that is followed by
    another request has exactly [page_size] hits, so the records yielded
    before the i-th request are [i * page_size]. *)
Lemma page_run_sizes (fuel : nat) (st : Search.page_state) (t : Search.page_trace) :
  honours_size api ->
  Search.page_run fuel self api page_size st = Some t ->
  forall i req, Search.requests t !! i = Some req ->
    Search.size req =
    Z.min page_size
      (Search.max_records self - (Search.st_total_yielded st + Z.of_nat i * page_size)).
Proof.
  intros Hapi. revert st t.
  induction fuel as [|fuel IH]; intros st t H; simpl in H; [discriminate|].
  pose proof (page_next_detail st) as Hc.
  destruct (Search.page_next self api page_size st) as [req hits st'|[req|] msgs|req e].
  - destruct (Search.page_run fuel self api page_size st') as [t'|] eqn:Hrun; [|discriminate].
    injection H as <-. destruct Hc as (_ & -> & Hbody & Hne & Htot & Hnext).
    intros [|i] r; simpl.
    + intros [= <-]. cbn. f_equal. lia.
    + intros Hi. destruct (Search.st_finished st') eqn:Hf.
      * destruct (page_run_finished _ _ _ Hf Hrun) as (_ & Hreq & _).
        rewrite Hreq in Hi. discriminate.
      * destruct Hnext as [_ Hfull]; [reflexivity|].
        pose proof (Hapi _ _ Hbody) as Hlen. cbn [request_of Search.size] in Hlen.
        assert (0 < length hits)%nat by (destruct hits; [congruence|simpl; lia]).
        rewrite (IH _ _ Hrun i r Hi), Htot. f_equal. lia.
  - injection H as <-. destruct Hc as (_ & -> & _).
    intros [|i] r; simpl; [|discriminate]. intros [= <-]. cbn. f_equal. lia.
  - injection H as <-. intros i r. simpl. discriminate.
  - injection H as <-. destruct Hc as (_ & -> & _).
    intros [|i] r; simpl; [|discriminate]. intros [= <-]. cbn. f_equal. lia.
Qed.

(** X4.  The requests of a run are determined by their position: the i-th
    request (counting from 0) starts at offset [i * page_size]; against a
    provider that never sends more hits than asked, it asks for
    [min(page_size, max_records - i * page_size)] records. *)
Theorem page_requests_by_position :
  exists t,
    Search._page self api page_size = Some t
    /\ (forall i req, Search.requests t !! i = Some req ->
          Search.frm req = Z.of_nat i * page_size)
    /\ (honours_size api ->
        forall i req, Search.requests t !! i = Some req ->
          Search.size req =
          Z.min page_size (Search.max_records self - Z.of_nat i * page_size)).
Proof.
  destruct (page_terminates self api page_size) as [t Ht].
  exists t. split; [exact Ht|]. unfold Search._page in Ht. split.
  - intros i req Hi. rewrite (page_run_frm _ _ _ Ht i req Hi). simpl. lia.
  - intros Hapi i req Hi. rewrite (page_run_sizes _ _ _ Hapi Ht i req Hi). simpl.
    f_equal.
Qed.

Lemma page_run_pages (fuel : nat) (st : Search.page_state) (t : Search.page_trace) :
  Search.page_run fuel self api page_size st = Some t ->
  (forall i hits, Search.pages t !! i = Some hits ->
     hits <> [] /\ exists req, Search.requests t !! i = Some req /\ api req = Search.Body hits)
  /\ (length (Search.pages t) <= length (Search.requests t) <= S (length (Search.pages t)))%nat
  /\ (forall e, Search.raised t = Some e ->
        length (Search.requests t) = S (length (Search.pages t))
        /\ exists req, last (Search.requests t) = Some req /\ api req = Search.Failure e).
Proof.
  revert st t. induction fuel as [|fuel IH]; intros st t H; simpl in H; [discriminate|].
  pose proof (page_next_detail st) as Hc.
  destruct (Search.page_next self api page_size st) as [req hits st'|[req|] msgs|req e].
  - destruct (Search.page_run fuel self api page_size st') as [t'|] eqn:Hrun; [|discriminate].
    injection H as <-. destruct Hc as (_ & -> & Hbody & Hne & _).
    destruct (IH _ _ Hrun) as (Hp & Hl & Hr). cbn [Search.pages Search.requests Search.raised].
    split; [|split].
    + intros [|i] h; simpl.
      * intros [= <-]. split; [exact Hne|]. eauto.
      * apply Hp.
    + simpl. lia.
    + intros e He. destruct (Hr e He) as (Hlen & r & Hlast & Hfail).
      split; [simpl; lia|]. exists r. split; [|exact Hfail].
      destruct (Search.requests t') as [|r0 rs]; [discriminate|].
      rewrite last_cons. now rewrite Hlast.
  - injection H as <-. simpl. split; [|split].
    + intros i h. rewrite lookup_nil. discriminate.
    + lia.
    + discriminate.
  - injection H as <-. simpl. split; [|split].
    + intros i h. rewrite lookup_nil. discriminate.
    + lia.
    + discriminate.
  - injection H as <-. destruct Hc as (_ & -> & Hfail). simpl. split; [|split].
    + intros i h. rewrite lookup_nil. discriminate.
    + lia.
    + intros e' [= <-]. split; [reflexivity|]. eauto.
Qed.

(** X5.  The generator passes the provider's pages through: the i-th page is the
    non-empty body of the i-th request; at most one request has no page;
    and an exception leaves the generator only from its last request, the
    one that failed. *)
Theorem page_pages_are_answers :
  exists t,
    Search._page self api page_size = Some t
    /\ (forall i hits, Search.pages t !! i = Some hits ->
          hits <> []
          /\ exists req, Search.requests t !! i = Some req /\ api req = Search.Body hits)
    /\ (length (Search.pages t) <= length (Search.requests t) <= S (length (Search.pages t)))%nat
    /\ (forall e, Search.raised t = Some e ->
          length (Search.requests t) = S (length (Search.pages t))
          /\ exists req, last (Search.requests t) = Some req /\ api req = Search.Failure e).
Proof.
  destruct (page_terminates self api page_size) as [t Ht].
  exists t. split; [exact Ht|]. exact (page_run_pages _ _ _ Ht).
Qed.

End GeneratorShape.

(** ** The loader's cap on rows *)

Section LoaderCap.
Import Pandas Spec.
Variable parse : string -> option Z.

Lemma append_hits_cap (max : Z) (hits rows : list Search.hit) :
  Z.of_nat (length rows) <= Z.max 0 max ->
  Z.of_nat (length (fst (Search.append_hits max rows hits))) <= Z.max 0 max.
Proof.
  revert rows. induction hits as [|h hits IH]; intros rows H; simpl; [exact H|].
  destruct (Z.geb_spec (Z.of_nat (length rows)) max); [exact H|].
  apply IH. rewrite length_app. simpl. lia.
Qed.

(** Whatever the provider sends, the consumer never holds more than
    [max_records] rows. *)
Lemma collect_cap (self : Search.SearchAPIRealDataFetcher) (api : Search.provider)
    (page_size : Z) (fuel : nat) (st : Search.page_state) (rows : list Search.hit)
    (c : Search.collected) :
  Search.collect fuel self api page_size st rows = Some c ->
  Z.of_nat (length rows) <= Z.max 0 (Search.max_records self) ->
  Z.of_nat (length (Search.col_rows c)) <= Z.max 0 (Search.max_records self).
Proof.
  revert st rows c. induction fuel as [|fuel IH]; intros st rows c H Hrows; simpl in H;
    [discriminate|].
  destruct (Search.page_next self api page_size st) as [req hits st'|req msgs|req e].
  - pose proof (append_hits_cap (Search.max_records self) hits rows Hrows) as Hcap.
    destruct (Search.append_hits (Search.max_records self) rows hits) as [rows' [|]].
    + injection H as <-. exact Hcap.
    + destruct (Search.collect fuel self api page_size st' rows') as [c'|] eqn:Hc;
        [|discriminate].
      injection H as <-. simpl. eapply IH; eauto.
  - injection H as <-. exact Hrows.
  - injection H as <-. exact Hrows.
Qed.

Lemma parse_all_length (coerce : bool) (xs : list (option string)) (r : list (option Z)) :
  parse_all parse coerce xs = Ok r -> length r = length xs.
Proof.
  revert r. induction xs as [|[x|] xs IH]; intros r; simpl.
  - now intros [= <-].
  - destruct (parse x); [|destruct coerce; [|discriminate]];
      (destruct (parse_all parse _ xs) as [r'|]; [|discriminate]);
      intros [= <-]; simpl; f_equal; auto.
  - destruct (parse_all parse coerce xs) as [r'|]; [|discriminate].
    intros [= <-]. simpl. f_equal. auto.
Qed.

(** The table that the loader hands to the filter has one row per hit. *)
Lemma converted_rows (self : Search.SearchAPIRealDataFetcher) (rows : list Search.hit)
    (out : DataFrame) :
  (let df := Search.frame_of_rows (Search.lite_mode self) rows in
   let! received := getitem df "Date received" in
   let! received := to_datetime parse true received in
   let df := setitem df "Date received" (DatetimeCol received) in
   let! sent := getitem df "Date sent to company" in
   let! sent := to_datetime parse true sent in
   let df := setitem df "Date sent to company" (DatetimeCol sent) in
   let! out := Search._apply_filters self df in
   Ok (Some out)) = Ok (Some out) ->
  exists df, well_formed df = true /\ len df = length rows
             /\ Search._apply_filters self df = Ok out.
Proof.
  cbv zeta. unfold Search.frame_of_rows.
  destruct (parse_all parse true (map Search.date_received rows)) as [r1|] eqn:H1.
  2:{ destruct (Search.lite_mode self); cbn -[Search._apply_filters]; rewrite H1; discriminate. }
  destruct (parse_all parse true (map Search.date_sent_to_company rows)) as [r2|] eqn:H2.
  2:{ destruct (Search.lite_mode self); cbn -[Search._apply_filters]; rewrite H1;
        cbn -[Search._apply_filters]; rewrite H2; discriminate. }
  pose proof (parse_all_length _ _ _ H1) as L1. pose proof (parse_all_length _ _ _ H2) as L2.
  rewrite length_map in L1, L2.
  destruct (Search.lite_mode self) eqn:Hl; cbn -[Search._apply_filters];
    rewrite H1; cbn -[Search._apply_filters]; rewrite H2; cbn -[Search._apply_filters];
    (destruct (Search._apply_filters self _) as [out'|] eqn:Hf; [|discriminate]);
    intros [= <-]; eexists; (split; [|split; [|exact Hf]]);
    [ unfold well_formed | | unfold well_formed | ];
    cbn; rewrite ?length_map, ?L1, ?L2, ?Nat.eqb_refl; reflexivity.
Qed.

(** X6.  When the loader fetches from the API, the table it returns has at most
    [max_records] rows, whatever the provider sends. *)
Theorem loader_row_cap (page_size : Z) (self : Search.SearchAPIRealDataFetcher)
    (cached_df : DataFrame) (api : Search.provider) (o : Search.outcome)
    (out : DataFrame) :
  Search.use_cache self && negb (empty cached_df) = false ->
  Search.load_with parse page_size self cached_df api = Some o ->
  Search.out_returned o = Ok (Some out) ->
  Z.of_nat (len out) <= Search.max_records self.
Proof.
  intros Hcache Hload Hout. unfold Search.load_with in Hload. rewrite Hcache in Hload.
  destruct (Search.collect _ _ _ _ _ _) as [c|] eqn:Hc; [|discriminate].
  pose proof (collect_cap _ _ _ _ _ _ _ Hc) as Hcap. simpl in Hcap.
  specialize (Hcap ltac:(lia)).
  destruct (Search.col_raised c).
  { injection Hload as <-. discriminate. }
  injection Hload as <-. cbn [Search.out_returned] in Hout.
  unfold Search.finish in Hout.
  destruct (Search.col_rows c) as [|h rows] eqn:Hrows; [discriminate|].
  cbn [Search.out_returned] in Hout.
  assert (Hover : (Z.of_nat (length (h :: rows)) >? Search.max_records self) = false).
  { rewrite Z.gtb_ltb. apply Z.ltb_ge. simpl length in *. lia. }
  rewrite Hover in Hout.
  destruct (converted_rows self (h :: rows) out Hout) as (df & Hwf & Hlen & Hf).
  destruct (filter_well_formed self df out Hwf Hf) as (_ & Hle).
  simpl length in *. lia.
Qed.

Lemma page_next_quiet (self : Search.SearchAPIRealDataFetcher) (api : Search.provider)
    (page_size : Z) (st : Search.page_state) :
  match Search.page_next self api page_size st with
  | Search.Stop _ msgs => existsb reports_truncation msgs = false
  | _ => True
  end.
Proof.
  unfold Search.page_next. destruct (Search.st_finished st); [reflexivity|].
  destruct (_ || _); [reflexivity|].
  destruct (api _) as [|e|[|h hits]]; try reflexivity.
  destruct (_ || _); exact I.
Qed.

Lemma page_run_quiet (self : Search.SearchAPIRealDataFetcher) (api : Search.provider)
    (page_size : Z) (fuel : nat) (st : Search.page_state) (t : Search.page_trace) :
  Search.page_run fuel self api page_size st = Some t ->
  existsb reports_truncation (Search.printed t) = false.
Proof.
  revert st t. induction fuel as [|fuel IH]; intros st t H; simpl in H; [discriminate|].
  pose proof (page_next_quiet self api page_size st) as Hq.
  destruct (Search.page_next self api page_size st) as [req hits st'|req msgs|req e].
  - destruct (Search.page_run fuel self api page_size st') as [t'|] eqn:Hrun; [|discriminate].
    injection H as <-. simpl. eauto.
  - injection H as <-. exact Hq.
  - injection H as <-. reflexivity.
Qed.

(** X7.  Against a provider that never sends more hits than asked, the
    loader never prints that records were cut off, even when it stops at
    [max_records] while the provider has more. *)
Theorem loader_never_reports_truncation (page_size : Z)
    (self : Search.SearchAPIRealDataFetcher) (cached_df : DataFrame)
    (api : Search.provider) :
  honours_size api ->
  exists o,
    Search.load_with parse page_size self cached_df api = Some o
    /\ existsb reports_truncation (Search.out_printed o) = false.
Proof.
  intros Hapi. unfold Search.load_with.
  destruct (Search.use_cache self && negb (empty cached_df)); [eexists; split; reflexivity|].
  destruct (page_terminates self api page_size) as [t Ht]. unfold Search._page in Ht.
  rewrite (collect_page_run self api page_size _ _ t [] Hapi Ht eq_refl).
  pose proof (page_run_quiet _ _ _ _ _ _ Ht) as Hq.
  pose proof (page_run_total self api page_size _ _ t Hapi Ht) as Htot.
  simpl in Htot. specialize (Htot ltac:(lia)). unfold Search.total_records in Htot.
  cbn [Search.col_raised Search.col_printed Search.col_requests app].
  assert (Hpre : existsb reports_truncation
                   (if Search.use_cache self then [Search.MsgCacheMiss] else []) = false)
    by (destruct (Search.use_cache self); reflexivity).
  destruct (Search.raised t) as [e|].
  - eexists. split; [reflexivity|]. cbn [Search.out_printed].
    rewrite !existsb_app, Hpre, Hq. reflexivity.
  - eexists. split; [reflexivity|]. cbn [Search.out_printed].
    unfold Search.finish. cbn [Search.col_rows Search.col_truncated Search.col_printed app].
    destruct (concat (Search.pages t)) as [|h rows] eqn:Hrows; cbn [Search.out_printed].
    + rewrite !existsb_app, Hpre, Hq. reflexivity.
    + assert (Hover : (Z.of_nat (length (h :: rows)) >? Search.max_records self) = false)
        by (rewrite Z.gtb_ltb; apply Z.ltb_ge; simpl length in *; lia).
      rewrite Hover. cbn [orb].
      rewrite !existsb_app, Hpre, Hq. reflexivity.
Qed.

End LoaderCap.

Section LoaderCapWitness.
Import Pandas Spec.

Lemma loader_row_cap_witness :
  exists o out,
    Search.use_cache Samples.search_fetcher && negb (empty Samples.batch) = false
    /\ Search.load_with iso_date 100 Samples.search_fetcher Samples.batch Samples.oversized
       = Some o
    /\ Search.out_returned o = Ok (Some out)
    /\ Z.of_nat (len out) <= Search.max_records Samples.search_fetcher.
Proof.
  assert (Hex : exists o out,
             Search.load_with iso_date 100 Samples.search_fetcher Samples.batch
               Samples.oversized = Some o
             /\ Search.out_returned o = Ok (Some out)).
  { vm_compute. do 2 eexists. split; reflexivity. }
  destruct Hex as (o & out & Hload & Hout).
  exists o, out. split; [reflexivity|]. split; [exact Hload|]. split; [exact Hout|].
  exact (loader_row_cap iso_date 100 Samples.search_fetcher Samples.batch Samples.oversized
           o out eq_refl Hload Hout).
Defined.

Lemma loader_never_reports_truncation_witness :
  honours_size Samples.full_pages
  /\ exists o,
       Search.load_with iso_date 100 Samples.search_fetcher Samples.batch Samples.full_pages
       = Some o
       /\ existsb reports_truncation (Search.out_printed o) = false.
Proof.
  pose proof (fills_pages_honours _ full_pages_fills) as H.
  split; [exact H|].
  exact (loader_never_reports_truncation iso_date 100 Samples.search_fetcher Samples.batch
           Samples.full_pages H).
Defined.

End LoaderCapWitness.

(** ** The cache of the lite loader *)

Section CacheHit.
Import Pandas Spec.
Variable parse : string -> option Z.

Lemma dt_min_In (xs : list (option Z)) (lo : Z) :
  dt_min xs = Some lo -> In (Some lo) xs.
Proof.
  revert lo. unfold dt_min.
  induction xs as [|[x|] xs IH]; intros lo; simpl; [discriminate| |auto].
  destruct (fold_right opt_min None xs) as [y|]; simpl; intros [= <-]; [|auto].
  destruct (Z.min_spec x y) as [[_ Hm]|[_ Hm]]; rewrite Hm; auto.
Qed.

Lemma In_lookup {A} (x : A) (xs : list A) : In x xs -> exists i, xs !! i = Some x.
Proof.
  induction xs as [|y xs IH]; intros []; [subst; now exists 0%nat|].
  destruct IH as [i Hi]; [assumption|]. now exists (S i).
Qed.

(** What reading the cache does to the stored table: the two date columns
    are converted, every other column is as stored. *)
Lemma read_cache_columns (f : Lite.cache_file) (df : DataFrame) (lo hi : option Z) :
  Lite.read_cache parse f = Ok (df, lo, hi) ->
  exists raw received,
    Lite.cache_contents f = Ok raw
    /\ getitem df "Date received" = Ok (DatetimeCol received)
    /\ lo = dt_min received
    /\ forall c, c <> "Date received" -> c <> "Date sent to company" ->
                 getitem df c = getitem raw c.
Proof.
  unfold Lite.read_cache.
  destruct (Lite.cache_contents f) as [raw|]; [|discriminate]. cbn [rbind].
  destruct (getitem raw "Date received") as [s|]; [|discriminate]. cbn [rbind].
  destruct (to_datetime parse false s) as [received|]; [|discriminate]. cbn [rbind].
  destruct (getitem _ "Date sent to company") as [s'|]; [|discriminate]. cbn [rbind].
  destruct (to_datetime parse true s') as [sent|]; [|discriminate]. cbn [rbind].
  intros [= <- <- <-]. exists raw, received. split; [reflexivity|].
  split; [rewrite getitem_setitem_ne by discriminate; apply getitem_setitem_eq|].
  split; [reflexivity|]. intros c H1 H2. now rewrite !getitem_setitem_ne by congruence.
Qed.

(** X8.  When the cache file is used, the loader returns its rows as stored: no
    window, narrative or product filter is applied to them, and the table
    holds a complaint received at or before the start of the window. *)
Theorem cache_hit_is_unfiltered (self : Lite.RealDataFetcher) (now : Z) (w : Lite.files)
    (df : DataFrame) :
  snd (Lite.check_cache parse self now (Lite.cache w)) = Some df ->
  snd (Lite.load_and_filter_data parse self now w) = Some df
  /\ (exists f raw,
        Lite.cache w = Some f /\ Lite.cache_contents f = Ok raw
        /\ forall c, c <> "Date received" -> c <> "Date sent to company" ->
                     getitem df c = getitem raw c)
  /\ (exists i t, datetime_at df "Date received" i = Some (Some t)
                  /\ t <= Lite.start_date self).
Proof.
  intros H. split.
  { unfold Lite.load_and_filter_data.
    destruct (Lite.check_cache parse self now (Lite.cache w)) as [msgs [d|]];
      [exact H|discriminate]. }
  unfold Lite.check_cache in H. destruct (Lite.cache w) as [f|]; [|discriminate].
  destruct (days_of (now - Lite.mtime f) <? 7); [|discriminate].
  destruct (Lite.read_cache parse f) as [[[d lo] hi]|] eqn:Hread; [|discriminate].
  destruct (Lite.covers self lo hi) eqn:Hcov; [|discriminate].
  injection H as <-.
  destruct (read_cache_columns f d lo hi Hread) as (raw & received & Hraw & Hd & -> & Hc).
  split; [exists f, raw; auto|].
  unfold Lite.covers in Hcov.
  destruct (dt_min received) as [t|] eqn:Hmin; [|discriminate].
  destruct hi as [hi|]; [|discriminate].
  apply andb_true_iff in Hcov as [Hlo _]. apply Z.leb_le in Hlo.
  destruct (In_lookup _ _ (dt_min_In _ _ Hmin)) as [i Hi].
  exists i, t. split; [|exact Hlo]. now rewrite (datetime_at_intro _ _ _ _ Hd).
Qed.

Lemma parse_all_strict (xs : list (option string)) (x : string) :
  In (Some x) xs -> parse x = None -> parse_all parse false xs = Raise ValueError.
Proof.
  intros Hin Hx. induction xs as [|[y|] xs IH]; simpl; [destruct Hin| |].
  - destruct (parse y) eqn:Hy.
    + destruct Hin as [[= ->]|Hin]; [congruence|]. now rewrite IH.
    + reflexivity.
  - destruct Hin as [|Hin]; [discriminate|]. now rewrite IH.
Qed.

(** X9.  One unreadable value in the "Date received" column of the bulk file
    makes the whole load fail: the loader reports the error and returns
    [None], whatever the other rows hold. *)
Theorem lite_bad_date_aborts (self : Lite.RealDataFetcher) (now : Z) (w : Lite.files)
    (raw : DataFrame) (xs : list (option string)) (x : string) :
  snd (Lite.check_cache parse self now (Lite.cache w)) = None ->
  Lite.csv w = Some (Ok raw) ->
  getitem raw "Date received" = Ok (ObjectCol xs) ->
  In (Some x) xs ->
  parse x = None ->
  snd (Lite.load_and_filter_data parse self now w) = None
  /\ last (fst (Lite.load_and_filter_data parse self now w))
     = Some (Lite.MsgProcessingError ValueError).
Proof.
  intros Hcache Hcsv Hd Hin Hx. unfold Lite.load_and_filter_data.
  destruct (Lite.check_cache parse self now (Lite.cache w)) as [msgs [d|]]; [discriminate|].
  rewrite Hcsv. unfold Lite.process, Lite.bind, Lite.lift, Lite.print.
  rewrite Hd. cbn [to_datetime]. rewrite (parse_all_strict xs x Hin Hx).
  cbn [fst snd app]. split; [reflexivity|].
  now rewrite last_app.
Qed.

End CacheHit.

Section CacheHitWitness.
Import Pandas Spec.

Lemma cache_hit_is_unfiltered_witness :
  let w := {| Lite.cache := Some Samples.stored_cache; Lite.csv := None |} in
  exists df,
    snd (Lite.check_cache iso_date Samples.lite_fetcher (datetime 2025 10 19) (Lite.cache w))
    = Some df
    /\ snd (Lite.load_and_filter_data iso_date Samples.lite_fetcher (datetime 2025 10 19) w)
       = Some df
    /\ text_at df "Product" 0 = Some (Some "Credit reporting")
    /\ datetime_at df "Date received" 0 = Some (Some (datetime 2025 6 1))
    /\ datetime 2025 6 1 < Lite.start_date Samples.lite_fetcher.
Proof.
  intros w. eexists.
  assert (H : snd (Lite.check_cache iso_date Samples.lite_fetcher (datetime 2025 10 19)
                     (Lite.cache w)) = Some _) by (vm_compute; reflexivity).
  split; [exact H|].
  split; [exact (proj1 (cache_hit_is_unfiltered iso_date Samples.lite_fetcher
                          (datetime 2025 10 19) w _ H))|].
  split; [reflexivity|]. split; [reflexivity|]. reflexivity.
Defined.

Lemma lite_bad_date_aborts_witness :
  let w := {| Lite.cache := None; Lite.csv := Some (Ok Samples.csv_with_bad_date) |} in
  snd (Lite.check_cache iso_date Samples.lite_fetcher (datetime 2025 10 19) (Lite.cache w))
  = None
  /\ iso_date "yesterday" = None
  /\ snd (Lite.load_and_filter_data iso_date Samples.lite_fetcher (datetime 2025 10 19) w)
     = None
  /\ last (fst (Lite.load_and_filter_data iso_date Samples.lite_fetcher
                  (datetime 2025 10 19) w))
     = Some (Lite.MsgProcessingError ValueError).
Proof.
  intros w. split; [reflexivity|]. split; [reflexivity|].
  apply (lite_bad_date_aborts iso_date Samples.lite_fetcher (datetime 2025 10 19) w
           Samples.csv_with_bad_date [Some "2025-09-01"; Some "yesterday"] "yesterday");
    [reflexivity|reflexivity|reflexivity|right; left; reflexivity|reflexivity].
Defined.

End CacheHitWitness.

(** ** The renaming loop of the lite loader *)

Section Renaming.
Import Pandas Spec.

Lemma columns_rename (df : DataFrame) (old new : string) :
  columns (rename df old new)
  = map (fun c => if String.eqb c old then new else c) (columns df).
Proof.
  induction df as [|[c s] df IH]; simpl; [reflexivity|].
  destruct (String.eqb c old); simpl; now rewrite <- IH.
Qed.

Lemma len_rename (df : DataFrame) (old new : string) : len (rename df old new) = len df.
Proof. destruct df as [|[c s] df]; simpl; [reflexivity|]. now destruct (String.eqb c old). Qed.

Lemma has_column_In (df : DataFrame) (c : string) :
  has_column df c = true <-> In c (columns df).
Proof. unfold has_column. apply mem_In. Qed.

Lemma map_rename_absent (old new : string) (l : list string) :
  ~ In old l -> map (fun c => if String.eqb c old then new else c) l = l.
Proof.
  induction l as [|c l IH]; simpl; [reflexivity|]. intros H.
  destruct (String.eqb_spec c old) as [->|_]; [tauto|]. f_equal. tauto.
Qed.

Lemma NoDup_map_rename (old new : string) (l : list string) :
  List.NoDup l -> ~ In new l ->
  List.NoDup (map (fun c => if String.eqb c old then new else c) l).
Proof.
  induction l as [|c l IH]; simpl; [constructor|].
  intros Hnd Hnew. apply List.NoDup_cons_iff in Hnd as [Hc Hnd].
  destruct (String.eqb_spec c old) as [->|Hne].
  - rewrite map_rename_absent by assumption.
    apply List.NoDup_cons_iff. tauto.
  - apply List.NoDup_cons_iff. split; [|tauto].
    intros Hin. apply in_map_iff in Hin as (c' & Hc' & Hin).
    destruct (String.eqb c' old); subst; tauto.
Qed.

Lemma rename_step_labels (df : DataFrame) (p : string * string) :
  List.NoDup (columns df) ->
  List.NoDup (columns (rename_step df p))
  /\ length (columns (rename_step df p)) = length (columns df)
  /\ len (rename_step df p) = len df.
Proof.
  destruct p as [old new]. unfold rename_step. intros Hnd.
  destruct (has_column df old && negb (has_column df new)) eqn:Hc; [|auto].
  apply andb_true_iff in Hc as [_ Hnew]. apply negb_true_iff in Hnew.
  rewrite columns_rename, length_map, len_rename. split; [|auto].
  apply NoDup_map_rename; [exact Hnd|].
  intros Hin. apply has_column_In in Hin. congruence.
Qed.

Lemma rename_steps_labels (l : list (string * string)) (df : DataFrame) :
  List.NoDup (columns df) ->
  List.NoDup (columns (fold_left rename_step l df))
  /\ length (columns (fold_left rename_step l df)) = length (columns df)
  /\ len (fold_left rename_step l df) = len df.
Proof.
  revert df. induction l as [|p l IH]; intros df Hnd; cbn [fold_left]; [auto|].
  destruct (rename_step_labels df p Hnd) as (H1 & H2 & H3).
  destruct (IH _ H1) as (H4 & H5 & H6). split; [exact H4|]. split; congruence.
Qed.

(** X10.  The renaming loop never makes two columns share a label, and it changes
    neither the number of columns nor the number of rows. *)
Theorem rename_columns_keeps_labels_distinct (df : DataFrame) :
  List.NoDup (columns df) ->
  List.NoDup (columns (Lite.rename_columns df))
  /\ length (columns (Lite.rename_columns df)) = length (columns df)
  /\ len (Lite.rename_columns df) = len df.
Proof.
  unfold Lite.rename_columns. rewrite rename_columns_steps. apply rename_steps_labels.
Qed.

Lemma rename_columns_keeps_labels_distinct_witness :
  List.NoDup (columns Samples.lowercase_batch)
  /\ columns (Lite.rename_columns Samples.lowercase_batch)
     = ["Complaint ID"; "Date received"; "product"; "Product"; "Company"]
  /\ List.NoDup (columns (Lite.rename_columns Samples.lowercase_batch)).
Proof.
  assert (H : List.NoDup (columns Samples.lowercase_batch)).
  { repeat constructor; simpl; intuition discriminate. }
  split; [exact H|]. split; [reflexivity|].
  exact (proj1 (rename_columns_keeps_labels_distinct Samples.lowercase_batch H)).
Defined.

End Renaming.

(** ** A table without narratives in the lite loader *)

Section MissingNarrative.
Import Pandas Spec.

(** X11.  When the table has no narrative column under either label and
    the filter gets through, the warning about it is the one warning
    printed, and it is printed once. *)
Theorem missing_narrative_is_reported (self : Lite.RealDataFetcher) (df out : DataFrame)
    (msgs : list Lite.message) :
  has_column df "Consumer complaint narrative" = false ->
  has_column df "consumer_complaint_narrative" = false ->
  Lite.apply_filters self df = (msgs, Ok out) ->
  List.filter Lite.is_warning msgs = [Lite.MsgWarningNoNarrativeColumn].
Proof.
  intros H1 H2. unfold Lite.apply_filters, Lite.bind, Lite.print, Lite.lift, Lite.ret.
  rewrite !find_column_two, H1, H2.
  destruct (getitem df "Date received") as [received|]; [|discriminate].
  destruct (ge_datetime received (Lite.start_date self)) as [ge|]; [|discriminate].
  destruct (le_datetime received (Lite.end_date self)) as [le|]; [|discriminate].
  destruct (has_column df "Product").
  - destruct (getitem df "Product"); [|discriminate].
    intros [= <- _]. reflexivity.
  - destruct (has_column df "product").
    + destruct (getitem df "product"); [|discriminate].
      intros [= <- _]. reflexivity.
    + intros [= <- _]. reflexivity.
Qed.

Lemma missing_narrative_is_reported_witness :
  has_column Samples.batch_without_narrative "Consumer complaint narrative" = false
  /\ has_column Samples.batch_without_narrative "consumer_complaint_narrative" = false
  /\ exists msgs out,
       Lite.apply_filters Samples.lite_fetcher Samples.batch_without_narrative
       = (msgs, Ok out)
       /\ List.filter Lite.is_warning msgs = [Lite.MsgWarningNoNarrativeColumn].
Proof.
  split; [reflexivity|]. split; [reflexivity|].
  do 2 eexists. split; [vm_compute; reflexivity|].
  eapply (missing_narrative_is_reported Samples.lite_fetcher Samples.batch_without_narrative);
    vm_compute; reflexivity.
Defined.

End MissingNarrative.

(** ** The classifier beyond its summary *)

Section ClassifierEdges.
Import Pandas Spec.
Variable parse : string -> option Z.

Lemma init_filtered_df :
  Analyzer.getattr Analyzer.__init__ "filtered_df" = Ok Analyzer.VNone.
Proof. vm_compute. reflexivity. Qed.

(** X12.  Through the loader of its own class the classifier cannot be
    reached:
    whatever the file holds, [load_and_filter_data] leaves [filtered_df]
    unset, and [analyze_harm_mechanisms] raises [ValueError]. *)
Theorem classifier_unreachable_through_loader (csv : result DataFrame) :
  Analyzer.analyze_harm_mechanisms
    (fst (Analyzer.load_and_filter_data parse Analyzer.__init__ csv))
  = Raise ValueError.
Proof.
  unfold Analyzer.load_and_filter_data, Analyzer.analyze_harm_mechanisms.
  destruct csv as [df|e]; [|cbn [fst]; now rewrite init_filtered_df].
  destruct (let! received := getitem df "date_received" in
            to_datetime parse false received) as [received|e];
    [|cbn [fst]; rewrite getattr_setattr_ne, init_filtered_df by discriminate; reflexivity].
  pose proof (filter_loaded_raises df
                (setitem df "date_received" (DatetimeCol received))
                (setitem df "date_received" (DatetimeCol received))) as Hr.
  destruct (Analyzer.filter_loaded _ _) as [filtered|e]; [discriminate|].
  cbn [fst]. rewrite !getattr_setattr_ne, init_filtered_df by discriminate. reflexivity.
Qed.

Lemma select_none {A B} (f : A -> bool) (xs : list A) (ys : list B) :
  (forall x, In x xs -> f x = false) -> select (map f xs) ys = [].
Proof.
  revert ys. induction xs as [|x xs IH]; intros ys H; [reflexivity|].
  destruct ys as [|y ys]; [reflexivity|]. simpl.
  rewrite (H x (or_introl eq_refl)). apply IH. intros x' Hx'. apply H. now right.
Qed.

Lemma len_loc_none {A} (f : A -> bool) (xs : list A) (df : DataFrame) :
  (forall x, In x xs -> f x = false) -> len (loc df (map f xs)) = 0%nat.
Proof.
  intros H. destruct df as [|[c [ys|ys|n]] df]; simpl; [reflexivity| | |];
    now rewrite (select_none f xs _ H).
Qed.

Lemma classify_all_nothing (filtered_df : DataFrame) (st : Analyzer.loop_state)
    (narr : list (option string)) (taxonomy : list (string * list string)) :
  getitem (Analyzer.df_copy st) "consumer_complaint_narrative" = Ok (ObjectCol narr) ->
  forallb compiles taxonomy = true ->
  (forall x, In x narr -> labels_of taxonomy x = []) ->
  Analyzer.classify_all filtered_df st taxonomy = Ok st.
Proof.
  intros Hn. induction taxonomy as [|[h ps] taxonomy IH]; intros Hc Hl; [reflexivity|].
  simpl in Hc. apply andb_true_iff in Hc as [Hc1 Hc2]. unfold compiles in Hc1. cbn [snd] in Hc1.
  destruct (Re.compile (String.concat "|" ps)) as [r|] eqn:Hr; [|discriminate].
  assert (Hnone : forall x, In x narr -> matches r x = false).
  { intros x Hx. specialize (Hl x Hx). unfold labels_of in Hl. cbn [List.filter] in Hl.
    unfold matches_label at 1 in Hl. cbn [snd] in Hl. rewrite Hr in Hl.
    destruct (matches r x); [discriminate|reflexivity]. }
  cbn [Analyzer.classify_all]. unfold Analyzer.classify.
  rewrite Hn. cbn [rbind]. unfold Analyzer.str_contains. rewrite Hr. cbn [rbind].
  fold (matches r). rewrite (len_loc_none _ _ _ Hnone). cbn [Nat.ltb Nat.leb rbind].
  apply IH; [exact Hc2|].
  intros x Hx. specialize (Hl x Hx). unfold labels_of in *. cbn [List.filter] in Hl.
  destruct (matches_label (h, ps) x); [discriminate|exact Hl].
Qed.

(** X13.  When no narrative matches any label (in particular when the corpus has
    no rows) the classifier does not return an empty summary: sorting the
    summary by ['Count'] raises [KeyError]. *)
Theorem nothing_matches_raises (filtered_df : DataFrame) (narr : list (option string)) :
  getitem filtered_df "consumer_complaint_narrative" = Ok (ObjectCol narr) ->
  Forall (fun x => labels_of Analyzer.harm_mechanisms x = []) narr ->
  Analyzer.analyze_harm_mechanisms
    (Analyzer.setattr Analyzer.__init__ "filtered_df" (Analyzer.VFrame filtered_df))
  = Raise (KeyError "Count").
Proof.
  intros Hn Hall. unfold Analyzer.analyze_harm_mechanisms.
  rewrite getattr_setattr_eq. cbn [rbind].
  rewrite getattr_setattr_ne, init_harm_mechanisms by discriminate.
  cbn [rbind Analyzer.as_taxonomy].
  rewrite (classify_all_nothing filtered_df _ narr).
  - reflexivity.
  - cbn [Analyzer.df_copy]. now rewrite getitem_setitem_ne by discriminate.
  - exact harm_mechanisms_compile.
  - intros x Hx. rewrite List.Forall_forall in Hall. exact (Hall x Hx).
Qed.

(** *** The labels written to ["harm_categories"] *)

Lemma string_append_assoc (a b c : string) :
  String.append (String.append a b) c = String.append a (String.append b c).
Proof.
  induction a as [|x a IH]; [reflexivity|].
  change (String x (String.append (String.append a b) c)
          = String x (String.append a (String.append b c))).
  now rewrite IH.
Qed.

Lemma concat_snoc (sep h : string) (l : list string) :
  String.concat sep (l ++ [h]) =
  match l with
  | [] => h
  | _ => String.append (String.concat sep l) (String.append sep h)
  end.
Proof.
  induction l as [|x l IH]; [reflexivity|].
  destruct l as [|y l]; [reflexivity|].
  change (String.concat sep ((x :: y :: l) ++ [h]))
    with (String.append x (String.append sep (String.concat sep ((y :: l) ++ [h])))).
  rewrite IH.
  change (String.concat sep (x :: y :: l))
    with (String.append x (String.append sep (String.concat sep (y :: l)))).
  now rewrite !string_append_assoc.
Qed.

Lemma concat_nonempty (sep : string) (l : list string) :
  Forall (fun h => h <> "") l -> l <> [] ->
  exists a s, String.concat sep l = String a s.
Proof.
  intros Hall Hne. destruct l as [|x l]; [congruence|].
  apply List.Forall_cons_iff in Hall as [Hx _].
  destruct x as [|a s]; [congruence|].
  destruct l; simpl; eauto.
Qed.

Lemma labels_of_snoc (done : list (string * list string)) (e : string * list string)
    (x : option string) :
  labels_of (done ++ [e]) x
  = labels_of done x ++ (if matches_label e x then [fst e] else []).
Proof.
  unfold labels_of. rewrite List.filter_app, map_app. simpl.
  now destruct (matches_label e x).
Qed.

Lemma labels_of_nonempty (taxonomy : list (string * list string)) (x : option string) :
  Forall (fun e => fst e <> "") taxonomy ->
  Forall (fun h => h <> "") (labels_of taxonomy x).
Proof.
  intros H. unfold labels_of. induction taxonomy as [|e t IH]; simpl; [constructor|].
  apply List.Forall_cons_iff in H as [He Ht].
  destruct (matches_label e x); simpl; auto.
Qed.

Lemma tag_lookup (m : mask) (h : string) (cats : list (option string)) (i : nat)
    (b : bool) (c : option string) :
  m !! i = Some b -> cats !! i = Some c ->
  Analyzer.tag m h cats !! i
  = Some (if b then
            match c with
            | Some (String a s) => Some (String.append (String a s) (String.append ", " h))
            | _ => Some h
            end
          else c).
Proof.
  revert cats i. induction m as [|b' m IH]; intros [|c' cats] [|i]; simpl; try discriminate.
  - intros [= ->] [= ->]. reflexivity.
  - apply IH.
Qed.

Lemma tag_unmatched (f : option string -> bool) (h : string) (narr cats : list (option string)) :
  (forall x, In x narr -> f x = false) -> Analyzer.tag (map f narr) h cats = cats.
Proof.
  revert cats. induction narr as [|x narr IH]; intros cats H; [reflexivity|].
  destruct cats as [|c cats]; [reflexivity|]. simpl.
  rewrite (H x (or_introl eq_refl)). f_equal. apply IH. intros x' Hx'. apply H. now right.
Qed.

(** The cell of a row after one more label. *)
Lemma tagged_cell (done : list (string * list string)) (e : string * list string)
    (x : option string) :
  Forall (fun e => fst e <> "") done -> fst e <> "" ->
  (if matches_label e x then
     match Some (String.concat ", " (labels_of done x)) with
     | Some (String a s) => Some (String.append (String a s) (String.append ", " (fst e)))
     | _ => Some (fst e)
     end
   else Some (String.concat ", " (labels_of done x)))
  = Some (String.concat ", " (labels_of (done ++ [e]) x)).
Proof.
  intros Hdone He. rewrite labels_of_snoc.
  destruct (matches_label e x); [|now rewrite app_nil_r].
  rewrite concat_snoc.
  destruct (labels_of done x) as [|l ls] eqn:Hl; [reflexivity|].
  destruct (concat_nonempty ", " (l :: ls)) as (a & s & Hs); [|discriminate|].
  - rewrite <- Hl. now apply labels_of_nonempty.
  - now rewrite Hs.
Qed.

(** One round of the loop extends the labels listed in every row. *)
Lemma classify_categories (filtered_df : DataFrame) (st st' : Analyzer.loop_state)
    (done : list (string * list string)) (e : string * list string)
    (narr : list (option string)) :
  Forall (fun e => fst e <> "") done -> fst e <> "" ->
  categories_upto done (Analyzer.df_copy st) narr ->
  Analyzer.classify filtered_df st e = Ok st' ->
  categories_upto (done ++ [e]) (Analyzer.df_copy st') narr.
Proof.
  intros Hdone He (Hne & Hlen & Hn & cats & Hcat & Hcl & Hcells) H.
  destruct e as [h ps]. unfold Analyzer.classify in H.
  rewrite Hn in H. cbn [rbind] in H. unfold Analyzer.str_contains in H.
  destruct (Re.compile (String.concat "|" ps)) as [r|] eqn:Hr; [|discriminate].
  cbn [rbind] in H. fold (matches r) in H.
  assert (Hml : forall x, matches_label (h, ps) x = matches r x).
  { intros x. unfold matches_label. cbn [snd]. now rewrite Hr. }
  set (m := map (matches r) narr) in *.
  rewrite (len_loc _ m narr Hne Hlen) in H.
  assert (Hnew : forall i x, narr !! i = Some x ->
            Analyzer.tag m h cats !! i
            = Some (Some (String.concat ", " (labels_of (done ++ [(h, ps)]) x)))).
  { intros i x Hi.
    rewrite (tag_lookup m h cats i (matches r x) (Some (String.concat ", " (labels_of done x)))).
    - rewrite <- Hml. f_equal. now apply tagged_cell.
    - subst m. rewrite map_lookup, Hi. reflexivity.
    - auto. }
  destruct (0 <? length (select m narr))%nat eqn:Hpos.
  - rewrite Hcat in H. cbn [rbind] in H.
    destruct (getitem (loc (Analyzer.df_copy st) m) "product") as [prod|]; [|discriminate].
    cbn [rbind] in H. destruct (Analyzer.mode0 prod); [|discriminate]. cbn [rbind] in H.
    destruct (getitem (loc (Analyzer.df_copy st) m) "company") as [comp|]; [|discriminate].
    cbn [rbind] in H. destruct (Analyzer.mode0 comp); [|discriminate]. cbn [rbind] in H.
    injection H as <-. cbn [Analyzer.df_copy Analyzer.tag_series].
    split; [apply setitem_not_nil|].
    split; [rewrite len_setitem; auto; simpl; rewrite tag_length; congruence|].
    split; [now rewrite getitem_setitem_ne by discriminate|].
    eexists. split; [apply getitem_setitem_eq|]. split; [now rewrite tag_length|exact Hnew].
  - injection H as <-.
    assert (Hnone : forall x, In x narr -> matches r x = false).
    { apply Nat.ltb_ge in Hpos. intros x Hx.
      destruct (matches r x) eqn:Hx'; [|reflexivity].
      assert (Hin : In x (select m narr)).
      { subst m. rewrite select_map_filter. apply filter_In. auto. }
      destruct (select m narr); [destruct Hin|simpl in Hpos; lia]. }
    split; [exact Hne|]. split; [exact Hlen|]. split; [exact Hn|].
    exists cats. split; [exact Hcat|]. split; [exact Hcl|].
    intros i x Hi. rewrite <- (Hnew i x Hi). subst m. now rewrite tag_unmatched.
Qed.

Lemma classify_all_categories (filtered_df : DataFrame) (narr : list (option string))
    (taxonomy : list (string * list string)) :
  forall (done : list (string * list string)) (st st' : Analyzer.loop_state),
    Forall (fun e => fst e <> "") done ->
    Forall (fun e => fst e <> "") taxonomy ->
    categories_upto done (Analyzer.df_copy st) narr ->
    Analyzer.classify_all filtered_df st taxonomy = Ok st' ->
    categories_upto (done ++ taxonomy) (Analyzer.df_copy st') narr.
Proof.
  induction taxonomy as [|e taxonomy IH]; intros done st st' Hdone Htax Hinv H.
  - injection H as <-. now rewrite app_nil_r.
  - apply List.Forall_cons_iff in Htax as [He Htax]. cbn [Analyzer.classify_all] in H.
    destruct (Analyzer.classify filtered_df st e) as [st1|] eqn:H1; [|discriminate].
    cbn [rbind] in H.
    pose proof (classify_categories filtered_df st st1 done e narr Hdone He Hinv H1) as Hinv1.
    replace (done ++ e :: taxonomy) with ((done ++ [e]) ++ taxonomy)
      by now rewrite <- app_assoc.
    apply (IH (done ++ [e]) st1 st'); auto.
    apply List.Forall_app. split; [exact Hdone|]. now constructor.
Qed.

Lemma repeat_lookup {A} (x : A) (n i : nat) : (i < n)%nat -> repeat x n !! i = Some x.
Proof.
  revert i. induction n as [|n IH]; intros [|i] H; simpl; try lia; [reflexivity|].
  apply IH. lia.
Qed.

Lemma harm_mechanisms_named : Forall (fun e => fst e <> "") Analyzer.harm_mechanisms.
Proof. repeat constructor; discriminate. Qed.

(** X14.  Whenever the classifier returns, the ["harm_categories"] cell of every
    complaint in the table it returns is the list of the labels whose
    combined pattern matches the narrative, in the order of the taxonomy,
    joined by [", "]; it is empty for a complaint that matches none. *)
Theorem harm_categories_list_the_labels (filtered_df : DataFrame)
    (narr : list (option string)) (res : Analyzer.analysis) :
  well_formed filtered_df = true ->
  getitem filtered_df "consumer_complaint_narrative" = Ok (ObjectCol narr) ->
  Analyzer.analyze_harm_mechanisms
    (Analyzer.setattr Analyzer.__init__ "filtered_df" (Analyzer.VFrame filtered_df))
  = Ok res ->
  exists cats,
    getitem (Analyzer.df_with_categories res) "harm_categories" = Ok (ObjectCol cats)
    /\ length cats = length narr
    /\ forall i x, narr !! i = Some x ->
         cats !! i = Some (Some (String.concat ", " (labels_of Analyzer.harm_mechanisms x))).
Proof.
  intros Hwf Hn H. unfold Analyzer.analyze_harm_mechanisms in H.
  rewrite getattr_setattr_eq in H. cbn [rbind] in H.
  rewrite getattr_setattr_ne, init_harm_mechanisms in H by discriminate.
  cbn [rbind Analyzer.as_taxonomy] in H.
  destruct (Analyzer.classify_all _ _ _) as [st|] eqn:Hrun; [|discriminate].
  cbn [rbind] in H.
  destruct (Analyzer.harm_summary st); [discriminate|]. injection H as <-.
  cbn [Analyzer.df_with_categories].
  pose proof (well_formed_getitem _ _ _ Hwf Hn) as Ln. simpl in Ln.
  assert (Hne : filtered_df <> []) by (intros ->; discriminate).
  set (st0 := {| Analyzer.results := []; Analyzer.harm_summary := [];
                 Analyzer.df_copy :=
                   setitem filtered_df "harm_categories"
                     (ObjectCol (repeat (Some "") (len filtered_df))) |}) in Hrun.
  assert (Hinv0 : categories_upto [] (Analyzer.df_copy st0) narr).
  { cbn [Analyzer.df_copy st0]. split; [apply setitem_not_nil|].
    split; [rewrite len_setitem; auto; simpl; now rewrite repeat_length|].
    split; [now rewrite getitem_setitem_ne by discriminate|].
    eexists. split; [apply getitem_setitem_eq|]. rewrite repeat_length.
    split; [auto|]. intros i x Hi. cbn.
    apply lookup_lt_Some in Hi. rewrite Ln in Hi.
    now rewrite (repeat_lookup (Some "") _ i Hi). }
  destruct (classify_all_categories filtered_df narr Analyzer.harm_mechanisms [] st0 st
              (List.Forall_nil _) harm_mechanisms_named Hinv0 Hrun) as (_ & _ & _ & Hcats).
  exact Hcats.
Qed.

End ClassifierEdges.

Section ClassifierEdgesWitness.
Import Pandas Spec.

Lemma nothing_matches_raises_witness :
  Forall (fun x => labels_of Analyzer.harm_mechanisms x = [])
    [Some "I would like a copy of my statement"; Some "thank you"]
  /\ Analyzer.analyze_harm_mechanisms
       (Analyzer.setattr Analyzer.__init__ "filtered_df"
          (Analyzer.VFrame Samples.quiet_corpus))
     = Raise (KeyError "Count").
Proof.
  assert (H : Forall (fun x => labels_of Analyzer.harm_mechanisms x = [])
                [Some "I would like a copy of my statement"; Some "thank you"]).
  { repeat constructor; vm_compute; reflexivity. }
  split; [exact H|].
  exact (nothing_matches_raises Samples.quiet_corpus _ eq_refl H).
Defined.

Lemma harm_categories_list_the_labels_witness :
  exists res cats,
    well_formed Samples.mixed_corpus = true
    /\ Analyzer.analyze_harm_mechanisms
         (Analyzer.setattr Analyzer.__init__ "filtered_df"
            (Analyzer.VFrame Samples.mixed_corpus)) = Ok res
    /\ getitem (Analyzer.df_with_categories res) "harm_categories" = Ok (ObjectCol cats)
    /\ cats = [ Some "Misleading Marketing";
                Some "Hidden Fees, Harassment by Debt Collector";
                Some "" ]
    /\ forall i x,
         [ Some "a classic bait and switch";
           Some "a hidden fee, and they keep calling me";
           Some "thank you" ] !! i = Some x ->
         cats !! i
         = Some (Some (String.concat ", " (labels_of Analyzer.harm_mechanisms x))).
Proof.
  assert (Hex : exists res,
             Analyzer.analyze_harm_mechanisms
               (Analyzer.setattr Analyzer.__init__ "filtered_df"
                  (Analyzer.VFrame Samples.mixed_corpus)) = Ok res
             /\ getitem (Analyzer.df_with_categories res) "harm_categories"
                = Ok (ObjectCol [ Some "Misleading Marketing";
                                  Some "Hidden Fees, Harassment by Debt Collector";
                                  Some "" ])).
  { eexists. split; vm_compute; reflexivity. }
  destruct Hex as (res & Hres & Hcats).
  destruct (harm_categories_list_the_labels Samples.mixed_corpus _ res eq_refl eq_refl Hres)
    as (cats & Hc & _ & Hcells).
  exists res, cats. split; [reflexivity|]. split; [exact Hres|]. split; [exact Hc|].
  split; [congruence|exact Hcells].
Defined.

End ClassifierEdgesWitness.

(** ** The special categories *)

Section SpecialCategories.
Import Pandas Spec.
Variable parse : string -> option Z.

Lemma init_no_simulation :
  Analyzer.getattr Analyzer.__init__ "_get_simulated_special_categories"
  = Raise (AttributeError "_get_simulated_special_categories").
Proof. vm_compute. reflexivity. Qed.

(** X15.  An analyzer whose data was never loaded cannot report the special
    categories: the method that should supply simulated figures does not
    exist.  This is so for a new analyzer and after any call of its
    loader. *)
Theorem special_categories_without_data (csv : result DataFrame) :
  Analyzer.analyze_special_categories Analyzer.__init__
  = Raise (AttributeError "_get_simulated_special_categories")
  /\ Analyzer.analyze_special_categories
       (fst (Analyzer.load_and_filter_data parse Analyzer.__init__ csv))
     = Raise (AttributeError "_get_simulated_special_categories").
Proof.
  split; [vm_compute; reflexivity|].
  unfold Analyzer.load_and_filter_data, Analyzer.analyze_special_categories.
  destruct csv as [df|e];
    [|cbn [fst]; rewrite init_filtered_df; cbn [rbind]; now rewrite init_no_simulation].
  destruct (let! received := getitem df "date_received" in
            to_datetime parse false received) as [received|e].
  - pose proof (filter_loaded_raises df
                  (setitem df "date_received" (DatetimeCol received))
                  (setitem df "date_received" (DatetimeCol received))) as Hr.
    destruct (Analyzer.filter_loaded _ _) as [filtered|e]; [discriminate|].
    cbn [fst]. rewrite !getattr_setattr_ne, init_filtered_df by discriminate.
    cbn [rbind]. rewrite ?getattr_setattr_ne by discriminate. now rewrite init_no_simulation.
  - cbn [fst]. rewrite getattr_setattr_ne, init_filtered_df by discriminate.
    cbn [rbind]. rewrite ?getattr_setattr_ne by discriminate. now rewrite init_no_simulation.
Qed.

(** *** Patterns made of plain words *)

Lemma match_prefix_Void (s : string) : Re.match_prefix Re.Void s = false.
Proof. induction s as [|c s IH]; [reflexivity|]. simpl. exact IH. Qed.

Lemma match_prefix_Eps (s : string) : Re.match_prefix Re.Eps s = true.
Proof. destruct s; reflexivity. Qed.

Lemma regex_eqb_eq (r s : Re.regex) : Re.regex_eqb r s = true -> r = s.
Proof.
  revert s. induction r as [| |a| |r1 IH1 r2 IH2|r1 IH1 r2 IH2|r IH]; intros [| |b| |s1 s2|s1 s2|s];
    simpl; try discriminate; try reflexivity.
  - intros H. apply Ascii.eqb_eq in H. now subst.
  - intros H. apply andb_true_iff in H as [H1 H2]. f_equal; auto.
  - intros H. apply andb_true_iff in H as [H1 H2]. f_equal; auto.
  - intros H. f_equal. auto.
Qed.

Lemma match_prefix_Alt (s : string) (r1 r2 : Re.regex) :
  Re.match_prefix (Re.Alt r1 r2) s = Re.match_prefix r1 s || Re.match_prefix r2 s.
Proof.
  revert r1 r2. induction s as [|c s IH]; intros r1 r2.
  - simpl. now rewrite !orb_false_r.
  - cbn [Re.match_prefix Re.nullable Re.deriv].
    assert (Halt : forall a b,
              Re.match_prefix (Re.alt a b) s = Re.match_prefix a s || Re.match_prefix b s).
    { intros a b. unfold Re.alt.
      destruct a; try (now rewrite match_prefix_Void);
        destruct b; try (now rewrite match_prefix_Void, orb_false_r);
        (destruct (Re.regex_eqb _ _) eqn:He;
         [apply regex_eqb_eq in He; try rewrite <- He; now rewrite orb_diag|apply IH]). }
    rewrite Halt.
    destruct (Re.nullable r1), (Re.nullable r2), (Re.match_prefix (Re.deriv c r1) s),
      (Re.match_prefix (Re.deriv c r2) s); reflexivity.
Qed.

Lemma match_prefix_word (w s : string) : Re.match_prefix (word w) s = prefix_ci w s.
Proof.
  revert s. induction w as [|a w IH]; intros s; [apply match_prefix_Eps|].
  destruct w as [|b w].
  - destruct s as [|c s]; [reflexivity|].
    cbn [word Re.match_prefix Re.nullable Re.deriv prefix_ci orb].
    destruct (Ascii.eqb (PyStr.lower_char a) (PyStr.lower_char c)).
    + now rewrite match_prefix_Eps.
    + now rewrite match_prefix_Void.
  - destruct s as [|c s]; [reflexivity|].
    change (word (String a (String b w))) with (Re.Cat (Re.Chr a) (word (String b w))).
    cbn [Re.match_prefix Re.nullable Re.deriv andb orb].
    change (prefix_ci (String a (String b w)) (String c s))
      with (Ascii.eqb (PyStr.lower_char a) (PyStr.lower_char c)
            && prefix_ci (String b w) s).
    destruct (Ascii.eqb (PyStr.lower_char a) (PyStr.lower_char c)); cbn [andb].
    + assert (Hcat : Re.cat Re.Eps (word (String b w)) = word (String b w)).
      { unfold Re.cat. now destruct (word (String b w)). }
      rewrite Hcat. apply IH.
    + cbn [Re.cat]. apply match_prefix_Void.
Qed.

Lemma search_Alt (s : string) (r1 r2 : Re.regex) :
  Re.search (Re.Alt r1 r2) s = Re.search r1 s || Re.search r2 s.
Proof.
  induction s as [|c s IH]; cbn [Re.search]; rewrite match_prefix_Alt.
  - now rewrite !orb_false_r.
  - rewrite IH.
    destruct (Re.match_prefix r1 _), (Re.match_prefix r2 _), (Re.search r1 s),
      (Re.search r2 s); reflexivity.
Qed.

Lemma search_word (w s : string) : Re.search (word w) s = contains_ci w s.
Proof.
  induction s as [|c s IH]; cbn [Re.search contains_ci]; rewrite match_prefix_word;
    [reflexivity|now rewrite IH].
Qed.

Lemma search_one_of (ws : list string) (s : string) :
  ws <> [] -> Re.search (one_of ws) s = existsb (fun k => contains_ci k s) ws.
Proof.
  induction ws as [|w ws IH]; [congruence|]. intros _.
  destruct ws as [|w' ws].
  - cbn [one_of existsb]. now rewrite search_word, orb_false_r.
  - change (one_of (w :: w' :: ws)) with (Re.Alt (word w) (one_of (w' :: ws))).
    rewrite search_Alt, search_word, IH by discriminate. reflexivity.
Qed.

(** The three keyword lists give patterns of plain words. *)
Lemma keywords_compile :
  Re.compile (String.concat "|" Analyzer.ai_keywords) = Some (one_of Analyzer.ai_keywords)
  /\ Re.compile (String.concat "|" Analyzer.lep_keywords)
     = Some (one_of Analyzer.lep_keywords)
  /\ Re.compile (String.concat "|" Analyzer.fraud_digital_keywords)
     = Some (one_of Analyzer.fraud_digital_keywords).
Proof. split; [|split]; vm_compute; reflexivity. Qed.

Lemma keyword_complaints_mentions (df : DataFrame) (narr : list (option string))
    (attr : string) (keywords : list string) :
  attr <> "filtered_df" ->
  Analyzer.getattr Analyzer.__init__ attr = Ok (Analyzer.VStrings keywords) ->
  Re.compile (String.concat "|" keywords) = Some (one_of keywords) ->
  keywords <> [] ->
  getitem df "consumer_complaint_narrative" = Ok (ObjectCol narr) ->
  Analyzer.keyword_complaints
    (Analyzer.setattr Analyzer.__init__ "filtered_df" (Analyzer.VFrame df)) attr
  = Ok (loc df (map (mentions keywords) narr)).
Proof.
  intros Ha Hk Hc Hne Hn. unfold Analyzer.keyword_complaints.
  rewrite getattr_setattr_ne, Hk by congruence. cbn [rbind Analyzer.join_of].
  rewrite getattr_setattr_eq. cbn [rbind Analyzer.column_of]. rewrite Hn. cbn [rbind].
  unfold Analyzer.str_contains. rewrite Hc. cbn [rbind Analyzer.rows_of].
  do 2 f_equal. apply map_ext. intros [s|]; [|reflexivity].
  cbn [mentions]. now apply search_one_of.
Qed.

(** X16.  The three special categories are substring tests: a complaint is
    reported under a category exactly when its narrative contains one of
    the keywords of the category somewhere, in any case and also inside a
    longer word. *)
Theorem special_categories_are_substring_tests (df : DataFrame)
    (narr : list (option string)) :
  getitem df "consumer_complaint_narrative" = Ok (ObjectCol narr) ->
  Analyzer.analyze_special_categories
    (Analyzer.setattr Analyzer.__init__ "filtered_df" (Analyzer.VFrame df))
  = Ok {| Analyzer.ai_complaints := loc df (map (mentions Analyzer.ai_keywords) narr);
          Analyzer.lep_complaints := loc df (map (mentions Analyzer.lep_keywords) narr);
          Analyzer.fraud_digital_complaints :=
            loc df (map (mentions Analyzer.fraud_digital_keywords) narr) |}.
Proof.
  intros Hn. destruct keywords_compile as (Hai & Hlep & Hfraud).
  unfold Analyzer.analyze_special_categories.
  rewrite getattr_setattr_eq. cbn [rbind].
  rewrite (keyword_complaints_mentions df narr "ai_keywords" Analyzer.ai_keywords);
    [|discriminate|vm_compute; reflexivity|exact Hai|discriminate|exact Hn].
  rewrite (keyword_complaints_mentions df narr "lep_keywords" Analyzer.lep_keywords);
    [|discriminate|vm_compute; reflexivity|exact Hlep|discriminate|exact Hn].
  rewrite (keyword_complaints_mentions df narr "fraud_digital_keywords"
             Analyzer.fraud_digital_keywords);
    [|discriminate|vm_compute; reflexivity|exact Hfraud|discriminate|exact Hn].
  reflexivity.
Qed.

End SpecialCategories.

Section SpecialCategoriesWitness.
Import Pandas Spec.

(** "paid" counts as a mention of AI, "application" as one of an app. *)
Lemma special_categories_are_substring_tests_witness :
  map (mentions Analyzer.ai_keywords)
    [ Some "I paid the bill in full"; Some "My loan application was denied";
      Some "The bank closed the branch" ] = [true; false; false]
  /\ map (mentions Analyzer.fraud_digital_keywords)
       [ Some "I paid the bill in full"; Some "My loan application was denied";
         Some "The bank closed the branch" ] = [false; true; false]
  /\ exists res,
       Analyzer.analyze_special_categories
         (Analyzer.setattr Analyzer.__init__ "filtered_df"
            (Analyzer.VFrame Samples.plain_corpus)) = Ok res
       /\ getitem (Analyzer.ai_complaints res) "complaint_id" = Ok (ObjectCol [Some "1"])
       /\ getitem (Analyzer.fraud_digital_complaints res) "complaint_id"
          = Ok (ObjectCol [Some "2"]).
Proof.
  split; [vm_compute; reflexivity|]. split; [vm_compute; reflexivity|].
  eexists. split.
  - exact (special_categories_are_substring_tests Samples.plain_corpus _ eq_refl).
  - split; vm_compute; reflexivity.
Defined.

End SpecialCategoriesWitness.

(** ** The year-over-year comparison *)

Section TrendChanges.
Import Pandas Spec.
Variable parse : string -> option Z.

(** X17.  For an analyzer built by the constructor, whatever was assigned to
    [filtered_df] afterwards: without a path the comparison returns [None];
    with a path it never returns, because the exclusion list it reads is
    not an attribute of the class.  When the historical file has its three
    columns and its dates can be read, the exception is the
    [AttributeError] for [credit_exclusions]. *)
Theorem trend_changes_never_computed (v : Analyzer.pyval) (df : DataFrame)
    (dates narrative prod : Series) (received : list (option Z)) :
  getitem df "date_received" = Ok dates ->
  to_datetime parse false dates = Ok received ->
  getitem df "consumer_complaint_narrative" = Ok narrative ->
  getitem df "product" = Ok prod ->
  let self := Analyzer.setattr Analyzer.__init__ "filtered_df" v in
  Analyzer.calculate_trend_changes parse self None = Ok None
  /\ Analyzer.calculate_trend_changes parse self (Some (Ok df))
     = Raise (AttributeError "credit_exclusions")
  /\ forall csv, is_ok (Analyzer.calculate_trend_changes parse self (Some csv)) = false.
Proof.
  intros Hd Hr Hn Hp self.
  assert (Hex : Analyzer.getattr self "credit_exclusions"
                = Raise (AttributeError "credit_exclusions")).
  { unfold self. rewrite getattr_setattr_ne by discriminate. apply init_has_no_exclusions. }
  split; [reflexivity|]. split.
  - unfold Analyzer.calculate_trend_changes. cbn [rbind]. rewrite Hd. cbn [rbind].
    rewrite Hr. cbn [rbind]. rewrite getitem_setitem_eq. cbn [rbind ge_datetime le_datetime].
    rewrite !getitem_setitem_ne by discriminate. rewrite Hn, Hp. cbn [rbind].
    rewrite Hex. reflexivity.
  - intros [d|e]; [|reflexivity]. unfold Analyzer.calculate_trend_changes. cbn [rbind].
    destruct (getitem d "date_received") as [s|]; [|reflexivity]. cbn [rbind].
    destruct (to_datetime parse false s) as [r|]; [|reflexivity]. cbn [rbind].
    rewrite getitem_setitem_eq. cbn [rbind ge_datetime le_datetime].
    destruct (getitem (setitem d "date_received" (DatetimeCol r))
                "consumer_complaint_narrative"); [|reflexivity]. cbn [rbind].
    destruct (getitem (setitem d "date_received" (DatetimeCol r)) "product");
      [|reflexivity]. cbn [rbind].
    rewrite Hex. reflexivity.
Qed.

End TrendChanges.

Section TrendChangesWitness.
Import Pandas Spec.

Lemma trend_changes_never_computed_witness :
  let self :=
    Analyzer.setattr Analyzer.__init__ "filtered_df" (Analyzer.VFrame Samples.corpus) in
  getitem Samples.historical_csv "date_received"
  = Ok (ObjectCol [Some "2024-05-01"; Some "2024-06-01"])
  /\ to_datetime iso_date false (ObjectCol [Some "2024-05-01"; Some "2024-06-01"])
     = Ok [Some (datetime 2024 5 1); Some (datetime 2024 6 1)]
  /\ Analyzer.calculate_trend_changes iso_date self (Some (Ok Samples.historical_csv))
     = Raise (AttributeError "credit_exclusions").
Proof.
  intros self. split; [reflexivity|]. split; [reflexivity|].
  exact (proj1 (proj2 (trend_changes_never_computed iso_date (Analyzer.VFrame Samples.corpus)
                         Samples.historical_csv _ _ _ _ eq_refl eq_refl eq_refl eq_refl))).
Defined.

End TrendChangesWitness.

(** ** The reports on a table without narratives *)

Section ReportsLite.
Import Pandas Spec.
Variable parse : string -> option Z.
Variable value_counts : Series -> list (Analyzer.scalar * nat).
Hypothesis value_counts_lists : lists_values value_counts.

Lemma getitem_raises (df : DataFrame) (c : string) (e : exn) :
  getitem df c = Raise e -> e = KeyError c.
Proof.
  induction df as [|[c' s'] df IH]; simpl; [now intros [= <-]|].
  destruct (String.eqb c' c); [discriminate|exact IH].
Qed.

Lemma select_columns_no_label (df : DataFrame) (c : string) (labels : list (option string)) :
  exists key, Reports.select_columns df (Some c :: None :: labels) = Raise (KeyError key).
Proof.
  cbn [Reports.select_columns]. destruct (getitem df c) as [s|e] eqn:Hc.
  - cbn [rbind]. eauto.
  - apply getitem_raises in Hc as ->. cbn [rbind]. eauto.
Qed.

Lemma slice_to_nonempty {A} (n : Z) (xs : list A) :
  0 < n -> xs <> [] -> exists x xs', Search.slice_to n xs = x :: xs'.
Proof.
  intros Hn Hne. unfold Search.slice_to.
  destruct (Z.ltb_spec n 0); [lia|].
  destruct xs as [|x xs]; [congruence|].
  destruct (Z.to_nat n) as [|k] eqn:Hk; [lia|]. simpl. eauto.
Qed.

Lemma select_lookup_true {A} (m : mask) (xs : list A) (i : nat) (x : A) :
  m !! i = Some true -> xs !! i = Some x -> In x (select m xs).
Proof.
  revert xs i. induction m as [|b m IH]; intros [|y xs] [|i]; simpl; try discriminate.
  - intros [= ->] [= ->]. now left.
  - intros Hm Hx. destruct b; [right|]; eauto.
Qed.

Lemma notna_select (m : mask) (s : Series) (i : nat) :
  m !! i = Some true -> notna s !! i = Some true ->
  existsb id (notna (series_select m s)) = true.
Proof.
  intros Hm Hs. apply existsb_exists. exists true. split; [|reflexivity].
  destruct s as [xs|xs|n]; cbn [notna series_select] in *;
    [| |now apply repeat_false_lookup in Hs];
    rewrite <- select_map; eapply select_lookup_true; eauto.
Qed.

Lemma len_loc_pos (df : DataFrame) (m : mask) (i : nat) :
  well_formed df = true -> df <> [] -> (i < len df)%nat -> m !! i = Some true ->
  empty (loc df m) = false.
Proof.
  intros Hwf Hne Hi Hm. destruct df as [|[c s] df]; [congruence|].
  unfold empty. apply Nat.eqb_neq. simpl in *.
  assert (Hsel : forall {A} (xs : list A), (i < length xs)%nat -> length (select m xs) <> 0%nat).
  { intros A xs Hlt. destruct (lookup_lt_is_Some_2 xs i Hlt) as [x Hx].
    pose proof (select_lookup_true m xs i x Hm Hx) as Hin.
    destruct (select m xs); [destruct Hin|simpl; lia]. }
  destruct s as [xs|xs|n]; simpl in *; apply Hsel; now rewrite ?repeat_length.
Qed.

(** X18.  On a table without a narrative column, as the loader returns it in lite
    mode, [get_sub_trends] raises [KeyError] as soon as the product has a
    complaint with an issue: the list of labels it selects then holds
    [None]. *)
Theorem sub_trends_fail_without_narratives (df : DataFrame) (prods : list (option string))
    (issues : Series) (p : string) (i : nat) (top_n : Z) :
  well_formed df = true ->
  has_column df Search.narrative_column = false ->
  getitem df "Product" = Ok (ObjectCol prods) ->
  getitem df "Issue" = Ok issues ->
  prods !! i = Some (Some p) ->
  notna issues !! i = Some true ->
  0 < top_n ->
  exists key,
    Reports.get_sub_trends parse value_counts (Some df) (Analyzer.SStr p) top_n
    = Raise (KeyError key).
Proof.
  intros Hwf Hnarr Hp Hi Hrow Hissue Htop.
  pose proof (well_formed_getitem _ _ _ Hwf Hp) as Lp. simpl in Lp.
  assert (Hlt : (i < len df)%nat) by (rewrite <- Lp; eapply lookup_lt_Some; eauto).
  assert (Hne : df <> []) by (intros ->; discriminate).
  unfold Reports.get_sub_trends.
  destruct (Nat.eqb_spec (len df) 0) as [H0|_]; [lia|].
  rewrite Hp. cbn [rbind Reports.eq_value].
  set (m := map (fun x => match x with Some x => String.eqb x p | None => false end) prods).
  assert (Hm : m !! i = Some true).
  { subst m. rewrite map_lookup, Hrow. simpl. now rewrite String.eqb_refl. }
  rewrite (len_loc_pos df m i Hwf Hne Hlt Hm).
  rewrite getitem_loc, Hi. cbn [rbind].
  destruct (slice_to_nonempty top_n (value_counts (series_select m issues)) Htop)
    as ([issue n] & rest & ->).
  { apply value_counts_lists. eapply notna_select; eauto. }
  cbn [Reports.for_each].
  unfold Reports.narrative_label. rewrite has_column_loc, Hnarr.
  destruct (select_columns_no_label
              (loc (loc df m) (Reports.eq_value parse (series_select m issues) issue))
              "Complaint ID" [Some "Company"; Some "State"; Some "Date received"])
    as [key ->].
  exists key. reflexivity.
Qed.

(** X19.  Likewise [get_top_companies]: on a table without a narrative column it
    raises [KeyError] as soon as one complaint names a company that is not
    a credit bureau. *)
Theorem top_companies_fail_without_narratives (df : DataFrame)
    (companies : list (option string)) (c : string) (i : nat) (top_n : Z) :
  well_formed df = true ->
  has_column df Search.narrative_column = false ->
  getitem df "Company" = Ok (ObjectCol companies) ->
  companies !! i = Some (Some c) ->
  PyStr.mem c Reports.exclude = false ->
  0 < top_n ->
  exists key,
    Reports.get_top_companies parse value_counts (Some df) top_n = Raise (KeyError key).
Proof.
  intros Hwf Hnarr Hc Hrow Hex Htop.
  pose proof (well_formed_getitem _ _ _ Hwf Hc) as Lc. simpl in Lc.
  assert (Hlt : (i < len df)%nat) by (rewrite <- Lc; eapply lookup_lt_Some; eauto).
  unfold Reports.get_top_companies.
  destruct (Nat.eqb_spec (len df) 0) as [H0|_]; [lia|].
  rewrite Hc. cbn [rbind]. rewrite getitem_loc, Hc. cbn [rbind].
  set (m := mask_not (isin (ObjectCol companies) Reports.exclude)).
  assert (Hm : m !! i = Some true).
  { subst m. unfold mask_not, isin. rewrite !map_lookup, Hrow. cbn [option_map].
    now rewrite Hex. }
  destruct (slice_to_nonempty top_n
              (value_counts (series_select m (ObjectCol companies))) Htop)
    as ([company n] & rest & ->).
  { apply value_counts_lists. apply (notna_select m (ObjectCol companies) i Hm).
    cbn [notna]. rewrite map_lookup, Hrow. reflexivity. }
  cbn [Reports.for_each rbind series_select].
  set (cdf := loc (loc df m) _).
  destruct (getitem cdf "Issue") as [issues|e] eqn:Hi.
  - cbn [rbind]. unfold Reports.narrative_label.
    assert (Hn : has_column cdf Search.narrative_column = false)
      by (subst cdf; now rewrite !has_column_loc).
    rewrite Hn.
    destruct (select_columns_no_label cdf "Complaint ID"
                [Some "Issue"; Some "Product"; Some "Date received"]) as [key ->].
    exists key. reflexivity.
  - apply getitem_raises in Hi as ->. cbn [rbind]. eauto.
Qed.

End ReportsLite.

Section ReportsLiteWitness.
Import Pandas Spec.

Lemma tally_nonempty (xs : list Analyzer.scalar) : xs <> [] -> tally xs <> [].
Proof.
  destruct xs as [|x xs]; [congruence|]. intros _. cbn [tally].
  destruct (existsb _ (tally xs)) eqn:He; [|discriminate].
  destruct (tally xs); [discriminate|]. discriminate.
Qed.

Lemma insert_count_nonempty (p : Analyzer.scalar * nat) (l : list (Analyzer.scalar * nat)) :
  insert_count p l <> [].
Proof. destruct l as [|x l]; simpl; [|destruct (snd x <=? snd p)%nat]; discriminate. Qed.

Lemma dropna_nonempty {A} (xs : list (option A)) :
  existsb id (map (fun x => bool_decide (is_Some x)) xs) = true -> Analyzer.dropna xs <> [].
Proof.
  induction xs as [|[x|] xs IH]; simpl; [discriminate|intros _; discriminate|].
  first [exact IH | rewrite bool_decide_eq_false_2 by (intros [? ?]; discriminate); exact IH].
Qed.

Lemma counts_by_frequency_lists : lists_values counts_by_frequency.
Proof.
  intros s H. unfold counts_by_frequency.
  assert (Hne : match s with
                | ObjectCol xs => tally (map Analyzer.SStr (Analyzer.dropna xs))
                | DatetimeCol xs => tally (map Analyzer.STime (Analyzer.dropna xs))
                | MissingCol _ => []
                end <> []).
  { destruct s as [xs|xs|n]; cbn [notna] in H;
      [| |now rewrite existsb_repeat_false in H];
      apply tally_nonempty;
      apply dropna_nonempty in H; destruct (Analyzer.dropna xs); [congruence|discriminate
      |congruence|discriminate]. }
  destruct (match s with ObjectCol _ => _ | DatetimeCol _ => _ | MissingCol _ => _ end)
    as [|p l]; [congruence|]. cbn [fold_right]. apply insert_count_nonempty.
Qed.

Lemma sub_trends_fail_without_narratives_witness :
  well_formed Samples.lite_table = true
  /\ has_column Samples.lite_table Search.narrative_column = false
  /\ Reports.get_sub_trends iso_date counts_by_frequency (Some Samples.lite_table)
       (Analyzer.SStr "Mortgage") 5 = Raise (KeyError "None")
  /\ exists key,
       Reports.get_sub_trends iso_date counts_by_frequency (Some Samples.lite_table)
         (Analyzer.SStr "Mortgage") 5 = Raise (KeyError key).
Proof.
  split; [reflexivity|]. split; [reflexivity|]. split; [vm_compute; reflexivity|].
  apply (sub_trends_fail_without_narratives iso_date counts_by_frequency counts_by_frequency_lists
           Samples.lite_table _ _ "Mortgage" 0%nat 5 eq_refl eq_refl eq_refl eq_refl
           eq_refl eq_refl).
  lia.
Defined.

Lemma top_companies_fail_without_narratives_witness :
  well_formed Samples.lite_table = true
  /\ has_column Samples.lite_table Search.narrative_column = false
  /\ Reports.get_top_companies iso_date counts_by_frequency (Some Samples.lite_table) 10
     = Raise (KeyError "None")
  /\ exists key,
       Reports.get_top_companies iso_date counts_by_frequency (Some Samples.lite_table) 10
       = Raise (KeyError key).
Proof.
  split; [reflexivity|]. split; [reflexivity|]. split; [vm_compute; reflexivity|].
  apply (top_companies_fail_without_narratives iso_date counts_by_frequency
           counts_by_frequency_lists Samples.lite_table _ "ACME BANK" 0%nat 10
           eq_refl eq_refl eq_refl eq_refl eq_refl).
  lia.
Defined.

End ReportsLiteWitness.

(** ** The address of the API and the links to complaints *)

Section Addresses.

Lemma rstrip_char_app (c : ascii) (s : string) :
  PyStr.rstrip_char c (String.append s (String c EmptyString)) = PyStr.rstrip_char c s.
Proof.
  induction s as [|a s IH].
  - simpl. now rewrite Ascii.eqb_refl.
  - change (String.append (String a s) (String c EmptyString))
      with (String a (String.append s (String c EmptyString))).
    cbn [PyStr.rstrip_char]. now rewrite IH.
Qed.

Lemma rstrip_char_cons (c a : ascii) (s : string) :
  PyStr.rstrip_char c (String a s) =
  match PyStr.rstrip_char c s with
  | EmptyString => if Ascii.eqb a c then EmptyString else String a EmptyString
  | r => String a r
  end.
Proof. reflexivity. Qed.

Lemma rstrip_char_idem (c : ascii) (s : string) :
  PyStr.rstrip_char c (PyStr.rstrip_char c s) = PyStr.rstrip_char c s.
Proof.
  induction s as [|a s IH]; [reflexivity|]. rewrite rstrip_char_cons.
  destruct (PyStr.rstrip_char c s) as [|b r] eqn:Hr.
  - destruct (Ascii.eqb a c) eqn:Ha; [reflexivity|]. rewrite rstrip_char_cons.
    cbn [PyStr.rstrip_char]. now rewrite Ha.
  - rewrite rstrip_char_cons, IH. reflexivity.
Qed.

(** X20.  However many slashes end [CFPB_SEARCH_API_BASE], the address that the
    requests go to ends with exactly one: it is a text without a final
    slash followed by one slash, and slashes added to the variable do not
    change it. *)
Theorem base_url_one_slash (base : string) (n : nat) :
  (exists stem, Search.base_url (Some base) = String.append stem "/"
                /\ PyStr.rstrip_char "/" stem = stem)
  /\ Search.base_url (Some (Nat.iter n (fun b => String.append b "/") base))
     = Search.base_url (Some base).
Proof.
  unfold Search.base_url. cbn [default from_option]. split.
  - eexists. split; [reflexivity|]. apply rstrip_char_idem.
  - f_equal. unfold id. induction n as [|n IH]; [reflexivity|].
    rewrite Nat.iter_succ. cbv beta. rewrite rstrip_char_app. exact IH.
Qed.

Lemma append_inj (p a b : string) : String.append p a = String.append p b -> a = b.
Proof.
  induction p as [|c p IH]; [auto|].
  change (String c (String.append p a) = String c (String.append p b) -> a = b).
  intros [= H]. auto.
Qed.

(** X21.  Links and ids correspond one to one: there is one link per id, in the
    same order, and different ids never get the same link. *)
Theorem complaint_links_distinct (complaint_ids : list string) :
  length (Search.generate_complaint_links complaint_ids) = length complaint_ids
  /\ (forall i j a b,
        Search.generate_complaint_links complaint_ids !! i = Some a ->
        Search.generate_complaint_links complaint_ids !! j = Some b ->
        a = b -> complaint_ids !! i = complaint_ids !! j).
Proof.
  unfold Search.generate_complaint_links. split; [apply length_map|].
  intros i j a b Hi Hj Hab. rewrite map_lookup in Hi, Hj.
  destruct (complaint_ids !! i) as [x|]; [|discriminate].
  destruct (complaint_ids !! j) as [y|]; [|discriminate].
  simpl in Hi, Hj. injection Hi as <-. injection Hj as <-.
  f_equal. eapply append_inj. exact Hab.
Qed.

End Addresses.

(** ** The rows that the lite loader keeps *)

Section LiteRows.
Import Pandas Spec.


















Section Process.
Variable parse : string -> option Z.





End Process.

End LiteRows.

(** ** Failure and empty results (C7) *)

Section FailureSentinel.
Import Pandas Spec.




End FailureSentinel.
